(** * Strive workout tracker: the workout-mutation API over its relational store

    A shallow embedding of [server/index.js] and [database/schema.sql].

    - The four tables of the schema are lists of records, in the column
      order of [schema.sql].  A [serial] column draws its default from a
      sequence kept in the store.
    - Every SQL statement of the server is a function from a store to an
      outcome and a new store; primary keys, unique constraints, [NOT NULL]
      and the three foreign keys of the schema are checked where PostgreSQL
      checks them, and a statement that raises leaves the tables as they
      were.
    - Every route handler is a function from its request data and a store to
      a response and a new store.  A [throw] in a handler and a rejected
      promise both end in the error middleware, so both are the
      [Failed] response.
    - Numbers in request bodies and route parameters are integers ([Z]);
      the [numeric] column [weight] is a rational ([Q]) compared with
      numeric equality.  An integer that does not fit the [int] column it is
      written to or compared with is refused by the database when the
      statement is bound; the statements are modelled for integers that fit,
      and a property that concludes what a route answers assumes [int4] of
      the integers the request carries, unless they name rows that exist.
    - The database fixes no order on the rows of a select without
      [order by], and an update writes a row anew.  A list holds the rows in
      one order only; what is said of rows an update rewrote, or of a select
      over them, is said up to permutation, by membership or by count.
    - The statements a handler issues through the pool are run in the
      order the handler issues them; where two statements of one call write
      the same row, a property names no winner. *)

From Stdlib Require Import ZArith QArith Qminmax List Bool String Lia.
From Stdlib Require Import Sorted Permutation RelationClasses.
Import ListNotations.
Open Scope Z_scope.

(** ** Tables of [schema.sql] *)

Module User.
Record t := mk
  { userId : Z; username : string; hashedPassword : string; createdAt : Z }.
End User.

Module Workout.
Record t := mk
  { workoutId : Z; userId : Z; completedAt : option Z;
    workoutName : option string }.
End Workout.

Module Exercise.
Record t := mk
  { exerciseId : Z; name : string; muscleGroup : string;
    equipment : option string }.
End Exercise.

Module SetRow.
Record t := mk
  { workoutId : Z; exerciseId : Z; setOrder : Z;
    reps : option Z; weight : option Q }.
End SetRow.

(** The store: the four tables and the sequences behind
    ["users"."userId"] and ["workouts"."workoutId"]. *)
Record store := mkStore
  { users : list User.t;
    workouts : list Workout.t;
    exercises : list Exercise.t;
    sets : list SetRow.t;
    users_userId_seq : Z;
    workouts_workoutId_seq : Z }.

(** ** Failures and responses *)

(** What a handler can throw or a query can reject with. *)
Inductive failure :=
| ClientError (status : Z) (message : string)
| TypeError
| UniqueViolation (constraint : string)
| ForeignKeyViolation (constraint : string)
| NotNullViolation (column : string).

Inductive error_kind := InvalidInput | Unauthorized | ReferentialIntegrity | Unhandled.

(** Modelled from the spec: [error-middleware.js] is not among the sources.
    The taxonomy of the error-handling design: a client error with status
    401 is Unauthorized, any other client error is InvalidInput, a
    foreign-key violation is ReferentialIntegrity and every other store or
    runtime failure is Unhandled. *)
Definition classify (f : failure) : error_kind :=
  match f with
  | ClientError status _ => if status =? 401 then Unauthorized else InvalidInput
  | ForeignKeyViolation _ => ReferentialIntegrity
  | TypeError | UniqueViolation _ | NotNullViolation _ => Unhandled
  end.

(** The result of one [db.query]: the rows of [result.rows], or the
    rejection. *)
Inductive outcome (A : Type) :=
| Rows (rows : list A)
| Rejected (f : failure).
Arguments Rows {A} rows.
Arguments Rejected {A} f.

(** What the client gets: [res.status(n).json(body)], or the failure handed
    to the error middleware. *)
Inductive response (B : Type) :=
| Sent (status : Z) (body : B)
| Failed (f : failure).
Arguments Sent {B} status body.
Arguments Failed {B} f.

Definition failed_with {B} (k : error_kind) (r : response B) : Prop :=
  match r with
  | Failed f => classify f = k
  | Sent _ _ => False
  end.

(** ** JavaScript and SQL values *)

(** [!n] is taken for a number [n] that is [0] (or [NaN], which no integer
    is). *)
Definition truthy (n : Z) : bool := negb (n =? 0).

(** A string is truthy unless it is missing or empty. *)
Definition truthy_string (x : option string) : bool :=
  match x with
  | Some s => negb (String.eqb s EmptyString)
  | None => false
  end.

Definition is_null {A} (x : option A) : bool :=
  match x with Some _ => false | None => true end.

Definition option_eqb {A} (eqb : A -> A -> bool) (x y : option A) : bool :=
  match x, y with
  | Some a, Some b => eqb a b
  | None, None => true
  | _, _ => false
  end.

(** ** Lookups used by the constraints *)

Definition workout_exists (s : store) (workoutId : Z) : bool :=
  existsb (fun w => Workout.workoutId w =? workoutId) (workouts s).

Definition exercise_exists (s : store) (exerciseId : Z) : bool :=
  existsb (fun e => Exercise.exerciseId e =? exerciseId) (exercises s).

Definition user_exists (s : store) (userId : Z) : bool :=
  existsb (fun u => User.userId u =? userId) (users s).

Definition username_taken (s : store) (username : string) : bool :=
  existsb (fun u => String.eqb (User.username u) username) (users s).

Definition with_sets (s : store) (rows : list SetRow.t) : store :=
  mkStore (users s) (workouts s) (exercises s) rows
          (users_userId_seq s) (workouts_workoutId_seq s).

Definition with_workouts (s : store) (rows : list Workout.t) : store :=
  mkStore (users s) rows (exercises s) (sets s)
          (users_userId_seq s) (workouts_workoutId_seq s).

(** [where "workoutId" = w and "exerciseId" = e] on ["sets"]. *)
Definition of_pair (workoutId exerciseId : Z) (r : SetRow.t) : bool :=
  (SetRow.workoutId r =? workoutId) && (SetRow.exerciseId r =? exerciseId).

(** [where "setOrder" = k and "workoutId" = w and "exerciseId" = e]. *)
Definition of_key (workoutId exerciseId setOrder : Z) (r : SetRow.t) : bool :=
  (SetRow.setOrder r =? setOrder) && of_pair workoutId exerciseId r.

(** ** POST /api/auth/sign-up *)

(** [insert into "users" ("username", "hashedPassword") values ($1, $2)].
    The sequence is advanced whether or not the row is accepted. *)
Definition insert_user (username hashedPassword : string) (now : Z) (s : store)
  : outcome User.t * store :=
  let id := users_userId_seq s in
  let bump rows :=
    mkStore rows (workouts s) (exercises s) (sets s) (id + 1)
            (workouts_workoutId_seq s) in
  if user_exists s id then (Rejected (UniqueViolation "users_pk"), bump (users s))
  else if username_taken s username
  then (Rejected (UniqueViolation "users_username_key"), bump (users s))
  else
    let row := User.mk id username hashedPassword now in
    (Rows [row], bump (users s ++ [row])).


(** The handler; [hashedPassword] is what [argon2.hash(password)] resolved
    to and [now] the clock of the insert.  The body of the 201 is given by
    the inserted row, of which [returning "userId", "username", "createdAt"]
    sends the three columns of [returned_user] and not the hash. *)
Definition post_auth_sign_up (username password hashedPassword : string)
  (now : Z) (s : store) : response (option User.t) * store :=
  if negb (truthy_string (Some username)) || negb (truthy_string (Some password))
  then (Failed (ClientError 400 "ERROR: Username and password are required fields."), s)
  else
    match insert_user username hashedPassword now s with
    | (Rows rows, s') => (Sent 201 (hd_error rows), s')
    | (Rejected f, s') => (Failed f, s')
    end.

(** ** POST /api/new-workout *)

(** [insert into "workouts" ("userId", "workoutName") values ($1, $2)]. *)
Definition insert_workout (userId : Z) (workoutName : option string) (s : store)
  : outcome Workout.t * store :=
  let id := workouts_workoutId_seq s in
  let bump rows :=
    mkStore (users s) rows (exercises s) (sets s) (users_userId_seq s) (id + 1) in
  if workout_exists s id
  then (Rejected (UniqueViolation "workouts_pk"), bump (workouts s))
  else if negb (user_exists s userId)
  then (Rejected (ForeignKeyViolation "workouts_fk0"), bump (workouts s))
  else
    let row := Workout.mk id userId None workoutName in
    (Rows [row], bump (workouts s ++ [row])).

Definition post_new_workout (userId : Z) (workoutName : option string) (s : store)
  : response (option Workout.t) * store :=
  if negb (truthy userId) then (Failed (ClientError 400 "ERROR: Invalid user."), s)
  else
    match insert_workout userId workoutName s with
    | (Rows rows, s') => (Sent 201 (hd_error rows), s')
    | (Rejected f, s') => (Failed f, s')
    end.

(** ** POST /api/workout/new-exercises *)

(** The [values] list: one [($1, $k, 1)] per identifier. *)
Definition new_exercise_rows (workoutId : Z) (exerciseIds : list Z) : list SetRow.t :=
  map (fun id => SetRow.mk workoutId id 1 None None) exerciseIds.

(** The foreign keys of a ["sets"] row. *)
Definition set_row_fk (s : store) (r : SetRow.t) : option failure :=
  if negb (workout_exists s (SetRow.workoutId r))
  then Some (ForeignKeyViolation "sets_fk0")
  else if negb (exercise_exists s (SetRow.exerciseId r))
  then Some (ForeignKeyViolation "sets_fk1")
  else None.

Fixpoint first_failure {A} (check : A -> option failure) (l : list A) : option failure :=
  match l with
  | [] => None
  | x :: t =>
      match check x with
      | Some f => Some f
      | None => first_failure check t
      end
  end.

(** [insert into "sets" (...) values ... returning *]: one statement, so a
    row that violates a foreign key rejects the whole batch. *)
Definition insert_sets (rows : list SetRow.t) (s : store) : outcome SetRow.t * store :=
  match first_failure (set_row_fk s) rows with
  | Some f => (Rejected f, s)
  | None => (Rows rows, with_sets s (sets s ++ rows))
  end.

Definition post_workout_new_exercises (workoutId : Z) (exerciseIds : list Z) (s : store)
  : response (list SetRow.t) * store :=
  if negb (truthy workoutId) || (Z.of_nat (List.length exerciseIds) <? 1)
  then (Failed (ClientError 400 "ERROR: Existing workoutId and exerciseId are required"), s)
  else
    match insert_sets (new_exercise_rows workoutId exerciseIds) s with
    | (Rows addedSets, s') => (Sent 201 addedSets, s')
    | (Rejected f, s') => (Failed f, s')
    end.

(** ** PATCH /api/workout/:workoutId *)

(** The request body: [{ exercises: [{ exerciseId, sets: [{ reps, weight,
    setOrder }] }], workoutName }]. *)
Module SetEntry.
Record t := mk { reps : option Z; weight : option Q; setOrder : Z }.
End SetEntry.

Module ExerciseEntry.
Record t := mk { exerciseId : Z; sets : list SetEntry.t }.
End ExerciseEntry.

(** The three statements the handler can issue, with their parameters. *)
Inductive statement :=
| UpdateSql (reps : option Z) (weight : option Q) (setOrder workoutId exerciseId : Z)
| AddSql (reps : option Z) (weight : option Q) (setOrder workoutId exerciseId : Z)
| NameSql (workoutId : Z) (workoutName : string).

(** [update "sets" set "reps" = $1, "weight" = $2 where "setOrder" = $3 and
    "workoutId" = $4 and "exerciseId" = $5 returning *]. *)
Definition update_set (reps : option Z) (weight : option Q)
  (setOrder workoutId exerciseId : Z) (s : store) : outcome SetRow.t * store :=
  let hit := of_key workoutId exerciseId setOrder in
  let write r :=
    SetRow.mk (SetRow.workoutId r) (SetRow.exerciseId r) (SetRow.setOrder r) reps weight in
  (Rows (map write (filter hit (sets s))),
   with_sets s (map (fun r => if hit r then write r else r) (sets s))).

(** [insert into "sets" ("reps", "weight", "setOrder", "workoutId",
    "exerciseId") values ($1, $2, $3, $4, $5) returning *]. *)
Definition add_set (reps : option Z) (weight : option Q)
  (setOrder workoutId exerciseId : Z) (s : store) : outcome SetRow.t * store :=
  insert_sets [SetRow.mk workoutId exerciseId setOrder reps weight] s.

(** [update "workouts" set "workoutName" = $2 where "workoutId" = $1
    returning *]. *)
Definition update_workout_name (workoutId : Z) (workoutName : string) (s : store)
  : outcome Workout.t * store :=
  let hit w := Workout.workoutId w =? workoutId in
  let write w :=
    Workout.mk (Workout.workoutId w) (Workout.userId w) (Workout.completedAt w)
               (Some workoutName) in
  (Rows (map write (filter hit (workouts s))),
   with_workouts s (map (fun w => if hit w then write w else w) (workouts s))).

(** The callback of [sets.map]: the branch on [setOrder === 1]. *)
Definition set_statement (workoutId exerciseId : Z) (set : SetEntry.t) : statement :=
  if SetEntry.setOrder set =? 1
  then UpdateSql (SetEntry.reps set) (SetEntry.weight set) (SetEntry.setOrder set)
                 workoutId exerciseId
  else AddSql (SetEntry.reps set) (SetEntry.weight set) (SetEntry.setOrder set)
              workoutId exerciseId.

(** The callback of [exercises.flatMap]: the statements of the sets, and
    after them the name statement when [workoutName] is truthy. *)
Definition exercise_statements (workoutId : Z) (workoutName : option string)
  (exercise : ExerciseEntry.t) : list statement :=
  let setPromises :=
    map (set_statement workoutId (ExerciseEntry.exerciseId exercise))
        (ExerciseEntry.sets exercise) in
  match workoutName with
  | Some name =>
      if truthy_string (Some name) then setPromises ++ [NameSql workoutId name]
      else setPromises
  | None => setPromises
  end.

Definition exercisePromises (workoutId : Z) (workoutName : option string)
  (exercises : list ExerciseEntry.t) : list statement :=
  flat_map (exercise_statements workoutId workoutName) exercises.

(** One [db.query]: whether it was rejected, and the store after it. *)
Definition run_statement (q : statement) (s : store) : option failure * store :=
  match q with
  | UpdateSql reps weight setOrder workoutId exerciseId =>
      match update_set reps weight setOrder workoutId exerciseId s with
      | (Rows _, s') => (None, s')
      | (Rejected f, s') => (Some f, s')
      end
  | AddSql reps weight setOrder workoutId exerciseId =>
      match add_set reps weight setOrder workoutId exerciseId s with
      | (Rows _, s') => (None, s')
      | (Rejected f, s') => (Some f, s')
      end
  | NameSql workoutId workoutName =>
      match update_workout_name workoutId workoutName s with
      | (Rows _, s') => (None, s')
      | (Rejected f, s') => (Some f, s')
      end
  end.

(** [Promise.all]: every statement runs, none is rolled back; the first
    rejection, if any, is the rejection of the whole. *)
Fixpoint run_statements (qs : list statement) (s : store) : option failure * store :=
  match qs with
  | [] => (None, s)
  | q :: rest =>
      let (r, s1) := run_statement q s in
      let (r', s2) := run_statements rest s1 in
      (match r with Some f => Some f | None => r' end, s2)
  end.

(** The handler.  [exercises] is [None] when the body has no such field. *)
Definition patch_workout (workoutId : Z) (exercises : option (list ExerciseEntry.t))
  (workoutName : option string) (s : store) : response unit * store :=
  match exercises with
  | None => (Failed (ClientError 400 "ERROR: Missing exercises."), s)
  | Some exercises =>
      match run_statements (exercisePromises workoutId workoutName exercises) s with
      | (None, s') => (Sent 204 tt, s')
      | (Some f, s') => (Failed f, s')
      end
  end.

(** ** PATCH /api/workout/:workoutId/exercise/:exerciseId *)

(** [update "sets" set "exerciseId" = $3 where "workoutId" = $1 and
    "exerciseId" = $2 returning *].  [newExerciseId] is [None] when the body
    has no such field; the constraints are checked only if a row is
    written. *)
Definition replace_exercise (workoutId exerciseId : Z) (newExerciseId : option Z)
  (s : store) : outcome SetRow.t * store :=
  let hit := of_pair workoutId exerciseId in
  match filter hit (sets s) with
  | [] => (Rows [], s)
  | _ :: _ =>
      match newExerciseId with
      | None => (Rejected (NotNullViolation "exerciseId"), s)
      | Some new =>
          if negb (exercise_exists s new)
          then (Rejected (ForeignKeyViolation "sets_fk1"), s)
          else
            let write r :=
              SetRow.mk (SetRow.workoutId r) new (SetRow.setOrder r)
                        (SetRow.reps r) (SetRow.weight r) in
            (Rows (map write (filter hit (sets s))),
             with_sets s (map (fun r => if hit r then write r else r) (sets s)))
      end
  end.

Definition patch_workout_exercise (workoutId exerciseId : Z) (newExerciseId : option Z)
  (s : store) : response (list SetRow.t) * store :=
  if negb (truthy workoutId) || negb (truthy exerciseId)
  then (Failed (ClientError 400 "ERROR: Missing valid workoutId or exerciseId"), s)
  else
    match replace_exercise workoutId exerciseId newExerciseId s with
    | (Rows replacedExerciseSets, s') => (Sent 204 replacedExerciseSets, s')
    | (Rejected f, s') => (Failed f, s')
    end.

(** ** PATCH /api/workout/:workoutId/completed *)

(** [update "workouts" set "completedAt" = $3, "workoutName" = $2 where
    "workoutId" = $1]. *)
Definition complete_workout (workoutId : Z) (workoutName : option string) (date : Z)
  (s : store) : outcome Workout.t * store :=
  let hit w := Workout.workoutId w =? workoutId in
  let write w :=
    Workout.mk (Workout.workoutId w) (Workout.userId w) (Some date) workoutName in
  (Rows [], with_workouts s (map (fun w => if hit w then write w else w) (workouts s))).

(** The handler; [date] is the [new Date()] of the request. *)
Definition patch_workout_completed (workoutId : Z) (workoutName : option string)
  (date : Z) (s : store) : response unit * store :=
  if negb (truthy workoutId)
  then (Failed (ClientError 400 "ERROR: Existing workoutId is required"), s)
  else
    match complete_workout workoutId workoutName date s with
    | (Rows _, s') => (Sent 204 tt, s')
    | (Rejected f, s') => (Failed f, s')
    end.

(** ** DELETE /api/workout/:workoutId/exercise/:exerciseId *)

(** [delete from "sets" where "workoutId" = $1 and "exerciseId" = $2
    returning *]. *)
Definition delete_sets_of (workoutId exerciseId : Z) (s : store)
  : outcome SetRow.t * store :=
  let hit := of_pair workoutId exerciseId in
  (Rows (filter hit (sets s)), with_sets s (filter (fun r => negb (hit r)) (sets s))).

Definition delete_workout_exercise (workoutId exerciseId : Z) (s : store)
  : response (list SetRow.t) * store :=
  if negb (truthy workoutId) || negb (truthy exerciseId)
  then (Failed (ClientError 400 "ERROR: Missing valid workoutId or exerciseId"), s)
  else
    match delete_sets_of workoutId exerciseId s with
    | (Rows deletedSets, s') => (Sent 204 deletedSets, s')
    | (Rejected f, s') => (Failed f, s')
    end.

(** ** DELETE /api/user/empty-workouts *)

(** [where "completedAt" is null and "userId" = $1] on ["workouts"]. *)
Definition abandoned_by (userId : Z) (w : Workout.t) : bool :=
  is_null (Workout.completedAt w) && (Workout.userId w =? userId).

(** The statement
    [WITH workoutDelete AS (DELETE from "workouts" where "completedAt" is
    null and "userId" = $1 returning "workoutId") delete from "sets" where
    "workoutId" in (select "workoutId" from workoutDelete)].
    Both deletes belong to one statement; ["sets_fk0"] is checked for the
    deleted workouts when the statement ends, against the set rows that are
    left. *)
Definition delete_empty_workouts (userId : Z) (s : store) : outcome SetRow.t * store :=
  let workoutDelete :=
    map Workout.workoutId (filter (abandoned_by userId) (workouts s)) in
  let in_workoutDelete (r : SetRow.t) :=
    existsb (fun id => SetRow.workoutId r =? id) workoutDelete in
  let kept_workouts := filter (fun w => negb (abandoned_by userId w)) (workouts s) in
  let kept_sets := filter (fun r => negb (in_workoutDelete r)) (sets s) in
  let still_referenced (id : Z) :=
    if existsb (fun r => SetRow.workoutId r =? id) kept_sets
    then Some (ForeignKeyViolation "sets_fk0") else None in
  match first_failure still_referenced workoutDelete with
  | Some f => (Rejected f, s)
  | None =>
      (Rows [],
       mkStore (users s) kept_workouts (exercises s) kept_sets
               (users_userId_seq s) (workouts_workoutId_seq s))
  end.

Definition delete_user_empty_workouts (userId : Z) (s : store)
  : response (list SetRow.t) * store :=
  if negb (truthy userId) then (Failed (ClientError 400 "ERROR: Invalid user."), s)
  else
    match delete_empty_workouts userId s with
    | (Rows rows, s') => (Sent 204 rows, s')
    | (Rejected f, s') => (Failed f, s')
    end.

(** ** GET /api/workout/:workoutId *)

(** A row of the select: the columns of ["sets"], and the joined
    ["exercises"] and ["workouts"] rows the other columns are read from. *)
Module Joined.
Record t := mk { set : SetRow.t; exercise : Exercise.t; workout : Workout.t }.
End Joined.

(** [from "sets" join "exercises" using ("exerciseId") join "workouts" using
    ("workoutId")]. *)
Definition sets_join (s : store) : list Joined.t :=
  flat_map (fun r =>
    flat_map (fun e =>
      if SetRow.exerciseId r =? Exercise.exerciseId e then
        flat_map (fun w =>
          if SetRow.workoutId r =? Workout.workoutId w then [Joined.mk r e w] else [])
          (workouts s)
      else [])
      (exercises s))
    (sets s).

(** [where "sets"."workoutId" = $1 and "workouts"."workoutId" = $1]. *)
Definition workout_rows (workoutId : Z) (s : store) : list Joined.t :=
  filter (fun j => (SetRow.workoutId (Joined.set j) =? workoutId)
                   && (Workout.workoutId (Joined.workout j) =? workoutId))
         (sets_join s).

Module SetView.
Record t := mk { setOrder : Z; reps : option Z; weight : option Q }.
End SetView.

Module ExerciseView.
Record t := mk
  { exerciseId : Z; name : string; equipment : option string; sets : list SetView.t }.
End ExerciseView.

Module WorkoutView.
Record t := mk
  { workoutId : Z; workoutName : option string; exercises : list ExerciseView.t }.
End WorkoutView.

(** The object literal [{ setOrder: 1, reps: null, weight: null }]. *)
Definition placeholder_set : SetView.t := SetView.mk 1 None None.

(** The callback of [result.rows.map]. *)
Definition exerObj (exercise : Joined.t) : ExerciseView.t :=
  ExerciseView.mk (SetRow.exerciseId (Joined.set exercise))
                  (Exercise.name (Joined.exercise exercise))
                  (Exercise.equipment (Joined.exercise exercise))
                  [placeholder_set].

(** The handler.  [result.rows[0].workoutName] on an empty result reads a
    property of [undefined]: a [TypeError] inside the promise chain. *)
Definition get_workout (workoutId : Z) (s : store) : response WorkoutView.t :=
  if negb (truthy workoutId) then Failed (ClientError 400 "ERROR: Invalid workoutId.")
  else
    match workout_rows workoutId s with
    | [] => Failed TypeError
    | row0 :: rest =>
        let workoutName := Workout.workoutName (Joined.workout row0) in
        let splitExercises := map exerObj (row0 :: rest) in
        Sent 200 (WorkoutView.mk workoutId workoutName splitExercises)
    end.

(** ** GET /api/user/all-workouts *)

Definition get_user_all_workouts (userId : Z) (s : store) : response (list Workout.t) :=
  if negb (truthy userId) then Failed (ClientError 400 "ERROR: Invalid user.")
  else
    Sent 200 (filter (fun w => (Workout.userId w =? userId)
                               && negb (is_null (Workout.completedAt w)))
                     (workouts s)).

(** ** GET /api/user/workout-sets *)

(** [order by]: rows are put in order by a stable insertion sort on the
    comparison [leb]. *)
Fixpoint insert_by {A} (leb : A -> A -> bool) (x : A) (l : list A) : list A :=
  match l with
  | [] => [x]
  | y :: t => if leb x y then x :: y :: t else y :: insert_by leb x t
  end.

Fixpoint order_by {A} (leb : A -> A -> bool) (l : list A) : list A :=
  match l with
  | [] => []
  | x :: t => insert_by leb x (order_by leb t)
  end.

(** The distinct values of a list, each at its first occurrence. *)
Fixpoint distinct {K} (eqb : K -> K -> bool) (l : list K) : list K :=
  match l with
  | [] => []
  | k :: t => k :: filter (fun k' => negb (eqb k k')) (distinct eqb t)
  end.

(** [group by] and [partition by]: one group per distinct key, holding the
    rows of that key. *)
Definition group_by {A K} (key : A -> K) (eqb : K -> K -> bool) (l : list A)
  : list (K * list A) :=
  map (fun k => (k, filter (fun a => eqb k (key a)) l)) (distinct eqb (map key l)).

(** [from "sets" join "workouts" using ("workoutId") join "exercises" using
    ("exerciseId")]. *)
Definition sets_workouts_exercises (s : store) : list Joined.t :=
  flat_map (fun r =>
    flat_map (fun w =>
      if SetRow.workoutId r =? Workout.workoutId w then
        flat_map (fun e =>
          if SetRow.exerciseId r =? Exercise.exerciseId e then [Joined.mk r e w] else [])
          (exercises s)
      else [])
      (workouts s))
    (sets s).

(** [where "reps" IS NOT NULL and "weight" IS NOT NULL and "userId" = $1]. *)
Definition recorded_by (userId : Z) (j : Joined.t) : bool :=
  negb (is_null (SetRow.reps (Joined.set j)))
  && negb (is_null (SetRow.weight (Joined.set j)))
  && (Workout.userId (Joined.workout j) =? userId).

(** ["reps" * "weight"], null when either is. *)
Definition volume (r : SetRow.t) : option Q :=
  match SetRow.reps r, SetRow.weight r with
  | Some n, Some w => Some (inject_Z n * w)%Q
  | _, _ => None
  end.

(** Equality on the eleven columns of the [group by] of ["bestSetCTE"];
    nulls group together. *)
Definition same_group (a b : Joined.t) : bool :=
  (SetRow.exerciseId (Joined.set a) =? SetRow.exerciseId (Joined.set b))
  && (SetRow.workoutId (Joined.set a) =? SetRow.workoutId (Joined.set b))
  && (SetRow.setOrder (Joined.set a) =? SetRow.setOrder (Joined.set b))
  && option_eqb Z.eqb (SetRow.reps (Joined.set a)) (SetRow.reps (Joined.set b))
  && option_eqb Qeq_bool (SetRow.weight (Joined.set a)) (SetRow.weight (Joined.set b))
  && (Workout.userId (Joined.workout a) =? Workout.userId (Joined.workout b))
  && option_eqb Z.eqb (Workout.completedAt (Joined.workout a))
                      (Workout.completedAt (Joined.workout b))
  && option_eqb String.eqb (Workout.workoutName (Joined.workout a))
                           (Workout.workoutName (Joined.workout b))
  && String.eqb (Exercise.name (Joined.exercise a)) (Exercise.name (Joined.exercise b))
  && String.eqb (Exercise.muscleGroup (Joined.exercise a))
                (Exercise.muscleGroup (Joined.exercise b))
  && option_eqb String.eqb (Exercise.equipment (Joined.exercise a))
                           (Exercise.equipment (Joined.exercise b)).

(** The key of [partition by "workoutId", "exerciseId"]. *)
Definition pair_of (j : Joined.t) : Z * Z :=
  (SetRow.workoutId (Joined.set j), SetRow.exerciseId (Joined.set j)).

Definition pair_eqb (a b : Z * Z) : bool :=
  (fst a =? fst b) && (snd a =? snd b).

(** [order by "reps" * "weight" desc]: nulls sort first. *)
Definition volume_desc (a b : Joined.t) : bool :=
  match volume (Joined.set a), volume (Joined.set b) with
  | None, _ => true
  | Some _, None => false
  | Some x, Some y => Qle_bool y x
  end.

Module BestSet.
Record t := mk { row : Joined.t; volume : option Q; row_number : Z }.
End BestSet.

(** [row_number()] over one partition already in its order. *)
Definition number_rows (partition : list Joined.t) : list BestSet.t :=
  map (fun jn => BestSet.mk (fst jn) (volume (Joined.set (fst jn))) (Z.of_nat (snd jn)))
      (combine partition (seq 1 (List.length partition))).

Definition bestSetCTE (userId : Z) (s : store) : list BestSet.t :=
  let grouped :=
    distinct same_group (filter (recorded_by userId) (sets_workouts_exercises s)) in
  flat_map (fun g => number_rows (order_by volume_desc (snd g)))
           (group_by pair_of pair_eqb grouped).

Module TotalSets.
Record t := mk
  { totalSets : Z; exerciseId : Z; workoutId : Z; completedAt : option Z }.
End TotalSets.

(** The key of [group by "exercises"."exerciseId", "workouts"."workoutId",
    "sets"."exerciseId"]. *)
Definition total_key (j : Joined.t) : Z * Z * Z :=
  (Exercise.exerciseId (Joined.exercise j), Workout.workoutId (Joined.workout j),
   SetRow.exerciseId (Joined.set j)).

Definition total_key_eqb (a b : Z * Z * Z) : bool :=
  (fst (fst a) =? fst (fst b)) && (snd (fst a) =? snd (fst b)) && (snd a =? snd b).

Definition totalSetsCTE (userId : Z) (s : store) : list TotalSets.t :=
  let rows := filter (recorded_by userId) (sets_workouts_exercises s) in
  order_by (fun a b => TotalSets.exerciseId b <=? TotalSets.exerciseId a)
    (flat_map (fun g =>
       match snd g with
       | [] => []
       | j :: _ =>
           [TotalSets.mk (Z.of_nat (List.length (snd g)))
                         (SetRow.exerciseId (Joined.set j))
                         (Workout.workoutId (Joined.workout j))
                         (Workout.completedAt (Joined.workout j))]
       end)
       (group_by total_key total_key_eqb rows)).

Module Stat.
Record t := mk
  { equipment : option string; exerciseId : Z; name : string; reps : option Z;
    totalSets : Z; weight : option Q; workoutId : Z; workoutName : option string;
    completedAt : option Z }.
End Stat.

(** The select list of the query, read off a ["bestSetCTE"] row and the
    ["totalSetsCTE"] row joined to it. *)
Definition select_stat (j : Joined.t) (t : TotalSets.t) : Stat.t :=
  Stat.mk (Exercise.equipment (Joined.exercise j))
          (SetRow.exerciseId (Joined.set j))
          (Exercise.name (Joined.exercise j))
          (SetRow.reps (Joined.set j))
          (TotalSets.totalSets t)
          (SetRow.weight (Joined.set j))
          (SetRow.workoutId (Joined.set j))
          (Workout.workoutName (Joined.workout j))
          (TotalSets.completedAt t).

(** [from "bestSetCTE" join "totalSetsCTE" using ("workoutId", "exerciseId")
    where "row_number" = 1]. *)
Definition best_join_total (userId : Z) (s : store) : list Stat.t :=
  flat_map (fun b =>
    flat_map (fun t =>
      let j := BestSet.row b in
      if (SetRow.workoutId (Joined.set j) =? TotalSets.workoutId t)
         && (SetRow.exerciseId (Joined.set j) =? TotalSets.exerciseId t)
         && (BestSet.row_number b =? 1)
      then [select_stat j t]
      else [])
      (totalSetsCTE userId s))
    (bestSetCTE userId s).

(** The handler.  [name_leb] is the collation of the database: the order
    [order by "name" asc] sorts text in. *)
Definition get_user_workout_sets (name_leb : string -> string -> bool)
  (userId : Z) (s : store) : response (list Stat.t) :=
  if negb (truthy userId) then Failed (ClientError 400 "ERROR: Invalid user.")
  else
    Sent 200 (order_by (fun a b => name_leb (Stat.name a) (Stat.name b))
                       (best_join_total userId s)).

(** ** The service as a transition system *)

(** The requests that can write to the store. *)
Inductive request :=
| SignUp (username password hashedPassword : string) (now : Z)
| NewWorkout (userId : Z) (workoutName : option string)
| NewExercises (workoutId : Z) (exerciseIds : list Z)
| PatchWorkout (workoutId : Z) (exercises : option (list ExerciseEntry.t))
               (workoutName : option string)
| ReplaceExercise (workoutId exerciseId : Z) (newExerciseId : option Z)
| CompleteWorkout (workoutId : Z) (workoutName : option string) (date : Z)
| DeleteExercise (workoutId exerciseId : Z)
| DeleteEmptyWorkouts (userId : Z).

(** The store after a request is served. *)
Definition serve (q : request) (s : store) : store :=
  match q with
  | SignUp username password hashedPassword now =>
      snd (post_auth_sign_up username password hashedPassword now s)
  | NewWorkout userId workoutName => snd (post_new_workout userId workoutName s)
  | NewExercises workoutId exerciseIds =>
      snd (post_workout_new_exercises workoutId exerciseIds s)
  | PatchWorkout workoutId exercises workoutName =>
      snd (patch_workout workoutId exercises workoutName s)
  | ReplaceExercise workoutId exerciseId newExerciseId =>
      snd (patch_workout_exercise workoutId exerciseId newExerciseId s)
  | CompleteWorkout workoutId workoutName date =>
      snd (patch_workout_completed workoutId workoutName date s)
  | DeleteExercise workoutId exerciseId => snd (delete_workout_exercise workoutId exerciseId s)
  | DeleteEmptyWorkouts userId => snd (delete_user_empty_workouts userId s)
  end.

(** A fresh database: the schema loaded, the exercise catalogue seeded, the
    sequences at their first value. *)
Definition fresh (catalogue : list Exercise.t) : store :=
  mkStore [] [] catalogue [] 1 1.

(** The stores the service can be in. *)
Inductive reachable : store -> Prop :=
| reachable_fresh catalogue :
    NoDup (map Exercise.exerciseId catalogue) ->
    Forall (fun e => 1 <= Exercise.exerciseId e) catalogue ->
    reachable (fresh catalogue)
| reachable_serve q s : reachable s -> reachable (serve q s).

(** ** Integrity of a store *)

Record well_formed (s : store) : Prop :=
  { users_pk : NoDup (map User.userId (users s));
    workouts_pk : NoDup (map Workout.workoutId (workouts s));
    exercises_pk : NoDup (map Exercise.exerciseId (exercises s));
    workouts_serial : Forall (fun w => 1 <= Workout.workoutId w) (workouts s);
    workouts_seq_positive : 1 <= workouts_workoutId_seq s;
    workouts_fk0 :
      Forall (fun w => user_exists s (Workout.userId w) = true) (workouts s);
    sets_fk0 :
      Forall (fun r => workout_exists s (SetRow.workoutId r) = true) (sets s);
    sets_fk1 :
      Forall (fun r => exercise_exists s (SetRow.exerciseId r) = true) (sets s) }.

(** ** Counting rows *)

Definition count {A} (p : A -> bool) (l : list A) : nat := List.length (filter p l).

(** The rows of ["sets"] with a given [(workoutId, exerciseId, setOrder)]. *)
Definition rows_of_key (workoutId exerciseId setOrder : Z) (s : store) : list SetRow.t :=
  filter (of_key workoutId exerciseId setOrder) (sets s).

(** The rows of ["sets"] of one workout. *)
Definition rows_of_workout (workoutId : Z) (s : store) : list SetRow.t :=
  filter (fun r => SetRow.workoutId r =? workoutId) (sets s).


(** The row an insert statement carries, counted when it has the given key. *)
Definition adds (workoutId exerciseId setOrder : Z) (q : statement) : nat :=
  match q with
  | AddSql reps weight k w e =>
      if of_key workoutId exerciseId setOrder (SetRow.mk w e k reps weight)
      then 1%nat else 0%nat
  | UpdateSql _ _ _ _ _ | NameSql _ _ => 0%nat
  end.

(** An insert statement whose foreign keys are met in [s]. *)
Definition accepted (s : store) (q : statement) : Prop :=
  match q with
  | AddSql _ _ _ w e => workout_exists s w = true /\ exercise_exists s e = true
  | UpdateSql _ _ _ _ _ | NameSql _ _ => True
  end.

(** The shape of the statements the handler builds: an update is for
    [setOrder] 1 and an insert is not. *)
Definition built (q : statement) : Prop :=
  match q with
  | UpdateSql _ _ k _ _ => k = 1
  | AddSql _ _ k _ _ => k <> 1
  | NameSql _ _ => True
  end.

(** Every row of a workout carries the given name. *)
Definition named (workoutId : Z) (workoutName : string) (s : store) : Prop :=
  forall w, In w (workouts s) -> Workout.workoutId w = workoutId ->
            Workout.workoutName w = Some workoutName.

(** What identifies a workout and tells whether it is completed. *)
Definition status (w : Workout.t) : Z * option Z :=
  (Workout.workoutId w, Workout.completedAt w).

(** The rows both common table expressions start from. *)
Definition recorded_rows (userId : Z) (s : store) : list Joined.t :=
  filter (recorded_by userId) (sets_workouts_exercises s).

(** The pair has a recorded set of the user: a set row of the pair with
    [reps] and [weight] present, whose workout is owned by the user. *)
Definition recorded_pair (userId workoutId exerciseId : Z) (s : store) : Prop :=
  exists r w e,
    In r (sets s) /\ In w (workouts s) /\ In e (exercises s)
    /\ SetRow.workoutId r = workoutId /\ SetRow.exerciseId r = exerciseId
    /\ Workout.workoutId w = workoutId /\ Workout.userId w = userId
    /\ Exercise.exerciseId e = exerciseId
    /\ SetRow.reps r <> None /\ SetRow.weight r <> None.

(** The statistic rows of one [(workoutId, exerciseId)]. *)
Definition of_stat_pair (workoutId exerciseId : Z) (r : Stat.t) : bool :=
  (Stat.workoutId r =? workoutId) && (Stat.exerciseId r =? exerciseId).

(** The partition of ["bestSetCTE"] for one pair, and the rows of the pair
    in ["totalSetsCTE"]. *)
Definition partition_of (userId : Z) (s : store) (k : Z * Z) : list Joined.t :=
  filter (fun a => pair_eqb k (pair_of a)) (distinct same_group (recorded_rows userId s)).

Definition joins_pair (k : Z * Z) (t : TotalSets.t) : bool :=
  (fst k =? TotalSets.workoutId t) && (snd k =? TotalSets.exerciseId t).

(** ** Sample data *)

Definition bench : Exercise.t := Exercise.mk 1 "Bench Press" "Chest" (Some "Barbell"%string).
Definition squat : Exercise.t := Exercise.mk 2 "Squat" "Legs" (Some "Barbell"%string).
Definition pull_up : Exercise.t := Exercise.mk 3 "Pull Up" "Back" None.

Definition run (qs : list request) (s : store) : store :=
  fold_left (fun s q => serve q s) qs s.

(** Two users; ann has finished workout 1 and left workout 3 empty, bob has
    workout 2 in progress. *)
Definition gym : store :=
  run [SignUp "ann" "pw1" "hash1" 100; SignUp "bob" "pw2" "hash2" 101;
       NewWorkout 1 (Some "Push"%string); NewWorkout 2 None; NewWorkout 1 None;
       NewExercises 1 [1; 2]; NewExercises 2 [3];
       PatchWorkout 1
         (Some [ExerciseEntry.mk 1 [SetEntry.mk (Some 5) (Some 100%Q) 1;
                                    SetEntry.mk (Some 3) (Some 150%Q) 2];
                ExerciseEntry.mk 2 [SetEntry.mk (Some 8) (Some (45 # 2)%Q) 1]])
         None;
       CompleteWorkout 1 (Some "Push day"%string) 500]
      (fresh [bench; squat; pull_up]).

(** ** POST /api/auth/sign-in *)

(** The body of a successful sign-in: [{ token, user: { userId, username } }]. *)
Module Login.
Record t (T : Type) := mk { token : T; userId : Z; username : string }.
Arguments mk {T} token userId username.
Arguments token {T} t.
Arguments userId {T} t.
Arguments username {T} t.
End Login.



(** ** GET /api/all-usernames *)


(** ** GET /api/all-exercises *)

(** [select * from "exercises" order by "name" asc], in the collation
    [name_leb]. *)
Definition get_all_exercises (name_leb : string -> string -> bool) (s : store)
  : response (list Exercise.t) :=
  Sent 200 (order_by (fun a b => name_leb (Exercise.name a) (Exercise.name b))
                     (exercises s)).

(** ** The exercises page of the client *)

(** An element of the [allSelected] state: [{ name, exerciseId }]. *)
Module Selected.
Record t := mk { name : string; exerciseId : Z }.
End Selected.

(** [handleClick] of an exercise card: the new [isSelected] of the card and
    the new [allSelected]. *)
Definition handleClick (name : string) (exerciseId : Z) (isSelected : bool)
  (allSelected : list Selected.t) : bool * list Selected.t :=
  if negb isSelected
  then (true, allSelected ++ [Selected.mk name exerciseId])
  else (false,
        filter (fun exer => negb (Selected.exerciseId exer =? exerciseId)) allSelected).

(** The [savedExercises] array [handleSaveExercises] builds: for each
    selected exercise, the identifier of every exercise of the fetched list
    with the same identifier. *)
Definition savedExercises (allSelected : list Selected.t) (exercises : list Exercise.t)
  : list Z :=
  flat_map (fun exer =>
              flat_map (fun e =>
                          if Selected.exerciseId exer =? Exercise.exerciseId e
                          then [Exercise.exerciseId e] else [])
                       exercises)
           allSelected.

(** The request [handleSaveExercises] posts, as the server handles it. *)
Definition handleSaveExercises (workoutId : Z) (allSelected : list Selected.t)
  (exercises : list Exercise.t) (s : store) : response (list SetRow.t) * store :=
  post_workout_new_exercises workoutId (savedExercises allSelected exercises) s.

(** ** Further invariants *)

(** The sequences are ahead of every identifier they have handed out, and
    no two users share a name. *)
Record sequences_ahead (s : store) : Prop :=
  { users_below : Forall (fun u => User.userId u < users_userId_seq s) (users s);
    workouts_below :
      Forall (fun w => Workout.workoutId w < workouts_workoutId_seq s) (workouts s);
    usernames_unique : NoDup (map User.username (users s)) }.

(** The rows of ["sets"] of one [(workoutId, exerciseId)]. *)
Definition rows_of_pair (workoutId exerciseId : Z) (s : store) : list SetRow.t :=
  filter (of_pair workoutId exerciseId) (sets s).

(** The workout a request is addressed to, for the requests that write set
    rows of one workout. *)
Definition target (q : request) : option Z :=
  match q with
  | NewExercises workoutId _ | PatchWorkout workoutId _ _
  | ReplaceExercise workoutId _ _ | DeleteExercise workoutId _ => Some workoutId
  | SignUp _ _ _ _ | NewWorkout _ _ | CompleteWorkout _ _ _ | DeleteEmptyWorkouts _ => None
  end.

(** A set row with both [reps] and [weight] present. *)
Definition recorded (r : SetRow.t) : bool :=
  negb (is_null (SetRow.reps r)) && negb (is_null (SetRow.weight r)).



(** A statement that carries the given [workoutId]. *)
Definition aimed (workoutId : Z) (q : statement) : Prop :=
  match q with
  | UpdateSql _ _ _ w _ | AddSql _ _ _ w _ | NameSql w _ => w = workoutId
  end.

(** What identifies a workout and its owner. *)
Definition owner (w : Workout.t) : Z * Z := (Workout.workoutId w, Workout.userId w).

(** The columns of a set row a swap leaves alone. *)
Definition history (r : SetRow.t) : Z * Z * option Z * option Q :=
  (SetRow.workoutId r, SetRow.setOrder r, SetRow.reps r, SetRow.weight r).

(** ** Integers that fit their columns *)

(** The range of an [int] column. *)
Definition int4 (z : Z) : Prop := -2147483648 <= z <= 2147483647.

Definition int4_or_null (x : option Z) : Prop :=
  match x with
  | Some z => int4 z
  | None => True
  end.

(** A set entry whose [setOrder] and [reps] fit. *)
Definition fits (e : SetEntry.t) : Prop :=
  int4 (SetEntry.setOrder e) /\ int4_or_null (SetEntry.reps e).

(** ** What a body asks of the sets *)







(** * Properties *)

(** ** Lists *)

Lemma first_failure_none {A} (check : A -> option failure) (l : list A) :
  Forall (fun x => check x = None) l -> first_failure check l = None.
Proof.
  induction 1 as [|x l Hx _ IH]; simpl; [reflexivity|].
  now rewrite Hx.
Qed.

Lemma first_failure_some {A} (check : A -> option failure) (l : list A) x :
  In x l -> check x <> None -> first_failure check l <> None.
Proof.
  induction l as [|y l IH]; simpl; [tauto|].
  intros [->|Hin] Hx.
  - destruct (check x); [discriminate | tauto].
  - destruct (check y); [discriminate | auto].
Qed.

Lemma filter_length_app {A} (p : A -> bool) (l l' : list A) :
  List.length (filter p (l ++ l')) =
  (List.length (filter p l) + List.length (filter p l'))%nat.
Proof. now rewrite filter_app, length_app. Qed.

Lemma filter_none {A} (p : A -> bool) (l : list A) :
  filter p l = [] <-> Forall (fun x => p x = false) l.
Proof.
  induction l as [|x l IH]; simpl.
  - split; auto.
  - destruct (p x) eqn:Hx; split; intro H.
    + discriminate.
    + inversion H; congruence.
    + constructor; [assumption | now apply IH].
    + inversion H; now apply IH.
Qed.


(** ** The store under the statements *)

Lemma with_sets_same (s : store) : with_sets s (sets s) = s.
Proof. now destruct s. Qed.


Lemma truthy_true (n : Z) : truthy n = true <-> n <> 0.
Proof. unfold truthy. destruct (Z.eqb_spec n 0); simpl; split; congruence. Qed.

Lemma workout_exists_In (s : store) (id : Z) :
  workout_exists s id = true <->
  exists w, In w (workouts s) /\ Workout.workoutId w = id.
Proof.
  unfold workout_exists. rewrite existsb_exists.
  split; intros [w [Hin Hw]]; exists w; split; auto; lia.
Qed.

Lemma exercise_exists_In (s : store) (id : Z) :
  exercise_exists s id = true <->
  exists e, In e (exercises s) /\ Exercise.exerciseId e = id.
Proof.
  unfold exercise_exists. rewrite existsb_exists.
  split; intros [e [Hin He]]; exists e; split; auto; lia.
Qed.

Lemma insert_sets_accepts (rows : list SetRow.t) (s : store) :
  Forall (fun r => workout_exists s (SetRow.workoutId r) = true
                   /\ exercise_exists s (SetRow.exerciseId r) = true) rows ->
  insert_sets rows s = (Rows rows, with_sets s (sets s ++ rows)).
Proof.
  intro H. unfold insert_sets.
  rewrite first_failure_none; [reflexivity|].
  eapply Forall_impl; [|exact H].
  intros r [Hw He]. unfold set_row_fk. now rewrite Hw, He.
Qed.

Lemma insert_sets_rejects (rows : list SetRow.t) (s : store) f :
  fst (insert_sets rows s) = Rejected f -> snd (insert_sets rows s) = s.
Proof.
  unfold insert_sets. destruct (first_failure _ rows); simpl; [reflexivity | discriminate].
Qed.

Lemma new_exercise_rows_fk (workoutId : Z) (exerciseIds : list Z) (s : store) :
  workout_exists s workoutId = true ->
  Forall (fun id => exercise_exists s id = true) exerciseIds ->
  Forall (fun r => workout_exists s (SetRow.workoutId r) = true
                   /\ exercise_exists s (SetRow.exerciseId r) = true)
         (new_exercise_rows workoutId exerciseIds).
Proof.
  intros Hw Hall. unfold new_exercise_rows. rewrite Forall_map.
  eapply Forall_impl; [|exact Hall]. simpl. auto.
Qed.

Lemma new_exercise_rows_of_key (workoutId exerciseId : Z) (exerciseIds : list Z) :
  List.length (filter (of_key workoutId exerciseId 1)
                      (new_exercise_rows workoutId exerciseIds)) =
  count_occ Z.eq_dec exerciseIds exerciseId.
Proof.
  induction exerciseIds as [|id ids IH]; simpl; [reflexivity|].
  unfold of_key, of_pair; simpl. rewrite Z.eqb_refl. simpl.
  destruct (Z.eq_dec id exerciseId) as [->|Hne].
  - rewrite Z.eqb_refl. simpl. now f_equal.
  - destruct (Z.eqb_spec id exerciseId); [contradiction | exact IH].
Qed.

Lemma post_workout_new_exercises_accepts workoutId exerciseIds s :
  workoutId <> 0 -> exerciseIds <> [] ->
  workout_exists s workoutId = true ->
  Forall (fun id => exercise_exists s id = true) exerciseIds ->
  post_workout_new_exercises workoutId exerciseIds s =
  (Sent 201 (new_exercise_rows workoutId exerciseIds),
   with_sets s (sets s ++ new_exercise_rows workoutId exerciseIds)).
Proof.
  intros Hw Hne Hex Hall. unfold post_workout_new_exercises.
  apply truthy_true in Hw. rewrite Hw. simpl.
  destruct exerciseIds as [|id ids]; [contradiction|].
  replace (Z.of_nat (List.length (id :: ids)) <? 1) with false
    by (symmetry; apply Z.ltb_ge; simpl List.length; lia).
  now rewrite insert_sets_accepts by now apply new_exercise_rows_fk.
Qed.

(** ** Attaching exercises *)

(** C4.  Attaching an empty list of exercise identifiers fails with
    InvalidInput and leaves the store as it was.  Attaching a non-empty list
    to an existing workout, every identifier naming an exercise of the
    catalogue, answers 201 with the new rows and appends to ["sets"] exactly
    one row per listed identifier, each with the target [workoutId],
    [setOrder] 1, and [reps] and [weight] null. *)
Theorem attach_exercises_empty_or_one_row_each :
  forall workoutId exerciseIds s,
    (failed_with InvalidInput (fst (post_workout_new_exercises workoutId [] s))
     /\ snd (post_workout_new_exercises workoutId [] s) = s)
    /\ (workoutId <> 0 -> exerciseIds <> [] ->
        workout_exists s workoutId = true ->
        Forall (fun id => exercise_exists s id = true) exerciseIds ->
        let added := map (fun id => SetRow.mk workoutId id 1 None None) exerciseIds in
        fst (post_workout_new_exercises workoutId exerciseIds s) = Sent 201 added
        /\ sets (snd (post_workout_new_exercises workoutId exerciseIds s)) = sets s ++ added
        /\ List.length added = List.length exerciseIds
        /\ workouts (snd (post_workout_new_exercises workoutId exerciseIds s)) = workouts s).
Proof.
  intros workoutId exerciseIds s. split.
  - unfold post_workout_new_exercises. simpl.
    rewrite orb_true_r. simpl. split; reflexivity.
  - intros Hw Hne Hex Hall added.
    rewrite post_workout_new_exercises_accepts by assumption.
    simpl. repeat split. apply length_map.
Qed.

Lemma attach_exercises_empty_or_one_row_each_witness :
  fst (post_workout_new_exercises 3 [2; 3] gym)
  = Sent 201 [SetRow.mk 3 2 1 None None; SetRow.mk 3 3 1 None None]
  /\ sets (snd (post_workout_new_exercises 3 [2; 3] gym))
     = sets gym ++ [SetRow.mk 3 2 1 None None; SetRow.mk 3 3 1 None None].
Proof.
  destruct (attach_exercises_empty_or_one_row_each 3 [2; 3] gym) as [_ H].
  destruct H as (H1 & H2 & _).
  - lia.
  - discriminate.
  - reflexivity.
  - repeat constructor.
  - split; [exact H1 | exact H2].
Defined.

(** C10.  An identifier listed more than once is attached once per
    occurrence: the batch is accepted, and the rows of
    [(workoutId, exerciseId, setOrder = 1)] grow by the number of times
    [exerciseId] is listed, so a pair listed twice ends with at least two
    first-set rows. *)
Theorem attach_exercises_keeps_duplicates :
  forall workoutId exerciseIds exerciseId s,
    workoutId <> 0 -> exerciseIds <> [] ->
    workout_exists s workoutId = true ->
    Forall (fun id => exercise_exists s id = true) exerciseIds ->
    let after := snd (post_workout_new_exercises workoutId exerciseIds s) in
    fst (post_workout_new_exercises workoutId exerciseIds s)
    = Sent 201 (new_exercise_rows workoutId exerciseIds)
    /\ List.length (rows_of_key workoutId exerciseId 1 after)
       = (List.length (rows_of_key workoutId exerciseId 1 s)
          + count_occ Z.eq_dec exerciseIds exerciseId)%nat
    /\ ((1 < count_occ Z.eq_dec exerciseIds exerciseId)%nat ->
        (1 < List.length (rows_of_key workoutId exerciseId 1 after))%nat).
Proof.
  intros workoutId exerciseIds exerciseId s Hw Hne Hex Hall after.
  subst after. rewrite post_workout_new_exercises_accepts by assumption.
  simpl. unfold rows_of_key. simpl.
  rewrite filter_length_app, new_exercise_rows_of_key.
  repeat split. lia.
Qed.

Lemma attach_exercises_keeps_duplicates_witness :
  List.length (rows_of_key 3 2 1 (snd (post_workout_new_exercises 3 [2; 2] gym))) = 2%nat.
Proof.
  destruct (attach_exercises_keeps_duplicates 3 [2; 2] 2 gym) as (_ & H & _).
  - lia.
  - discriminate.
  - reflexivity.
  - repeat constructor.
  - rewrite H. reflexivity.
Defined.

(** ** The joins *)

Lemma flat_map_nil {A B} (f : A -> list B) (l : list A) :
  (forall x, In x l -> f x = []) -> flat_map f l = [].
Proof.
  induction l as [|x l IH]; simpl; intro H; [reflexivity|].
  rewrite H by auto. simpl. apply IH. auto.
Qed.

(** A lookup by a unique key finds its row and no other. *)
Lemma flat_map_unique_key {A B} (key : A -> Z) (f : A -> list B) (k : Z)
  (l : list A) (x : A) :
  NoDup (map key l) -> In x l -> key x = k ->
  flat_map (fun y => if k =? key y then f y else []) l = f x.
Proof.
  induction l as [|y l IH]; simpl; [tauto|].
  intros Hnd [->|Hin] Hk; inversion Hnd as [|? ? Hnotin Hnd']; subst.
  - rewrite Z.eqb_refl. rewrite flat_map_nil; [apply app_nil_r|].
    intros z Hz. destruct (Z.eqb_spec (key x) (key z)) as [E|]; [|reflexivity].
    exfalso. apply Hnotin. rewrite E. now apply in_map.
  - destruct (Z.eqb_spec (key x) (key y)) as [E|].
    + exfalso. apply Hnotin. rewrite <- E. now apply in_map.
    + simpl. now apply IH.
Qed.

Lemma sets_join_In (s : store) (j : Joined.t) :
  In j (sets_join s) <->
  In (Joined.set j) (sets s) /\ In (Joined.exercise j) (exercises s)
  /\ In (Joined.workout j) (workouts s)
  /\ SetRow.exerciseId (Joined.set j) = Exercise.exerciseId (Joined.exercise j)
  /\ SetRow.workoutId (Joined.set j) = Workout.workoutId (Joined.workout j).
Proof.
  unfold sets_join. rewrite in_flat_map. split.
  - intros (r & Hr & H). apply in_flat_map in H. destruct H as (e & He & H).
    destruct (Z.eqb_spec (SetRow.exerciseId r) (Exercise.exerciseId e)) as [Ee|];
      [|contradiction].
    apply in_flat_map in H. destruct H as (w & Hw & H).
    destruct (Z.eqb_spec (SetRow.workoutId r) (Workout.workoutId w)) as [Ew|];
      [|contradiction].
    destruct H as [<-|[]]. simpl. auto.
  - intros (Hr & He & Hw & E1 & E2). exists (Joined.set j). split; [assumption|].
    apply in_flat_map. exists (Joined.exercise j). split; [assumption|].
    rewrite E1, Z.eqb_refl. apply in_flat_map. exists (Joined.workout j).
    split; [assumption|]. rewrite E2, Z.eqb_refl. destruct j. simpl. auto.
Qed.

Lemma sets_workouts_exercises_In (s : store) (j : Joined.t) :
  In j (sets_workouts_exercises s) <->
  In (Joined.set j) (sets s) /\ In (Joined.exercise j) (exercises s)
  /\ In (Joined.workout j) (workouts s)
  /\ SetRow.exerciseId (Joined.set j) = Exercise.exerciseId (Joined.exercise j)
  /\ SetRow.workoutId (Joined.set j) = Workout.workoutId (Joined.workout j).
Proof.
  unfold sets_workouts_exercises. rewrite in_flat_map. split.
  - intros (r & Hr & H). apply in_flat_map in H. destruct H as (w & Hw & H).
    destruct (Z.eqb_spec (SetRow.workoutId r) (Workout.workoutId w)) as [Ew|];
      [|contradiction].
    apply in_flat_map in H. destruct H as (e & He & H).
    destruct (Z.eqb_spec (SetRow.exerciseId r) (Exercise.exerciseId e)) as [Ee|];
      [|contradiction].
    destruct H as [<-|[]]. simpl. auto.
  - intros (Hr & He & Hw & E1 & E2). exists (Joined.set j). split; [assumption|].
    apply in_flat_map. exists (Joined.workout j). split; [assumption|].
    rewrite E2, Z.eqb_refl. apply in_flat_map. exists (Joined.exercise j).
    split; [assumption|]. rewrite E1, Z.eqb_refl. destruct j. simpl. auto.
Qed.

(** In a well-formed store a set row joins with exactly one exercise and
    one workout, so the join of one workout has one row per set row of the
    workout. *)
Lemma workout_rows_sets (workoutId : Z) (s : store) :
  well_formed s ->
  map Joined.set (workout_rows workoutId s) = rows_of_workout workoutId s.
Proof.
  intro WF. unfold workout_rows, sets_join, rows_of_workout.
  pose proof (sets_fk0 s WF) as Hfk0. pose proof (sets_fk1 s WF) as Hfk1.
  induction (sets s) as [|r l IH]; simpl; [reflexivity|].
  inversion Hfk0 as [|? ? Hw Hfk0']; inversion Hfk1 as [|? ? He Hfk1']; subst.
  apply workout_exists_In in Hw. destruct Hw as (w & Hw & Ew).
  apply exercise_exists_In in He. destruct He as (e & He & Ee).
  rewrite (flat_map_unique_key Exercise.exerciseId _ _ _ e (exercises_pk s WF) He Ee).
  rewrite (flat_map_unique_key Workout.workoutId _ _ _ w (workouts_pk s WF) Hw Ew).
  rewrite filter_app, map_app, IH by assumption. simpl. rewrite Ew.
  destruct (SetRow.workoutId r =? workoutId); reflexivity.
Qed.

Lemma workout_rows_none (workoutId : Z) (s : store) :
  rows_of_workout workoutId s = [] -> workout_rows workoutId s = [].
Proof.
  intro H. unfold workout_rows. apply filter_none. apply Forall_forall.
  intros j Hj. apply sets_join_In in Hj. destruct Hj as (Hr & _).
  unfold rows_of_workout in H. rewrite filter_none, Forall_forall in H.
  now rewrite (H _ Hr).
Qed.

Lemma well_formed_workout_id (s : store) (id : Z) :
  well_formed s -> workout_exists s id = true -> id <> 0.
Proof.
  intros WF H. apply workout_exists_In in H. destruct H as (w & Hw & <-).
  pose proof (workouts_serial s WF) as Hs. rewrite Forall_forall in Hs.
  specialize (Hs w Hw). simpl in Hs. lia.
Qed.

(** ** The workout-detail query *)

(** C7.  For a workout that has set rows, the detail query answers 200 with
    one exercise entry per set row of the workout, in no stated order: the
    entries are as many as the rows, their [exerciseId]s are those of the
    rows, each as often as it has rows, and the [sets] of every entry is the
    single placeholder [{setOrder: 1, reps: null, weight: null}] whatever
    the row stores. *)
Theorem get_workout_synthesizes_placeholders :
  forall workoutId s,
    well_formed s ->
    rows_of_workout workoutId s <> [] ->
    exists workoutName exercises,
      get_workout workoutId s = Sent 200 (WorkoutView.mk workoutId workoutName exercises)
      /\ Permutation exercises (map exerObj (workout_rows workoutId s))
      /\ List.length exercises = List.length (rows_of_workout workoutId s)
      /\ Permutation (map ExerciseView.exerciseId exercises)
                     (map SetRow.exerciseId (rows_of_workout workoutId s))
      /\ Forall (fun x => ExerciseView.sets x = [SetView.mk 1 None None]) exercises.
Proof.
  intros workoutId s WF Hrows.
  pose proof (workout_rows_sets workoutId s WF) as Hmap.
  assert (Hid : workoutId <> 0).
  { destruct (rows_of_workout workoutId s) as [|r l] eqn:E; [contradiction|].
    assert (Hr : In r (rows_of_workout workoutId s)) by (rewrite E; now left).
    unfold rows_of_workout in Hr. apply filter_In in Hr. destruct Hr as [Hr Heq].
    pose proof (sets_fk0 s WF) as Hfk. rewrite Forall_forall in Hfk.
    apply Z.eqb_eq in Heq. rewrite <- Heq.
    eapply well_formed_workout_id; eauto. }
  unfold get_workout. apply truthy_true in Hid. rewrite Hid. simpl.
  destruct (workout_rows workoutId s) as [|row0 rest] eqn:E.
  - simpl in Hmap. congruence.
  - exists (Workout.workoutName (Joined.workout row0)), (map exerObj (row0 :: rest)).
    split; [reflexivity|]. split; [apply Permutation_refl|].
    split; [now rewrite length_map, <- Hmap, length_map|].
    split.
    + rewrite <- Hmap, !map_map. apply Permutation_refl.
    + apply Forall_map. apply Forall_forall. reflexivity.
Qed.

(** C9.  For a workout that exists and has no set rows the detail query
    does not answer 200: reading [workoutName] off the first row of the empty
    result is a [TypeError], which is an Unhandled failure. *)
Theorem get_workout_without_sets_is_unhandled :
  forall workoutId s,
    well_formed s ->
    workout_exists s workoutId = true ->
    rows_of_workout workoutId s = [] ->
    get_workout workoutId s = Failed TypeError
    /\ failed_with Unhandled (get_workout workoutId s)
    /\ (forall status view, get_workout workoutId s <> Sent status view).
Proof.
  intros workoutId s WF Hex Hnone.
  assert (E : get_workout workoutId s = Failed TypeError).
  { unfold get_workout.
    pose proof (well_formed_workout_id s workoutId WF Hex) as Hid.
    apply truthy_true in Hid. rewrite Hid. simpl.
    now rewrite workout_rows_none. }
  rewrite E. repeat split. discriminate.
Qed.

(** ** Integrity is preserved *)

Lemma existsb_key {A} (key : A -> Z) (id : Z) (l : list A) :
  existsb (fun x => key x =? id) l = existsb (fun k => k =? id) (map key l).
Proof. induction l as [|x l IH]; simpl; [reflexivity | now rewrite IH]. Qed.

Lemma Forall_key {A} (key : A -> Z) (P : Z -> Prop) (l : list A) :
  Forall (fun x => P (key x)) l <-> Forall P (map key l).
Proof. now rewrite Forall_map. Qed.

Lemma well_formed_with_sets (s : store) (rows : list SetRow.t) :
  well_formed s ->
  Forall (fun r => workout_exists s (SetRow.workoutId r) = true
                   /\ exercise_exists s (SetRow.exerciseId r) = true) rows ->
  well_formed (with_sets s rows).
Proof.
  intros WF H. destruct WF. constructor; simpl; try assumption.
  - eapply Forall_impl; [|exact H]. intros r [Hw _]. exact Hw.
  - eapply Forall_impl; [|exact H]. intros r [_ He]. exact He.
Qed.

Lemma well_formed_sets_fk (s : store) :
  well_formed s ->
  Forall (fun r => workout_exists s (SetRow.workoutId r) = true
                   /\ exercise_exists s (SetRow.exerciseId r) = true) (sets s).
Proof.
  intro WF. pose proof (sets_fk0 s WF) as H0. pose proof (sets_fk1 s WF) as H1.
  rewrite Forall_forall in *. auto.
Qed.

Lemma well_formed_with_workouts (s : store) (rows : list Workout.t) :
  well_formed s ->
  map Workout.workoutId rows = map Workout.workoutId (workouts s) ->
  map Workout.userId rows = map Workout.userId (workouts s) ->
  well_formed (with_workouts s rows).
Proof.
  intros WF Hid Hu. destruct WF as [Upk Wpk Epk Wser Wseq Wfk Sfk0 Sfk1].
  constructor; simpl; try assumption.
  - now rewrite Hid.
  - apply (Forall_key Workout.workoutId (fun k => 1 <= k)). rewrite Hid.
    now apply (Forall_key Workout.workoutId (fun k => 1 <= k)).
  - apply (Forall_key Workout.userId (fun k => user_exists s k = true)). rewrite Hu.
    now apply (Forall_key Workout.userId (fun k => user_exists s k = true)).
  - eapply Forall_impl; [|exact Sfk0]. intro r. unfold workout_exists. simpl.
    rewrite (existsb_key Workout.workoutId _ rows).
    rewrite (existsb_key Workout.workoutId _ (workouts s)).
    now rewrite Hid.
Qed.

Lemma map_rewrite_key {A B} (key : A -> B) (hit : A -> bool) (write : A -> A)
  (l : list A) :
  (forall x, key (write x) = key x) ->
  map key (map (fun x => if hit x then write x else x) l) = map key l.
Proof.
  intro H. rewrite map_map. apply map_ext. intro x. now destruct (hit x).
Qed.

Lemma NoDup_snoc (l : list Z) (k : Z) :
  NoDup l -> existsb (fun x => x =? k) l = false -> NoDup (l ++ [k]).
Proof.
  intros Hnd Hk. apply NoDup_rev in Hnd. rewrite <- (rev_involutive (l ++ [k])).
  apply NoDup_rev. rewrite rev_app_distr. simpl. constructor; [|assumption].
  intro Hin. apply in_rev in Hin.
  assert (existsb (fun x => x =? k) l = true); [|congruence].
  apply existsb_exists. exists k. split; [assumption | apply Z.eqb_refl].
Qed.

Lemma well_formed_insert_user username hashedPassword now s :
  well_formed s -> well_formed (snd (insert_user username hashedPassword now s)).
Proof.
  intro WF. destruct WF as [Upk Wpk Epk Wser Wseq Wfk Sfk0 Sfk1].
  unfold insert_user.
  destruct (user_exists s (users_userId_seq s)) eqn:Hpk;
    [constructor; assumption|].
  destruct (username_taken s username); [constructor; assumption|].
  constructor; simpl; try assumption.
  - rewrite map_app. simpl. apply NoDup_snoc; [assumption|].
    now rewrite <- existsb_key.
  - eapply Forall_impl; [|exact Wfk]. intros w Hw. unfold user_exists in *. simpl.
    rewrite existsb_app, Hw. reflexivity.
Qed.

Lemma well_formed_insert_workout userId workoutName s :
  well_formed s -> well_formed (snd (insert_workout userId workoutName s)).
Proof.
  intro WF. destruct WF as [Upk Wpk Epk Wser Wseq Wfk Sfk0 Sfk1].
  unfold insert_workout.
  destruct (workout_exists s (workouts_workoutId_seq s)) eqn:Hpk;
    [constructor; simpl; try assumption; lia|].
  destruct (user_exists s userId) eqn:Hu; simpl;
    [|constructor; simpl; try assumption; lia].
  constructor; simpl; try assumption.
  - rewrite map_app. simpl. apply NoDup_snoc; [assumption|].
    now rewrite <- existsb_key.
  - apply Forall_app. split; [assumption|]. constructor; [assumption | constructor].
  - lia.
  - apply Forall_app. split; [assumption|]. constructor; [assumption | constructor].
  - eapply Forall_impl; [|exact Sfk0]. intros r Hr. unfold workout_exists in *. simpl.
    rewrite existsb_app, Hr. reflexivity.
Qed.

Lemma well_formed_insert_sets rows s :
  well_formed s -> well_formed (snd (insert_sets rows s)).
Proof.
  intro WF. unfold insert_sets.
  destruct (first_failure (set_row_fk s) rows) eqn:Hf; simpl; [assumption|].
  apply well_formed_with_sets; [assumption|].
  apply Forall_app. split; [now apply well_formed_sets_fk|].
  apply Forall_forall. intros r Hr.
  destruct (workout_exists s (SetRow.workoutId r)) eqn:Hw.
  - destruct (exercise_exists s (SetRow.exerciseId r)) eqn:He; [auto|].
    exfalso. eapply (first_failure_some (set_row_fk s) rows r); eauto.
    unfold set_row_fk. rewrite Hw, He. discriminate.
  - exfalso. eapply (first_failure_some (set_row_fk s) rows r); eauto.
    unfold set_row_fk. rewrite Hw. discriminate.
Qed.

Lemma Forall_rewrite {A} (P : A -> Prop) (hit : A -> bool) (write : A -> A)
  (l : list A) :
  Forall P l -> (forall x, P x -> hit x = true -> P (write x)) ->
  Forall P (map (fun x => if hit x then write x else x) l).
Proof.
  intros H Hw. apply Forall_map. eapply Forall_impl; [|exact H].
  intros x Hx. simpl. destruct (hit x) eqn:E; auto.
Qed.

Lemma Forall_kept {A} (P : A -> Prop) (keep : A -> bool) (l : list A) :
  Forall P l -> Forall P (filter keep l).
Proof.
  rewrite !Forall_forall. intros H x Hx. apply filter_In in Hx. now apply H.
Qed.

Lemma well_formed_update_set reps weight setOrder workoutId exerciseId s :
  well_formed s ->
  well_formed (snd (update_set reps weight setOrder workoutId exerciseId s)).
Proof.
  intro WF. unfold update_set. simpl.
  apply well_formed_with_sets; [assumption|].
  apply Forall_rewrite; [now apply well_formed_sets_fk | auto].
Qed.

Lemma well_formed_update_workout_name workoutId workoutName s :
  well_formed s -> well_formed (snd (update_workout_name workoutId workoutName s)).
Proof.
  intro WF. unfold update_workout_name. simpl.
  apply well_formed_with_workouts; [assumption| |]; now apply map_rewrite_key.
Qed.

Lemma well_formed_complete_workout workoutId workoutName date s :
  well_formed s -> well_formed (snd (complete_workout workoutId workoutName date s)).
Proof.
  intro WF. unfold complete_workout. simpl.
  apply well_formed_with_workouts; [assumption| |]; now apply map_rewrite_key.
Qed.

Lemma well_formed_replace_exercise workoutId exerciseId newExerciseId s :
  well_formed s ->
  well_formed (snd (replace_exercise workoutId exerciseId newExerciseId s)).
Proof.
  intro WF. unfold replace_exercise.
  destruct (filter _ (sets s)); [assumption|].
  destruct newExerciseId as [new|]; [|assumption].
  destruct (exercise_exists s new) eqn:He; simpl; [|assumption].
  apply well_formed_with_sets; [assumption|].
  apply Forall_rewrite; [now apply well_formed_sets_fk|].
  simpl. intros r [Hw _] _. auto.
Qed.

Lemma well_formed_delete_sets_of workoutId exerciseId s :
  well_formed s -> well_formed (snd (delete_sets_of workoutId exerciseId s)).
Proof.
  intro WF. unfold delete_sets_of. simpl.
  apply well_formed_with_sets; [assumption|].
  apply Forall_kept. now apply well_formed_sets_fk.
Qed.

(** The purge statement is never rejected: a set row that is left cannot
    reference a deleted workout. *)
Lemma delete_empty_workouts_accepts (userId : Z) (s : store) :
  let workoutDelete :=
    map Workout.workoutId (filter (abandoned_by userId) (workouts s)) in
  delete_empty_workouts userId s =
  (Rows [],
   mkStore (users s)
           (filter (fun w => negb (abandoned_by userId w)) (workouts s))
           (exercises s)
           (filter (fun r => negb (existsb (fun id => SetRow.workoutId r =? id)
                                            workoutDelete)) (sets s))
           (users_userId_seq s) (workouts_workoutId_seq s)).
Proof.
  intro workoutDelete. unfold delete_empty_workouts. fold workoutDelete.
  rewrite first_failure_none; [reflexivity|].
  apply Forall_forall. intros id Hid.
  match goal with |- (if ?b then _ else _) = _ => destruct b eqn:E end;
    [|reflexivity].
  exfalso. apply existsb_exists in E. destruct E as (r & Hr & Heq).
  apply filter_In in Hr. destruct Hr as [_ Hkeep].
  apply negb_true_iff in Hkeep.
  assert (existsb (fun id0 => SetRow.workoutId r =? id0) workoutDelete = true);
    [|congruence].
  apply existsb_exists. exists id. auto.
Qed.

Lemma in_workoutDelete (userId : Z) (s : store) (id : Z) :
  existsb (fun k => id =? k)
          (map Workout.workoutId (filter (abandoned_by userId) (workouts s))) = true <->
  exists w, In w (workouts s) /\ Workout.workoutId w = id
            /\ Workout.userId w = userId /\ Workout.completedAt w = None.
Proof.
  rewrite existsb_exists. split.
  - intros (k & Hk & E). apply in_map_iff in Hk. destruct Hk as (w & <- & Hw).
    apply filter_In in Hw. destruct Hw as [Hw Hab]. unfold abandoned_by in Hab.
    apply andb_true_iff in Hab. destruct Hab as [Hn Hu].
    exists w. repeat split; [assumption | lia | lia |].
    destruct (Workout.completedAt w); [discriminate | reflexivity].
  - intros (w & Hw & <- & Hu & Hc). exists (Workout.workoutId w).
    split; [|apply Z.eqb_refl]. apply in_map. apply filter_In. split; [assumption|].
    unfold abandoned_by. rewrite Hc, Hu, Z.eqb_refl. reflexivity.
Qed.

Lemma well_formed_delete_empty_workouts userId s :
  well_formed s -> well_formed (snd (delete_empty_workouts userId s)).
Proof.
  intro WF. rewrite delete_empty_workouts_accepts. simpl.
  destruct WF as [Upk Wpk Epk Wser Wseq Wfk Sfk0 Sfk1].
  constructor; simpl; try assumption.
  - clear - Wpk. induction (workouts s) as [|w l IH]; simpl; [constructor|].
    inversion Wpk as [|? ? Hnotin Hnd]; subst.
    destruct (abandoned_by userId w); simpl; [now apply IH|].
    constructor; [|now apply IH].
    intro Hin. apply Hnotin. apply in_map_iff in Hin. destruct Hin as (x & E & Hx).
    apply filter_In in Hx. rewrite <- E. apply in_map. tauto.
  - now apply Forall_kept.
  - now apply Forall_kept.
  - apply Forall_forall. intros r Hr. apply filter_In in Hr. destruct Hr as [Hr Hkeep].
    rewrite Forall_forall in Sfk0. specialize (Sfk0 r Hr).
    apply workout_exists_In in Sfk0. destruct Sfk0 as (w & Hw & Ew).
    unfold workout_exists. simpl. apply existsb_exists. exists w.
    split; [|lia]. apply filter_In. split; [assumption|].
    destruct (abandoned_by userId w) eqn:Hab; [|reflexivity].
    exfalso. apply negb_true_iff in Hkeep.
    assert (existsb (fun id => SetRow.workoutId r =? id)
              (map Workout.workoutId (filter (abandoned_by userId) (workouts s))) = true);
      [|congruence].
    apply existsb_exists. exists (Workout.workoutId w). split; [|lia].
    apply in_map. apply filter_In. auto.
  - now apply Forall_kept.
Qed.

Lemma well_formed_run_statement q s :
  well_formed s -> well_formed (snd (run_statement q s)).
Proof.
  intro WF. destruct q as [r w k W E | r w k W E | W name]; unfold run_statement.
  - pose proof (well_formed_update_set r w k W E s WF) as H.
    destruct (update_set r w k W E s) as [[rows|f] s']; exact H.
  - pose proof (well_formed_insert_sets [SetRow.mk W E k r w] s WF) as H.
    unfold add_set.
    destruct (insert_sets [SetRow.mk W E k r w] s) as [[rows|f] s']; exact H.
  - pose proof (well_formed_update_workout_name W name s WF) as H.
    destruct (update_workout_name W name s) as [[rows|f] s']; exact H.
Qed.

Lemma well_formed_run_statements qs s :
  well_formed s -> well_formed (snd (run_statements qs s)).
Proof.
  revert s. induction qs as [|q qs IH]; intros s WF; simpl; [assumption|].
  pose proof (well_formed_run_statement q s WF) as H1.
  destruct (run_statement q s) as [r s1]. simpl in H1.
  specialize (IH s1 H1). destruct (run_statements qs s1) as [r' s2]. exact IH.
Qed.

Lemma well_formed_serve q s : well_formed s -> well_formed (serve q s).
Proof.
  intro WF. destruct q; simpl.
  - unfold post_auth_sign_up.
    destruct (_ || _); [assumption|].
    pose proof (well_formed_insert_user username hashedPassword now s WF) as H.
    destruct (insert_user username hashedPassword now s) as [[rows|f] s']; exact H.
  - unfold post_new_workout. destruct (negb (truthy userId)); [assumption|].
    pose proof (well_formed_insert_workout userId workoutName s WF) as H.
    destruct (insert_workout userId workoutName s) as [[rows|f] s']; exact H.
  - unfold post_workout_new_exercises. destruct (_ || _); [assumption|].
    pose proof (well_formed_insert_sets (new_exercise_rows workoutId exerciseIds) s WF) as H.
    destruct (insert_sets _ s) as [[rows|f] s']; exact H.
  - unfold patch_workout. destruct exercises0 as [exs|]; [|assumption].
    pose proof (well_formed_run_statements (exercisePromises workoutId workoutName exs) s WF)
      as H.
    destruct (run_statements _ s) as [[f|] s']; exact H.
  - unfold patch_workout_exercise. destruct (_ || _); [assumption|].
    pose proof (well_formed_replace_exercise workoutId exerciseId newExerciseId s WF) as H.
    destruct (replace_exercise _ _ _ s) as [[rows|f] s']; exact H.
  - unfold patch_workout_completed. destruct (negb (truthy workoutId)); [assumption|].
    now apply well_formed_complete_workout.
  - unfold delete_workout_exercise. destruct (_ || _); [assumption|].
    now apply well_formed_delete_sets_of.
  - unfold delete_user_empty_workouts. destruct (negb (truthy userId)); [assumption|].
    pose proof (well_formed_delete_empty_workouts userId s WF) as H.
    destruct (delete_empty_workouts userId s) as [[rows|f] s']; exact H.
Qed.

(** Every store the service can be in is well formed. *)
Lemma reachable_well_formed s : reachable s -> well_formed s.
Proof.
  induction 1 as [catalogue Hnd Hpos | q s _ IH].
  - constructor; simpl; try constructor; try assumption. lia.
  - now apply well_formed_serve.
Qed.

Lemma reachable_run qs s : reachable s -> reachable (run qs s).
Proof.
  revert s. induction qs as [|q qs IH]; intros s H; simpl; [assumption|].
  apply IH. now constructor.
Qed.

Lemma gym_reachable : reachable gym.
Proof.
  apply reachable_run. constructor.
  - repeat constructor; simpl; intuition discriminate.
  - repeat constructor; simpl; lia.
Qed.

Lemma gym_well_formed : well_formed gym.
Proof. apply reachable_well_formed, gym_reachable. Qed.

(** ** Purging abandoned workouts *)

Lemma filter_filter_implied {A} (p q : A -> bool) (l : list A) :
  (forall x, In x l -> p x = true -> q x = true) ->
  filter p (filter q l) = filter p l.
Proof.
  induction l as [|x l IH]; simpl; intro H; [reflexivity|].
  destruct (q x) eqn:Hq; simpl.
  - destruct (p x); rewrite IH by auto; reflexivity.
  - destruct (p x) eqn:Hp.
    + rewrite H in Hq by auto. discriminate.
    + apply IH. auto.
Qed.

Lemma unique_key_eq {A} (key : A -> Z) (l : list A) (x y : A) :
  NoDup (map key l) -> In x l -> In y l -> key x = key y -> x = y.
Proof.
  induction l as [|z l IH]; simpl; [tauto|].
  intros Hnd Hx Hy E. inversion Hnd as [|? ? Hnotin Hnd']; subst.
  destruct Hx as [->|Hx], Hy as [->|Hy]; auto.
  - exfalso. apply Hnotin. rewrite E. now apply in_map.
  - exfalso. apply Hnotin. rewrite <- E. now apply in_map.
Qed.

Lemma abandoned_by_spec (userId : Z) (w : Workout.t) :
  abandoned_by userId w = true <->
  Workout.userId w = userId /\ Workout.completedAt w = None.
Proof.
  unfold abandoned_by. rewrite andb_true_iff, Z.eqb_eq.
  destruct (Workout.completedAt w); simpl; intuition discriminate.
Qed.

(** C2.  For an authenticated user (a non-zero [userId]) the purge answers
    204 and is never rejected; a workout is left exactly when it is not both
    owned by the user and in progress; a set row is left exactly when it
    references no deleted workout; the store after it is well formed, so no
    set row is orphaned; the set rows of every workout that is left, the
    completed workouts and the workouts of every other user are as they were,
    and so are the users and the exercises. *)
Theorem purge_deletes_exactly_abandoned :
  forall userId s,
    well_formed s -> userId <> 0 ->
    let after := snd (delete_user_empty_workouts userId s) in
    fst (delete_user_empty_workouts userId s) = Sent 204 []
    /\ (forall w, In w (workouts after) <->
                  In w (workouts s)
                  /\ ~ (Workout.userId w = userId /\ Workout.completedAt w = None))
    /\ (forall r, In r (sets after) <->
                  In r (sets s)
                  /\ ~ (exists w, In w (workouts s)
                                  /\ Workout.workoutId w = SetRow.workoutId r
                                  /\ Workout.userId w = userId
                                  /\ Workout.completedAt w = None))
    /\ well_formed after
    /\ (forall w, In w (workouts s) ->
                  Workout.userId w = userId -> Workout.completedAt w = None ->
                  rows_of_workout (Workout.workoutId w) after = [])
    /\ (forall w, In w (workouts s) ->
                  ~ (Workout.userId w = userId /\ Workout.completedAt w = None) ->
                  rows_of_workout (Workout.workoutId w) after
                  = rows_of_workout (Workout.workoutId w) s)
    /\ filter (fun w => negb (is_null (Workout.completedAt w))) (workouts after)
       = filter (fun w => negb (is_null (Workout.completedAt w))) (workouts s)
    /\ (forall other, other <> userId ->
                      filter (fun w => Workout.userId w =? other) (workouts after)
                      = filter (fun w => Workout.userId w =? other) (workouts s))
    /\ users after = users s /\ exercises after = exercises s.
Proof.
  intros userId s WF Hid after.
  assert (Hwf : well_formed after).
  { apply (well_formed_serve (DeleteEmptyWorkouts userId) s WF). }
  subst after. revert Hwf. unfold delete_user_empty_workouts.
  apply truthy_true in Hid. rewrite Hid. simpl.
  rewrite delete_empty_workouts_accepts. simpl. intro Hwf.
  split; [reflexivity|].
  assert (Hsets : forall r, In r (sets s) ->
            (existsb (fun id => SetRow.workoutId r =? id)
               (map Workout.workoutId (filter (abandoned_by userId) (workouts s))) = true
             <-> exists w, In w (workouts s)
                           /\ Workout.workoutId w = SetRow.workoutId r
                           /\ Workout.userId w = userId
                           /\ Workout.completedAt w = None)).
  { intros r _. apply in_workoutDelete. }
  split; [|split; [|split; [exact Hwf|split; [|split; [|split; [|split]]]]]].
  - intro w. rewrite filter_In, negb_true_iff, <- not_true_iff_false, abandoned_by_spec.
    reflexivity.
  - intro r. rewrite filter_In, negb_true_iff, <- not_true_iff_false.
    split; intros [Hr Hn]; (split; [assumption|]); now rewrite <- Hsets in *.
  - intros w Hw Hu Hc. unfold rows_of_workout. simpl. apply filter_none.
    apply Forall_forall. intros r Hr. apply filter_In in Hr. destruct Hr as [Hr Hkeep].
    destruct (Z.eqb_spec (SetRow.workoutId r) (Workout.workoutId w)) as [E|];
      [|reflexivity].
    exfalso. apply negb_true_iff in Hkeep. apply not_true_iff_false in Hkeep.
    apply Hkeep. apply Hsets; [assumption|]. exists w. auto.
  - intros w Hw Hkept. unfold rows_of_workout. simpl. apply filter_filter_implied.
    intros r Hr E. apply Z.eqb_eq in E. apply negb_true_iff, not_true_iff_false.
    intro Hdel. apply Hsets in Hdel; [|assumption]. destruct Hdel as (w' & Hw' & E' & Hu & Hc).
    assert (w' = w).
    { apply (unique_key_eq Workout.workoutId (workouts s)); try assumption.
      - exact (workouts_pk s WF).
      - congruence. }
    subst w'. tauto.
  - apply filter_filter_implied. intros w _ Hc. unfold abandoned_by.
    destruct (Workout.completedAt w); [reflexivity | discriminate].
  - intros other Hother. apply filter_filter_implied. intros w _ Hu.
    apply Z.eqb_eq in Hu. unfold abandoned_by.
    destruct (Z.eqb_spec (Workout.userId w) userId); [congruence|].
    now rewrite andb_false_r.
  - split; reflexivity.
Qed.

Lemma purge_deletes_exactly_abandoned_witness :
  fst (delete_user_empty_workouts 2 gym) = Sent 204 []
  /\ rows_of_workout 2 (snd (delete_user_empty_workouts 2 gym)) = []
  /\ rows_of_workout 1 (snd (delete_user_empty_workouts 2 gym)) = rows_of_workout 1 gym.
Proof.
  destruct (purge_deletes_exactly_abandoned 2 gym gym_well_formed) as
    (H1 & _ & _ & _ & H5 & H6 & _); [lia|].
  split; [exact H1|]. split.
  - apply (H5 (Workout.mk 2 2 None None)); [simpl; tauto | reflexivity | reflexivity].
  - apply (H6 (Workout.mk 1 1 (Some 500) (Some "Push day"%string))).
    + simpl. tauto.
    + simpl. intros [E _]. discriminate.
Defined.

(** ** Reconciling the sets of a workout *)

Lemma filter_map_same {A} (p : A -> bool) (f : A -> A) (l : list A) :
  (forall x, p (f x) = p x) ->
  List.length (filter p (map f l)) = List.length (filter p l).
Proof.
  intro H. induction l as [|x l IH]; simpl; [reflexivity|].
  rewrite H. destruct (p x); simpl; now rewrite IH.
Qed.

Lemma map_untouched {A} (hit : A -> bool) (write : A -> A) (l : list A) :
  filter hit l = [] -> map (fun x => if hit x then write x else x) l = l.
Proof.
  rewrite filter_none. induction 1 as [|x l Hx _ IH]; simpl; [reflexivity|].
  now rewrite Hx, IH.
Qed.

Lemma of_key_spec (workoutId exerciseId setOrder : Z) (r : SetRow.t) :
  of_key workoutId exerciseId setOrder r = true <->
  SetRow.workoutId r = workoutId /\ SetRow.exerciseId r = exerciseId
  /\ SetRow.setOrder r = setOrder.
Proof.
  unfold of_key, of_pair. rewrite !andb_true_iff, !Z.eqb_eq. tauto.
Qed.

(** An update of a key that has no row: zero rows, no rejection, the store
    as it was. *)
Lemma update_set_no_row reps weight setOrder workoutId exerciseId s :
  rows_of_key workoutId exerciseId setOrder s = [] ->
  update_set reps weight setOrder workoutId exerciseId s = (Rows [], s).
Proof.
  unfold rows_of_key, update_set. intro H.
  rewrite H, map_untouched by assumption. simpl. now rewrite with_sets_same.
Qed.

Lemma run_statement_exists q s :
  (forall id, workout_exists (snd (run_statement q s)) id = workout_exists s id)
  /\ (forall id, exercise_exists (snd (run_statement q s)) id = exercise_exists s id).
Proof.
  destruct q as [r w k W E | r w k W E | W name]; simpl.
  - split; reflexivity.
  - unfold add_set, insert_sets.
    destruct (first_failure _ _); simpl; split; reflexivity.
  - split; [|reflexivity]. intro id. unfold workout_exists. simpl.
    rewrite (existsb_key Workout.workoutId id (map _ _)).
    rewrite (existsb_key Workout.workoutId id (workouts s)).
    now rewrite map_rewrite_key.
Qed.

Lemma run_statement_accepted q s :
  accepted s q ->
  fst (run_statement q s) = None
  /\ forall workoutId exerciseId setOrder,
       List.length (rows_of_key workoutId exerciseId setOrder (snd (run_statement q s)))
       = (List.length (rows_of_key workoutId exerciseId setOrder s)
          + adds workoutId exerciseId setOrder q)%nat.
Proof.
  destruct q as [r w k W E | r w k W E | W name]; simpl.
  - intros _. split; [reflexivity|]. intros W' E' k'. unfold rows_of_key. simpl.
    rewrite Nat.add_0_r. apply filter_map_same. intro x.
    destruct (of_key W E k x); reflexivity.
  - intros [Hw He]. unfold add_set.
    rewrite insert_sets_accepts by (repeat constructor; assumption).
    simpl. split; [reflexivity|]. intros W' E' k'. unfold rows_of_key. simpl.
    rewrite filter_length_app. simpl.
    destruct (of_key W' E' k' _); reflexivity.
  - intros _. split; [reflexivity|]. intros. unfold rows_of_key. simpl. lia.
Qed.



Lemma run_statements_app qs qs' s :
  run_statements (qs ++ qs') s =
  (match fst (run_statements qs s) with
   | Some f => Some f
   | None => fst (run_statements qs' (snd (run_statements qs s)))
   end,
   snd (run_statements qs' (snd (run_statements qs s)))).
Proof.
  revert s. induction qs as [|q qs IH]; intro s; simpl.
  - now destruct (run_statements qs' s).
  - destruct (run_statement q s) as [r s1]. rewrite IH.
    destruct (run_statements qs s1) as [r1 s2]. simpl.
    destruct r; reflexivity.
Qed.

Lemma set_statement_built workoutId exerciseId set :
  built (set_statement workoutId exerciseId set).
Proof.
  unfold set_statement.
  destruct (Z.eqb_spec (SetEntry.setOrder set) 1); simpl; assumption.
Qed.

Lemma exercise_statements_built workoutId workoutName exercise :
  Forall built (exercise_statements workoutId workoutName exercise).
Proof.
  unfold exercise_statements.
  assert (H : Forall built
                (map (set_statement workoutId (ExerciseEntry.exerciseId exercise))
                     (ExerciseEntry.sets exercise))).
  { apply Forall_map. apply Forall_forall. intros. apply set_statement_built. }
  destruct workoutName as [name|]; [|assumption].
  destruct (truthy_string (Some name)); [|assumption].
  apply Forall_app. split; [assumption | repeat constructor].
Qed.

Lemma exercisePromises_built workoutId workoutName exercises :
  Forall built (exercisePromises workoutId workoutName exercises).
Proof.
  unfold exercisePromises. induction exercises as [|x l IH]; simpl; [constructor|].
  apply Forall_app. split; [apply exercise_statements_built | assumption].
Qed.






Lemma patch_workout_first_set workoutId exerciseId reps weight s :
  patch_workout workoutId
    (Some [ExerciseEntry.mk exerciseId [SetEntry.mk reps weight 1]]) None s
  = (Sent 204 tt,
     with_sets s (map (fun r => if of_key workoutId exerciseId 1 r
                                then SetRow.mk workoutId exerciseId 1 reps weight
                                else r) (sets s))).
Proof.
  unfold patch_workout. simpl. unfold update_set. simpl. do 2 f_equal.
  apply map_ext. intro r.
  destruct (of_key workoutId exerciseId 1 r) eqn:E; [|reflexivity].
  apply of_key_spec in E. destruct E as (-> & -> & ->). reflexivity.
Qed.
















(** ** The workout name *)

Lemma patch_workout_no_exercises workoutId workoutName s :
  patch_workout workoutId (Some []) workoutName s = (Sent 204 tt, s).
Proof. reflexivity. Qed.

(** C3, at the failing input.  With the empty exercise list no statement is
    issued: the call that supplies the name ["Leg day"] for workout 1 answers
    204 and leaves the store, and so the name ["Push day"], as it was. *)
Theorem patch_workout_empty_exercises_keeps_name :
  patch_workout 1 (Some []) (Some "Leg day"%string) gym = (Sent 204 tt, gym)
  /\ map Workout.workoutName
         (filter (fun w => Workout.workoutId w =? 1)
                 (workouts (snd (patch_workout 1 (Some []) (Some "Leg day"%string) gym))))
     = [Some "Push day"%string].
Proof. split; reflexivity. Qed.

Lemma run_statements_named workoutId workoutName qs s :
  Forall (fun q => forall w n, q = NameSql w n -> w = workoutId /\ n = workoutName) qs ->
  named workoutId workoutName s \/ In (NameSql workoutId workoutName) qs ->
  named workoutId workoutName (snd (run_statements qs s)).
Proof.
  revert s. induction qs as [|q qs IH]; intros s Hall Hor; simpl.
  - destruct Hor as [H|[]]. exact H.
  - inversion Hall as [|? ? Hq Hqs]; subst.
    assert (Hstep : named workoutId workoutName (snd (run_statement q s))
                    \/ In (NameSql workoutId workoutName) qs).
    { destruct q as [r w k W E | r w k W E | W name].
      - simpl. destruct Hor as [H|[H|H]]; [left; exact H | discriminate | right; exact H].
      - destruct Hor as [H|[H|H]]; [left | discriminate | right; exact H].
        simpl. unfold add_set, insert_sets.
        destruct (first_failure _ _); exact H.
      - left. destruct (Hq W name eq_refl) as [-> ->]. simpl.
        intros w Hin Hid. apply in_map_iff in Hin. destruct Hin as (w0 & E & _).
        subst w. destruct (Z.eqb_spec (Workout.workoutId w0) workoutId); [reflexivity|].
        contradiction. }
    destruct (run_statement q s) as [r s1]. simpl in Hstep.
    specialize (IH s1 Hqs Hstep). destruct (run_statements qs s1). exact IH.
Qed.

(** With at least one exercise in the body and a non-empty name supplied,
    every row of the workout ends with the supplied name. *)
Lemma patch_workout_renames workoutId exercise exercises workoutName s :
  workoutName <> EmptyString ->
  named workoutId workoutName
        (snd (patch_workout workoutId (Some (exercise :: exercises)) (Some workoutName) s)).
Proof.
  intro Hne. unfold patch_workout.
  assert (Ht : truthy_string (Some workoutName) = true).
  { simpl. destruct (String.eqb_spec workoutName EmptyString); [contradiction | reflexivity]. }
  assert (Hall : Forall (fun q => forall w n, q = NameSql w n ->
                                              w = workoutId /\ n = workoutName)
                   (exercisePromises workoutId (Some workoutName) (exercise :: exercises))).
  { apply Forall_forall. intros q Hq w n ->. unfold exercisePromises in Hq.
    apply in_flat_map in Hq. destruct Hq as (x & _ & Hq).
    unfold exercise_statements in Hq. rewrite Ht in Hq.
    apply in_app_or in Hq. destruct Hq as [Hq|[Hq|[]]].
    - apply in_map_iff in Hq. destruct Hq as (e & Hq & _). unfold set_statement in Hq.
      destruct (SetEntry.setOrder e =? 1); discriminate.
    - inversion Hq. auto. }
  assert (Hin : In (NameSql workoutId workoutName)
                   (exercisePromises workoutId (Some workoutName) (exercise :: exercises))).
  { unfold exercisePromises. apply in_flat_map. exists exercise. split; [now left|].
    unfold exercise_statements. rewrite Ht. apply in_or_app. right. now left. }
  pose proof (run_statements_named _ _ _ s Hall (or_intror Hin)) as H.
  destruct (run_statements _ s) as [[f|] s']; exact H.
Qed.

(** ** The first set that is not there *)

Lemma run_statement_no_first_row q s workoutId exerciseId :
  built q ->
  rows_of_key workoutId exerciseId 1 s = [] ->
  rows_of_key workoutId exerciseId 1 (snd (run_statement q s)) = [].
Proof.
  intros Hb Hnone. destruct q as [r w k W E | r w k W E | W name].
  - apply length_zero_iff_nil.
    destruct (run_statement_accepted (UpdateSql r w k W E) s I) as [_ Hc].
    rewrite Hc, Hnone. reflexivity.
  - simpl in *. unfold add_set, insert_sets.
    destruct (first_failure _ _); simpl; [assumption|].
    unfold rows_of_key in *. simpl. rewrite filter_app, Hnone. simpl.
    unfold of_key. simpl. destruct (Z.eqb_spec k 1); [contradiction | reflexivity].
  - exact Hnone.
Qed.

Lemma run_statements_no_first_row qs s workoutId exerciseId :
  Forall built qs ->
  rows_of_key workoutId exerciseId 1 s = [] ->
  rows_of_key workoutId exerciseId 1 (snd (run_statements qs s)) = [].
Proof.
  revert s. induction qs as [|q qs IH]; intros s Hall Hnone; simpl; [assumption|].
  inversion Hall as [|? ? Hq Hqs]; subst.
  pose proof (run_statement_no_first_row q s workoutId exerciseId Hq Hnone) as H1.
  destruct (run_statement q s) as [r s1]. simpl in H1.
  specialize (IH s1 Hqs H1). destruct (run_statements qs s1). exact IH.
Qed.

(** A statement that does nothing where it runs can be left out. *)
Lemma run_statements_skip qs q qs' s :
  run_statement q (snd (run_statements qs s)) = (None, snd (run_statements qs s)) ->
  run_statements (qs ++ q :: qs') s = run_statements (qs ++ qs') s.
Proof.
  intro H. rewrite !run_statements_app. simpl. rewrite H.
  destruct (run_statements qs' (snd (run_statements qs s))) as [r' s2]. simpl.
  reflexivity.
Qed.

Lemma exercise_statements_sets workoutId workoutName exerciseId :
  exists tail,
    Forall built tail /\
    forall sets,
      exercise_statements workoutId workoutName (ExerciseEntry.mk exerciseId sets)
      = map (set_statement workoutId exerciseId) sets ++ tail.
Proof.
  unfold exercise_statements. simpl. destruct workoutName as [name|].
  - destruct (negb (String.eqb name EmptyString)).
    + exists [NameSql workoutId name]. split; [repeat constructor | reflexivity].
    + exists []. split; [constructor | intros; now rewrite app_nil_r].
  - exists []. split; [constructor | intros; now rewrite app_nil_r].
Qed.

(** C5.  For a workout id, an exercise id and [reps] that fit their
    columns: where [(workoutId, exerciseId)] has no [setOrder = 1] row, the
    update a [setOrder = 1] entry issues touches zero rows, is not rejected
    and leaves the store as it was, so the call with that entry alone answers
    204; and whatever else that fits its columns the call submits, the call
    answers and leaves the store exactly as the same call without that
    entry. *)
Theorem patch_workout_missing_first_set_is_silent :
  forall workoutId exerciseId reps weight s,
    int4 workoutId -> int4 exerciseId -> int4_or_null reps ->
    rows_of_key workoutId exerciseId 1 s = [] ->
    update_set reps weight 1 workoutId exerciseId s = (Rows [], s)
    /\ run_statement
         (set_statement workoutId exerciseId (SetEntry.mk reps weight 1)) s = (None, s)
    /\ patch_workout workoutId
         (Some [ExerciseEntry.mk exerciseId [SetEntry.mk reps weight 1]]) None s
       = (Sent 204 tt, s)
    /\ forall workoutName before after earlier later,
         Forall fits (before ++ after) ->
         Forall (fun x => int4 (ExerciseEntry.exerciseId x)
                          /\ Forall fits (ExerciseEntry.sets x)) (earlier ++ later) ->
         patch_workout workoutId
           (Some (earlier
                  ++ ExerciseEntry.mk exerciseId
                       (before ++ SetEntry.mk reps weight 1 :: after)
                  :: later))
           workoutName s
         = patch_workout workoutId
             (Some (earlier ++ ExerciseEntry.mk exerciseId (before ++ after) :: later))
             workoutName s.
Proof.
  intros workoutId exerciseId reps weight s _ _ _ Hnone.
  assert (Hupd : forall s', rows_of_key workoutId exerciseId 1 s' = [] ->
            run_statement
              (set_statement workoutId exerciseId (SetEntry.mk reps weight 1)) s'
            = (None, s')).
  { intros s' H.
    change (set_statement workoutId exerciseId (SetEntry.mk reps weight 1))
      with (UpdateSql reps weight 1 workoutId exerciseId).
    unfold run_statement. now rewrite update_set_no_row. }
  split; [now apply update_set_no_row|]. split; [now apply Hupd|]. split.
  - unfold patch_workout.
    change (exercisePromises workoutId None
              [ExerciseEntry.mk exerciseId [SetEntry.mk reps weight 1]])
      with [set_statement workoutId exerciseId (SetEntry.mk reps weight 1)].
    unfold run_statements. now rewrite Hupd.
  - intros workoutName before after earlier later _ _. unfold patch_workout.
    destruct (exercise_statements_sets workoutId workoutName exerciseId)
      as (tail & Htail & Hsplit).
    assert (E : forall mid,
              exercisePromises workoutId workoutName
                (earlier ++ ExerciseEntry.mk exerciseId (before ++ mid ++ after) :: later)
              = (exercisePromises workoutId workoutName earlier
                 ++ map (set_statement workoutId exerciseId) before)
                ++ map (set_statement workoutId exerciseId) mid
                ++ (map (set_statement workoutId exerciseId) after ++ tail
                    ++ exercisePromises workoutId workoutName later)).
    { intro mid. unfold exercisePromises. rewrite flat_map_app. simpl.
      rewrite Hsplit, !map_app, <- !app_assoc. reflexivity. }
    pose proof (E [SetEntry.mk reps weight 1]) as E1. pose proof (E []) as E0.
    simpl in E1, E0. rewrite E1, E0.
    rewrite run_statements_skip; [reflexivity|].
    apply Hupd. apply run_statements_no_first_row; [|assumption].
    apply Forall_app. split; [apply exercisePromises_built|].
    apply Forall_map. apply Forall_forall. intros. apply set_statement_built.
Qed.

Lemma patch_workout_missing_first_set_is_silent_witness :
  patch_workout 3 (Some [ExerciseEntry.mk 2 [SetEntry.mk (Some 10) (Some 60%Q) 1]]) None gym
  = (Sent 204 tt, gym)
  /\ patch_workout 3
       (Some [ExerciseEntry.mk 2 [SetEntry.mk (Some 10) (Some 60%Q) 1;
                                  SetEntry.mk (Some 8) (Some 60%Q) 2]]) None gym
     = patch_workout 3
         (Some [ExerciseEntry.mk 2 [SetEntry.mk (Some 8) (Some 60%Q) 2]]) None gym.
Proof.
  destruct (patch_workout_missing_first_set_is_silent 3 2 (Some 10) (Some 60%Q) gym)
    as (_ & _ & H & H').
  - unfold int4. lia.
  - unfold int4. lia.
  - unfold int4_or_null, int4. lia.
  - reflexivity.
  - split; [exact H|].
    apply (H' None [] [SetEntry.mk (Some 8) (Some 60%Q) 2] [] []).
    + repeat constructor; unfold int4; simpl; lia.
    + constructor.
Defined.

(** ** Completion is one-way *)

Lemma status_both_ways (ws ws' : list Workout.t) :
  map status ws' = map status ws ->
  (forall w, In w ws -> exists w', In w' ws' /\ status w' = status w)
  /\ (forall w', In w' ws' -> exists w, In w ws /\ status w = status w').
Proof.
  intro E. split; intros w Hw.
  - apply (in_map status) in Hw. rewrite <- E in Hw. apply in_map_iff in Hw.
    destruct Hw as (w' & Hs & Hin). eauto.
  - apply (in_map status) in Hw. rewrite E in Hw. apply in_map_iff in Hw.
    destruct Hw as (w0 & Hs & Hin). eauto.
Qed.

Lemma run_statement_status q s :
  map status (workouts (snd (run_statement q s))) = map status (workouts s).
Proof.
  destruct q as [r w k W E | r w k W E | W name]; simpl.
  - reflexivity.
  - unfold add_set, insert_sets. destruct (first_failure _ _); reflexivity.
  - now apply map_rewrite_key.
Qed.

Lemma run_statements_status qs s :
  map status (workouts (snd (run_statements qs s))) = map status (workouts s).
Proof.
  revert s. induction qs as [|q qs IH]; intro s; simpl; [reflexivity|].
  pose proof (run_statement_status q s) as H1.
  destruct (run_statement q s) as [r s1]. simpl in H1.
  specialize (IH s1). destruct (run_statements qs s1). simpl in *. congruence.
Qed.

(** The workouts after a request, by the kind of request. *)
Lemma serve_workouts q s :
  map status (workouts (serve q s)) = map status (workouts s)
  \/ (exists userId workoutName,
        q = NewWorkout userId workoutName
        /\ workout_exists s (workouts_workoutId_seq s) = false
        /\ workouts (serve q s)
           = workouts s ++ [Workout.mk (workouts_workoutId_seq s) userId None workoutName])
  \/ (exists workoutId workoutName date,
        q = CompleteWorkout workoutId workoutName date
        /\ workouts (serve q s)
           = map (fun w => if Workout.workoutId w =? workoutId
                           then Workout.mk (Workout.workoutId w) (Workout.userId w)
                                           (Some date) workoutName
                           else w) (workouts s))
  \/ (exists userId,
        q = DeleteEmptyWorkouts userId
        /\ workouts (serve q s)
           = filter (fun w => negb (abandoned_by userId w)) (workouts s)).
Proof.
  destruct q; simpl.
  - left. unfold post_auth_sign_up. destruct (_ || _); [reflexivity|].
    unfold insert_user. destruct (user_exists _ _); [reflexivity|].
    destruct (username_taken _ _); reflexivity.
  - unfold post_new_workout. destruct (negb (truthy userId)); [now left|].
    unfold insert_workout.
    destruct (workout_exists s (workouts_workoutId_seq s)) eqn:Hpk; [now left|].
    destruct (user_exists s userId); simpl; [|now left].
    right. left. exists userId, workoutName. auto.
  - left. unfold post_workout_new_exercises. destruct (_ || _); [reflexivity|].
    unfold insert_sets. destruct (first_failure _ _); reflexivity.
  - left. unfold patch_workout. destruct exercises0 as [exs|]; [|reflexivity].
    pose proof (run_statements_status (exercisePromises workoutId workoutName exs) s) as H.
    destruct (run_statements _ s) as [[f|] s']; exact H.
  - left. unfold patch_workout_exercise. destruct (_ || _); [reflexivity|].
    unfold replace_exercise. destruct (filter _ _); [reflexivity|].
    destruct newExerciseId as [new|]; [|reflexivity].
    destruct (exercise_exists s new); reflexivity.
  - unfold patch_workout_completed. destruct (negb (truthy workoutId)); [now left|].
    right. right. left. exists workoutId, workoutName, date. auto.
  - left. unfold delete_workout_exercise. destruct (_ || _); reflexivity.
  - unfold delete_user_empty_workouts. destruct (negb (truthy userId)); [now left|].
    rewrite delete_empty_workouts_accepts. simpl.
    right. right. right. exists userId. auto.
Qed.

(** A completed workout is still there after a request. *)
Lemma serve_keeps_completed q s w :
  In w (workouts s) -> Workout.completedAt w <> None ->
  exists w', In w' (workouts (serve q s))
             /\ Workout.workoutId w' = Workout.workoutId w
             /\ Workout.completedAt w' <> None.
Proof.
  intros Hw Hc.
  destruct (serve_workouts q s)
    as [E | [(u & n & _ & _ & E) | [(W & n & d & _ & E) | (u & _ & E)]]].
  - destruct (status_both_ways _ _ E) as [H _]. destruct (H w Hw) as (w' & Hw' & Es).
    unfold status in Es. inversion Es as [[Eid Ec]]. exists w'. rewrite Ec. auto.
  - exists w. rewrite E. split; [apply in_or_app; now left | auto].
  - rewrite E.
    exists (if Workout.workoutId w =? W
            then Workout.mk (Workout.workoutId w) (Workout.userId w) (Some d) n else w).
    split.
    { apply in_map_iff. exists w. split; [reflexivity | exact Hw]. }
    destruct (Workout.workoutId w =? W); simpl; split; auto; discriminate.
  - exists w. rewrite E. split; [|auto]. apply filter_In. split; [assumption|].
    unfold abandoned_by. destruct (Workout.completedAt w); [reflexivity | contradiction].
Qed.

(** Where the [completedAt] of a workout after a request comes from: it is
    what it was, or the workout is new and in progress, or the request is
    the completion of that workout and the value is its timestamp. *)
Lemma serve_writes_completedAt q s w' :
  In w' (workouts (serve q s)) ->
  (exists w, In w (workouts s) /\ Workout.workoutId w = Workout.workoutId w'
             /\ Workout.completedAt w = Workout.completedAt w')
  \/ (workout_exists s (Workout.workoutId w') = false /\ Workout.completedAt w' = None)
  \/ (exists workoutName date,
        q = CompleteWorkout (Workout.workoutId w') workoutName date
        /\ Workout.completedAt w' = Some date).
Proof.
  intro Hw'.
  destruct (serve_workouts q s)
    as [E | [(u & n & _ & Hnew & E) | [(W & n & d & Hq & E) | (u & _ & E)]]].
  - left. destruct (status_both_ways _ _ E) as [_ H]. destruct (H w' Hw') as (w & Hw & Es).
    inversion Es. eauto.
  - rewrite E in Hw'. apply in_app_or in Hw'. destruct Hw' as [Hin|[<-|[]]].
    + left. eauto.
    + right. left. simpl. auto.
  - rewrite E in Hw'. apply in_map_iff in Hw'. destruct Hw' as (w & <- & Hw).
    destruct (Z.eqb_spec (Workout.workoutId w) W) as [Eid|].
    + right. right. simpl. exists n, d. rewrite Eid. auto.
    + left. eauto.
  - rewrite E in Hw'. apply filter_In in Hw'. left. exists w'. tauto.
Qed.

(** C8.  From a reachable store, after any request and after any sequence
    of requests, a workout that was completed is still there and every row
    with its identifier has a non-null [completedAt].  A request leaves each
    [completedAt] as it was, or creates a workout that is in progress, or is
    the completion of the workout, which writes its timestamp. *)
Theorem completed_workouts_stay_completed :
  forall s, reachable s ->
    (forall qs w,
        In w (workouts s) -> Workout.completedAt w <> None ->
        (exists w', In w' (workouts (run qs s))
                    /\ Workout.workoutId w' = Workout.workoutId w)
        /\ (forall w', In w' (workouts (run qs s)) ->
                       Workout.workoutId w' = Workout.workoutId w ->
                       Workout.completedAt w' <> None))
    /\ (forall q w',
          In w' (workouts (serve q s)) ->
          (exists w, In w (workouts s)
                     /\ Workout.workoutId w = Workout.workoutId w'
                     /\ Workout.completedAt w = Workout.completedAt w')
          \/ (workout_exists s (Workout.workoutId w') = false
              /\ Workout.completedAt w' = None)
          \/ (exists workoutName date,
                q = CompleteWorkout (Workout.workoutId w') workoutName date
                /\ Workout.completedAt w' = Some date)).
Proof.
  intros s Hreach. split; [|intros q w'; apply serve_writes_completedAt].
  intros qs. revert s Hreach.
  induction qs as [|q qs IH]; intros s Hreach w Hw Hc.
  - simpl. split; [eauto|]. intros w' Hw' Eid.
    pose proof (reachable_well_formed s Hreach) as WF.
    now rewrite (unique_key_eq Workout.workoutId (workouts s) w' w (workouts_pk s WF)).
  - simpl. destruct (serve_keeps_completed q s w Hw Hc) as (w1 & Hw1 & Eid1 & Hc1).
    destruct (IH (serve q s) (reachable_serve q s Hreach) w1 Hw1 Hc1) as [Hex Hall].
    rewrite Eid1 in *. split; assumption.
Qed.

Lemma completed_workouts_stay_completed_witness :
  exists w',
    In w' (workouts (run [DeleteEmptyWorkouts 1; PatchWorkout 1 (Some []) None] gym))
    /\ Workout.workoutId w' = 1 /\ Workout.completedAt w' <> None.
Proof.
  destruct (completed_workouts_stay_completed gym gym_reachable) as [H _].
  destruct (H [DeleteEmptyWorkouts 1; PatchWorkout 1 (Some []) None]
              (Workout.mk 1 1 (Some 500) (Some "Push day"%string)))
    as [(w' & Hin & Eid) Hall].
  - simpl. tauto.
  - discriminate.
  - exists w'. split; [exact Hin|]. split; [exact Eid | now apply Hall].
Defined.

(** ** The workout-detail query on the sample store *)

Lemma get_workout_synthesizes_placeholders_witness :
  exists workoutName exercises,
    get_workout 1 gym = Sent 200 (WorkoutView.mk 1 workoutName exercises)
    /\ List.length exercises = 3%nat
    /\ Permutation (map ExerciseView.exerciseId exercises) [1; 1; 2]
    /\ Forall (fun x => ExerciseView.sets x = [SetView.mk 1 None None]) exercises.
Proof.
  destruct (get_workout_synthesizes_placeholders 1 gym gym_well_formed)
    as (workoutName & exercises & H1 & _ & H3 & H4 & H5).
  - vm_compute. discriminate.
  - exists workoutName, exercises. split; [exact H1|]. split; [exact H3|].
    split; [|exact H5].
    eapply perm_trans; [exact H4|]. vm_compute. apply perm_skip, perm_swap.
Defined.

Lemma get_workout_without_sets_is_unhandled_witness :
  get_workout 3 gym = Failed TypeError.
Proof.
  destruct (get_workout_without_sets_is_unhandled 3 gym gym_well_formed) as [H _].
  - reflexivity.
  - reflexivity.
  - exact H.
Defined.

(** ** Ordering, grouping and numbering rows *)

Section Ordering.

Context {A : Type}.
Variable leb : A -> A -> bool.

Lemma insert_by_Permutation (x : A) (l : list A) :
  Permutation (insert_by leb x l) (x :: l).
Proof.
  induction l as [|y t IH]; simpl; [apply Permutation_refl|].
  destruct (leb x y); [apply Permutation_refl|].
  eapply perm_trans; [apply perm_skip, IH | apply perm_swap].
Qed.

Lemma order_by_Permutation (l : list A) : Permutation (order_by leb l) l.
Proof.
  induction l as [|x t IH]; simpl; [constructor|].
  eapply perm_trans; [apply insert_by_Permutation | now apply perm_skip].
Qed.

Lemma order_by_In (l : list A) (x : A) : In x (order_by leb l) <-> In x l.
Proof.
  split; apply Permutation_in;
    [apply order_by_Permutation | apply Permutation_sym, order_by_Permutation].
Qed.

Hypothesis leb_total : forall a b, leb a b = true \/ leb b a = true.

Lemma insert_by_Sorted (x : A) (l : list A) :
  Sorted (fun a b => leb a b = true) l ->
  Sorted (fun a b => leb a b = true) (insert_by leb x l).
Proof.
  induction 1 as [|y t Hs IH Hhd]; simpl; [repeat constructor|].
  destruct (leb x y) eqn:E.
  - constructor; [now constructor | now constructor].
  - constructor; [exact IH|].
    destruct t as [|z t]; simpl.
    + constructor. destruct (leb_total x y); congruence.
    + destruct (leb x z).
      * constructor. destruct (leb_total x y); congruence.
      * inversion Hhd. now constructor.
Qed.

Lemma order_by_Sorted (l : list A) :
  Sorted (fun a b => leb a b = true) (order_by leb l).
Proof.
  induction l as [|x t IH]; simpl; [constructor | now apply insert_by_Sorted].
Qed.

Hypothesis leb_trans :
  forall a b c, leb a b = true -> leb b c = true -> leb a c = true.

(** The first row of an ordered list comes before every row of the list. *)
Lemma order_by_first (l : list A) (h : A) (t : list A) :
  order_by leb l = h :: t -> forall x, In x l -> leb h x = true.
Proof.
  intros E x Hx. apply order_by_In in Hx. rewrite E in Hx.
  pose proof (order_by_Sorted l) as Hs. rewrite E in Hs.
  apply Sorted_StronglySorted in Hs; [|intros a b c; apply leb_trans].
  inversion Hs as [|? ? _ Hall]; subst. destruct Hx as [<-|Hx].
  - destruct (leb_total h h); assumption.
  - rewrite Forall_forall in Hall. now apply Hall.
Qed.

End Ordering.

Lemma count_flat_map {A B} (p : B -> bool) (f : A -> list B) (l : list A) :
  count p (flat_map f l) = list_sum (map (fun x => count p (f x)) l).
Proof.
  unfold count. induction l as [|x t IH]; simpl; [reflexivity|].
  now rewrite filter_app, length_app, IH.
Qed.

Lemma count_Permutation {A} (p : A -> bool) (l l' : list A) :
  Permutation l l' -> count p l = count p l'.
Proof.
  unfold count. induction 1 as [|x l l' _ IH|x y l|l l' l'' _ IH1 _ IH2]; simpl.
  - reflexivity.
  - destruct (p x); simpl; congruence.
  - destruct (p x), (p y); reflexivity.
  - congruence.
Qed.

Lemma list_sum_zero {A} (f : A -> nat) (l : list A) :
  (forall x, In x l -> f x = 0%nat) -> list_sum (map f l) = 0%nat.
Proof.
  induction l as [|x t IH]; simpl; intro H; [reflexivity|].
  rewrite H, IH by auto. reflexivity.
Qed.

(** A sum over distinct keys that vanishes off one key is the term of that
    key. *)
Lemma list_sum_single {A} (f : A -> nat) (l : list A) (k : A) :
  NoDup l -> In k l -> (forall x, In x l -> x <> k -> f x = 0%nat) ->
  list_sum (map f l) = f k.
Proof.
  induction l as [|x t IH]; simpl; [tauto|].
  intros Hnd Hin Hz. inversion Hnd as [|? ? Hnotin Hnd']; subst.
  destruct Hin as [->|Hin].
  - rewrite list_sum_zero; [lia|]. intros y Hy. apply Hz; [auto|]. congruence.
  - rewrite Hz; [|auto|congruence]. simpl. apply IH; auto.
Qed.

Section Distinct.

Context {K : Type}.
Variable eqb : K -> K -> bool.

Lemma distinct_incl (l : list K) (x : K) : In x (distinct eqb l) -> In x l.
Proof.
  induction l as [|a t IH]; simpl; [tauto|].
  intros [->|H]; [now left|]. apply filter_In in H. right. now apply IH.
Qed.

Hypothesis eqb_refl : forall a, eqb a a = true.
Hypothesis eqb_trans :
  forall a b c, eqb a b = true -> eqb b c = true -> eqb a c = true.

(** Every value has a representative among the distinct ones. *)
Lemma distinct_represents (l : list K) (x : K) :
  In x l -> exists y, In y (distinct eqb l) /\ eqb y x = true.
Proof.
  induction l as [|a t IH]; simpl; [tauto|].
  intros [->|Hx]; [exists x; auto|].
  destruct (IH Hx) as (y & Hy & E).
  destruct (eqb a y) eqn:Ea.
  - exists a. split; [now left | eauto].
  - exists y. split; [|assumption]. right. apply filter_In. now rewrite Ea.
Qed.

Hypothesis eqb_eq : forall a b, eqb a b = true -> a = b.

Lemma distinct_NoDup (l : list K) : NoDup (distinct eqb l).
Proof.
  induction l as [|a t IH]; simpl; constructor.
  - intro H. apply filter_In in H. destruct H as [_ H]. now rewrite eqb_refl in H.
  - now apply NoDup_filter.
Qed.

Lemma distinct_In (l : list K) (x : K) : In x (distinct eqb l) <-> In x l.
Proof.
  split; [apply distinct_incl|]. intro Hx.
  destruct (distinct_represents l x Hx) as (y & Hy & E).
  now rewrite <- (eqb_eq _ _ E).
Qed.

End Distinct.

(** Only the first row of a partition gets the number 1. *)
Lemma number_rows_first (partition : list Joined.t) :
  filter (fun b => BestSet.row_number b =? 1) (number_rows partition)
  = match partition with
    | [] => []
    | j :: _ => [BestSet.mk j (volume (Joined.set j)) 1]
    end.
Proof.
  unfold number_rows. destruct partition as [|j t]; [reflexivity|].
  simpl. f_equal.
  assert (H : forall (l : list Joined.t) (k n : nat), (2 <= k)%nat ->
            filter (fun b => BestSet.row_number b =? 1)
              (map (fun jn => BestSet.mk (fst jn) (volume (Joined.set (fst jn)))
                                         (Z.of_nat (snd jn)))
                   (combine l (seq k n))) = []).
  { induction l as [|x l IH]; intros k n Hk; [reflexivity|].
    destruct n as [|n]; [reflexivity|]. simpl.
    destruct (Z.eqb_spec (Z.of_nat k) 1); [lia|]. apply IH. lia. }
  apply H. lia.
Qed.

Lemma number_rows_row (partition : list Joined.t) (b : BestSet.t) :
  In b (number_rows partition) -> In (BestSet.row b) partition.
Proof.
  unfold number_rows. intro H. apply in_map_iff in H. destruct H as ([j n] & <- & H).
  simpl. now apply in_combine_l in H.
Qed.

(** ** The rows of the statistics query *)

Lemma option_eqb_refl {A} (eqb : A -> A -> bool) (x : option A) :
  (forall a, eqb a a = true) -> option_eqb eqb x x = true.
Proof. intro H. destruct x; simpl; auto. Qed.

Lemma option_eqb_trans {A} (eqb : A -> A -> bool) (x y z : option A) :
  (forall a b c, eqb a b = true -> eqb b c = true -> eqb a c = true) ->
  option_eqb eqb x y = true -> option_eqb eqb y z = true -> option_eqb eqb x z = true.
Proof. intro H. destruct x, y, z; simpl; try discriminate; eauto. Qed.

Lemma Zeqb_trans (a b c : Z) : (a =? b) = true -> (b =? c) = true -> (a =? c) = true.
Proof. rewrite !Z.eqb_eq. congruence. Qed.

Lemma String_eqb_trans (a b c : string) :
  String.eqb a b = true -> String.eqb b c = true -> String.eqb a c = true.
Proof. rewrite !String.eqb_eq. congruence. Qed.

Lemma same_group_refl (a : Joined.t) : same_group a a = true.
Proof.
  unfold same_group.
  rewrite !Z.eqb_refl, !String.eqb_refl.
  rewrite !(option_eqb_refl Z.eqb) by apply Z.eqb_refl.
  rewrite !(option_eqb_refl String.eqb) by apply String.eqb_refl.
  rewrite (option_eqb_refl Qeq_bool) by apply Qeq_bool_refl.
  reflexivity.
Qed.

Lemma same_group_trans (a b c : Joined.t) :
  same_group a b = true -> same_group b c = true -> same_group a c = true.
Proof.
  unfold same_group. rewrite !andb_true_iff.
  intros H1 H2.
  repeat match goal with H : _ /\ _ |- _ => destruct H end.
  repeat split;
    first [ eapply Zeqb_trans; eassumption
          | eapply String_eqb_trans; eassumption
          | eapply (option_eqb_trans Z.eqb); [exact Zeqb_trans | eassumption | eassumption]
          | eapply (option_eqb_trans String.eqb);
            [exact String_eqb_trans | eassumption | eassumption]
          | eapply (option_eqb_trans Qeq_bool);
            [exact Qeq_bool_trans | eassumption | eassumption] ].
Qed.

Lemma same_group_columns (a b : Joined.t) :
  same_group a b = true ->
  pair_of a = pair_of b
  /\ option_eqb Z.eqb (SetRow.reps (Joined.set a)) (SetRow.reps (Joined.set b)) = true
  /\ option_eqb Qeq_bool (SetRow.weight (Joined.set a)) (SetRow.weight (Joined.set b))
     = true.
Proof.
  unfold same_group, pair_of. rewrite !andb_true_iff, !Z.eqb_eq.
  intros H. repeat match goal with H : _ /\ _ |- _ => destruct H end.
  repeat split; try assumption. congruence.
Qed.

Lemma pair_eqb_eq (a b : Z * Z) : pair_eqb a b = true <-> a = b.
Proof.
  unfold pair_eqb. destruct a, b. simpl. rewrite andb_true_iff, !Z.eqb_eq.
  split; [intros []; congruence | intros [= -> ->]; auto].
Qed.

Lemma total_key_eqb_eq (a b : Z * Z * Z) : total_key_eqb a b = true <-> a = b.
Proof.
  unfold total_key_eqb. destruct a as [[? ?] ?], b as [[? ?] ?]. simpl.
  rewrite !andb_true_iff, !Z.eqb_eq.
  split; [intros [[] ?]; congruence | intros [= -> -> ->]; auto].
Qed.

Lemma recorded_rows_In (userId : Z) (s : store) (j : Joined.t) :
  In j (recorded_rows userId s) <->
  In (Joined.set j) (sets s) /\ In (Joined.exercise j) (exercises s)
  /\ In (Joined.workout j) (workouts s)
  /\ SetRow.exerciseId (Joined.set j) = Exercise.exerciseId (Joined.exercise j)
  /\ SetRow.workoutId (Joined.set j) = Workout.workoutId (Joined.workout j)
  /\ SetRow.reps (Joined.set j) <> None /\ SetRow.weight (Joined.set j) <> None
  /\ Workout.userId (Joined.workout j) = userId.
Proof.
  unfold recorded_rows. rewrite filter_In, sets_workouts_exercises_In.
  unfold recorded_by. rewrite !andb_true_iff, Z.eqb_eq.
  destruct (SetRow.reps (Joined.set j)), (SetRow.weight (Joined.set j)); simpl;
    intuition congruence.
Qed.

Lemma recorded_pair_rows (userId workoutId exerciseId : Z) (s : store) :
  recorded_pair userId workoutId exerciseId s <->
  In (workoutId, exerciseId) (map pair_of (recorded_rows userId s)).
Proof.
  split.
  - intros (r & w & e & Hr & Hw & He & E1 & E2 & E3 & E4 & E5 & Hn & Hm).
    apply in_map_iff. exists (Joined.mk r e w). split.
    + unfold pair_of. simpl. congruence.
    + apply recorded_rows_In. simpl. repeat split; try assumption; congruence.
  - intro H. apply in_map_iff in H. destruct H as (j & E & Hj).
    apply recorded_rows_In in Hj.
    destruct Hj as (Hr & He & Hw & E1 & E2 & Hn & Hm & Hu).
    unfold pair_of in E. inversion E; subst.
    exists (Joined.set j), (Joined.workout j), (Joined.exercise j).
    repeat split; auto.
Qed.

(** The groups of ["bestSetCTE"]: rows of the query, one for each class of
    equal rows. *)
Lemma grouped_pairs (userId : Z) (s : store) (k : Z * Z) :
  In k (map pair_of (distinct same_group (recorded_rows userId s))) <->
  In k (map pair_of (recorded_rows userId s)).
Proof.
  rewrite !in_map_iff. split; intros (j & E & Hj).
  - exists j. split; [assumption|]. now apply distinct_incl in Hj.
  - destruct (distinct_represents same_group same_group_refl same_group_trans _ _ Hj)
      as (y & Hy & Hsame).
    exists y. split; [|assumption].
    destruct (same_group_columns _ _ Hsame) as [Hp _]. congruence.
Qed.

Lemma filter_flat_map {A B} (p : B -> bool) (f : A -> list B) (l : list A) :
  filter p (flat_map f l) = flat_map (fun x => filter p (f x)) l.
Proof.
  induction l as [|x t IH]; simpl; [reflexivity|]. now rewrite filter_app, IH.
Qed.

Lemma flat_map_of_map {A B C} (g : A -> B) (f : B -> list C) (l : list A) :
  flat_map f (map g l) = flat_map (fun x => f (g x)) l.
Proof. induction l as [|x t IH]; simpl; [reflexivity | now rewrite IH]. Qed.

Lemma list_sum_flat_map {A B} (g : B -> nat) (f : A -> list B) (l : list A) :
  list_sum (map g (flat_map f l)) = list_sum (map (fun x => list_sum (map g (f x))) l).
Proof.
  induction l as [|x t IH]; simpl; [reflexivity|].
  now rewrite map_app, list_sum_app, IH.
Qed.

Lemma flat_map_where {A B C} (c : A -> B -> bool) (p : A -> bool)
  (f : A -> B -> C) (T : list B) (l : list A) :
  flat_map (fun a => flat_map (fun t => if c a t && p a then [f a t] else []) T) l
  = flat_map (fun a => flat_map (fun t => if c a t then [f a t] else []) T)
             (filter p l).
Proof.
  induction l as [|a l IH]; simpl; [reflexivity|].
  destruct (p a) eqn:E; simpl; rewrite IH.
  - f_equal. apply flat_map_ext. intro t. now rewrite andb_true_r.
  - rewrite flat_map_nil; [reflexivity|]. intros t _. now rewrite andb_false_r.
Qed.

Lemma count_where {B C} (p : C -> bool) (c : B -> bool) (f : B -> C) (T : list B) :
  (forall t, p (f t) = true) ->
  count p (flat_map (fun t => if c t then [f t] else []) T) = count c T.
Proof.
  intro H. unfold count. induction T as [|t T IH]; simpl; [reflexivity|].
  destruct (c t); simpl; [rewrite H; simpl|]; now rewrite IH.
Qed.

Lemma count_where_none {B C} (p : C -> bool) (c : B -> bool) (f : B -> C) (T : list B) :
  (forall t, p (f t) = false) ->
  count p (flat_map (fun t => if c t then [f t] else []) T) = 0%nat.
Proof.
  intro H. unfold count. induction T as [|t T IH]; simpl; [reflexivity|].
  destruct (c t); simpl; [rewrite H; simpl|]; now rewrite IH.
Qed.

Lemma bestSetCTE_partitions (userId : Z) (s : store) :
  bestSetCTE userId s
  = flat_map (fun k => number_rows (order_by volume_desc (partition_of userId s k)))
             (distinct pair_eqb
                (map pair_of (distinct same_group (recorded_rows userId s)))).
Proof. unfold bestSetCTE, group_by. now rewrite flat_map_of_map. Qed.

(** The rows of ["bestSetCTE"] numbered 1: the first row of each partition. *)
Lemma bestSetCTE_first (userId : Z) (s : store) :
  filter (fun b => BestSet.row_number b =? 1) (bestSetCTE userId s)
  = flat_map (fun k =>
                match order_by volume_desc (partition_of userId s k) with
                | [] => []
                | j :: _ => [BestSet.mk j (volume (Joined.set j)) 1]
                end)
             (distinct pair_eqb
                (map pair_of (distinct same_group (recorded_rows userId s)))).
Proof.
  rewrite bestSetCTE_partitions, filter_flat_map.
  apply flat_map_ext. intro k. apply number_rows_first.
Qed.

Lemma best_join_total_first (userId : Z) (s : store) :
  best_join_total userId s
  = flat_map (fun b =>
      flat_map (fun t => if joins_pair (pair_of (BestSet.row b)) t
                         then [select_stat (BestSet.row b) t] else [])
               (totalSetsCTE userId s))
      (filter (fun b => BestSet.row_number b =? 1) (bestSetCTE userId s)).
Proof.
  unfold best_join_total.
  apply (flat_map_where
           (fun b t => joins_pair (pair_of (BestSet.row b)) t)
           (fun b => BestSet.row_number b =? 1)
           (fun b t => select_stat (BestSet.row b) t)).
Qed.

Lemma partition_of_In (userId : Z) (s : store) (k : Z * Z) (j : Joined.t) :
  In j (partition_of userId s k) <->
  In j (distinct same_group (recorded_rows userId s)) /\ pair_of j = k.
Proof.
  unfold partition_of. rewrite filter_In, pair_eqb_eq. intuition congruence.
Qed.

(** The first row of the ordered partition of a pair that has rows. *)
Lemma partition_first (userId : Z) (s : store) (k : Z * Z) :
  In k (map pair_of (recorded_rows userId s)) ->
  exists j rest,
    order_by volume_desc (partition_of userId s k) = j :: rest
    /\ In j (recorded_rows userId s) /\ pair_of j = k.
Proof.
  intro Hk. apply grouped_pairs in Hk. apply in_map_iff in Hk.
  destruct Hk as (j0 & E0 & Hj0).
  assert (H0 : In j0 (partition_of userId s k)) by now apply partition_of_In.
  apply (order_by_In volume_desc) in H0.
  destruct (order_by volume_desc (partition_of userId s k)) as [|j rest] eqn:E;
    [contradiction|].
  exists j, rest. split; [reflexivity|].
  assert (Hj : In j (partition_of userId s k)).
  { apply (order_by_In volume_desc). rewrite E. now left. }
  apply partition_of_In in Hj. destruct Hj as [Hj Hp].
  split; [now apply distinct_incl in Hj | assumption].
Qed.

Lemma recorded_rows_total_key (userId : Z) (s : store) (j : Joined.t) :
  In j (recorded_rows userId s) ->
  total_key j = (snd (pair_of j), fst (pair_of j), snd (pair_of j)).
Proof.
  intro H. apply recorded_rows_In in H. destruct H as (_ & _ & _ & E1 & E2 & _).
  unfold total_key, pair_of. simpl. congruence.
Qed.

(** ["totalSetsCTE"] has exactly one row for a pair that has recorded
    sets. *)
Lemma totalSetsCTE_pair (userId : Z) (s : store) (k : Z * Z) :
  In k (map pair_of (recorded_rows userId s)) ->
  count (joins_pair k) (totalSetsCTE userId s) = 1%nat.
Proof.
  intro Hk. unfold totalSetsCTE. fold (recorded_rows userId s).
  rewrite (count_Permutation _ _ _ (order_by_Permutation _ _)).
  unfold group_by. rewrite flat_map_of_map, count_flat_map.
  apply in_map_iff in Hk. destruct Hk as (j & Ej & Hj).
  pose proof (recorded_rows_total_key userId s j Hj) as Ekey. rewrite Ej in Ekey.
  assert (Hgroup : forall x (g : list Joined.t),
            g = filter (fun a => total_key_eqb x (total_key a)) (recorded_rows userId s) ->
            forall j0, In j0 g -> In j0 (recorded_rows userId s) /\ total_key j0 = x).
  { intros x g -> j0 H0. apply filter_In in H0. destruct H0 as [H0 E0].
    apply total_key_eqb_eq in E0. auto. }
  rewrite (list_sum_single _ _ (snd k, fst k, snd k)).
  - simpl.
    destruct (filter (fun a => total_key_eqb (snd k, fst k, snd k) (total_key a))
                     (recorded_rows userId s)) as [|j0 g] eqn:Eg.
    + exfalso. assert (Hin : In j (@nil Joined.t)); [|contradiction].
      rewrite <- Eg. apply filter_In. split; [assumption|].
      apply total_key_eqb_eq. congruence.
    + destruct (Hgroup _ _ (eq_sym Eg) j0 (or_introl eq_refl)) as [H0 E0].
      unfold count, joins_pair. simpl. unfold total_key in E0. inversion E0.
      rewrite !Z.eqb_refl. reflexivity.
  - apply distinct_NoDup. intro a. now apply total_key_eqb_eq.
  - apply distinct_In.
    + intro a. now apply total_key_eqb_eq.
    + intros a b c. rewrite !total_key_eqb_eq. congruence.
    + intros a b. apply total_key_eqb_eq.
    + apply in_map_iff. exists j. split; [congruence | assumption].
  - intros x Hx Hne. simpl.
    destruct (filter (fun a => total_key_eqb x (total_key a)) (recorded_rows userId s))
      as [|j0 g] eqn:Eg; [reflexivity|].
    destruct (Hgroup _ _ (eq_sym Eg) j0 (or_introl eq_refl)) as [H0 E0].
    unfold count, joins_pair. simpl.
    destruct (Z.eqb_spec (fst k) (Workout.workoutId (Joined.workout j0))) as [E1|];
      [|reflexivity].
    destruct (Z.eqb_spec (snd k) (SetRow.exerciseId (Joined.set j0))) as [E2|];
      [|reflexivity].
    exfalso. apply Hne. rewrite <- E0.
    pose proof (recorded_rows_total_key userId s j0 H0) as Ek0.
    rewrite Ek0. unfold total_key in Ek0. inversion Ek0 as [[Ea Eb]].
    unfold pair_of. simpl. congruence.
Qed.

Lemma select_stat_pair (j : Joined.t) (t : TotalSets.t) (workoutId exerciseId : Z) :
  of_stat_pair workoutId exerciseId (select_stat j t)
  = pair_eqb (pair_of j) (workoutId, exerciseId).
Proof. reflexivity. Qed.

(** One statistic row for a pair with recorded sets, none for any other. *)
Lemma best_join_total_pair (userId : Z) (s : store) (workoutId exerciseId : Z) :
  (In (workoutId, exerciseId) (map pair_of (recorded_rows userId s)) ->
   count (of_stat_pair workoutId exerciseId) (best_join_total userId s) = 1%nat)
  /\ (~ In (workoutId, exerciseId) (map pair_of (recorded_rows userId s)) ->
      count (of_stat_pair workoutId exerciseId) (best_join_total userId s) = 0%nat).
Proof.
  rewrite best_join_total_first, bestSetCTE_first, count_flat_map, list_sum_flat_map.
  set (keys := distinct pair_eqb
                 (map pair_of (distinct same_group (recorded_rows userId s)))).
  set (term := fun k : Z * Z => list_sum _).
  assert (Hkeys : forall k, In k keys <-> In k (map pair_of (recorded_rows userId s))).
  { intro k. subst keys. rewrite <- grouped_pairs. apply distinct_In.
    - intro a. now apply pair_eqb_eq.
    - intros a b c. rewrite !pair_eqb_eq. congruence.
    - intros a b. apply pair_eqb_eq. }
  assert (Hoff : forall k, In k keys -> k <> (workoutId, exerciseId) -> term k = 0%nat).
  { intros k Hk Hne. subst term. simpl.
    destruct (partition_first userId s k) as (j & rest & E & _ & Hp);
      [now apply Hkeys|].
    rewrite E. simpl. rewrite Nat.add_0_r. apply count_where_none.
    intro t. rewrite select_stat_pair.
    destruct (pair_eqb (pair_of j) (workoutId, exerciseId)) eqn:Ep; [|reflexivity].
    apply pair_eqb_eq in Ep. congruence. }
  split; intro Hk.
  - rewrite (list_sum_single term keys (workoutId, exerciseId)).
    + subst term. simpl.
      destruct (partition_first userId s (workoutId, exerciseId) Hk)
        as (j & rest & E & _ & Hp).
      rewrite E. simpl. rewrite Nat.add_0_r, count_where.
      * rewrite Hp. now apply totalSetsCTE_pair.
      * intro t. rewrite select_stat_pair. now apply pair_eqb_eq.
    + apply distinct_NoDup. intro a. now apply pair_eqb_eq.
    + now apply Hkeys.
    + exact Hoff.
  - apply list_sum_zero. intros k Hin. apply Hoff; [assumption|].
    intros ->. apply Hk. now apply Hkeys.
Qed.

Lemma volume_desc_total (a b : Joined.t) :
  volume_desc a b = true \/ volume_desc b a = true.
Proof.
  unfold volume_desc.
  destruct (volume (Joined.set a)) as [x|], (volume (Joined.set b)) as [y|]; auto.
  rewrite !Qle_bool_iff. destruct (Qlt_le_dec x y) as [H|H]; [right | left]; auto.
  now apply Qlt_le_weak.
Qed.

Lemma volume_desc_trans (a b c : Joined.t) :
  volume_desc a b = true -> volume_desc b c = true -> volume_desc a c = true.
Proof.
  unfold volume_desc.
  destruct (volume (Joined.set a)) as [x|], (volume (Joined.set b)) as [y|],
           (volume (Joined.set c)) as [z|]; auto; try discriminate.
  rewrite !Qle_bool_iff. intros H1 H2. eapply Qle_trans; eassumption.
Qed.

(** Rows of one group have the same volume. *)
Lemma same_group_volume (j y j' : Joined.t) :
  same_group y j' = true -> volume_desc j y = true -> volume_desc j j' = true.
Proof.
  intros Hsame. destruct (same_group_columns _ _ Hsame) as (_ & Hr & Hw).
  unfold volume_desc, volume.
  destruct (SetRow.reps (Joined.set y)) as [n|],
           (SetRow.reps (Joined.set j')) as [n'|]; simpl in Hr; try discriminate;
  destruct (SetRow.weight (Joined.set y)) as [w|],
           (SetRow.weight (Joined.set j')) as [w'|]; simpl in Hw; try discriminate;
  auto.
  apply Z.eqb_eq in Hr. subst n'. apply Qeq_bool_iff in Hw.
  destruct (match SetRow.reps (Joined.set j) with
            | Some n0 => match SetRow.weight (Joined.set j) with
                         | Some w0 => Some (inject_Z n0 * w0)%Q
                         | None => None
                         end
            | None => None
            end) as [x|]; [|reflexivity].
  rewrite !Qle_bool_iff. now rewrite Hw.
Qed.

(** The first row of the ordered partition has the greatest volume among
    all the recorded rows of the pair. *)
Lemma partition_first_greatest (userId : Z) (s : store) (k : Z * Z)
  (j : Joined.t) (rest : list Joined.t) (j' : Joined.t) :
  order_by volume_desc (partition_of userId s k) = j :: rest ->
  In j' (recorded_rows userId s) -> pair_of j' = k ->
  volume_desc j j' = true.
Proof.
  intros E Hj' Hp.
  destruct (distinct_represents same_group same_group_refl same_group_trans _ _ Hj')
    as (y & Hy & Hsame).
  apply (same_group_volume j y j' Hsame).
  apply (order_by_first volume_desc volume_desc_total volume_desc_trans _ _ _ E).
  apply partition_of_In. split; [assumption|].
  destruct (same_group_columns _ _ Hsame) as [Hpair _]. congruence.
Qed.

(** Where a statistic row comes from. *)
Lemma best_join_total_In (userId : Z) (s : store) (r : Stat.t) :
  In r (best_join_total userId s) ->
  exists j rest t,
    r = select_stat j t
    /\ In j (recorded_rows userId s)
    /\ order_by volume_desc (partition_of userId s (pair_of j)) = j :: rest.
Proof.
  rewrite best_join_total_first, bestSetCTE_first. intro H.
  apply in_flat_map in H. destruct H as (b & Hb & H).
  apply in_flat_map in H. destruct H as (t & _ & H).
  destruct (joins_pair _ t); [|contradiction]. destruct H as [<-|[]].
  apply in_flat_map in Hb. destruct Hb as (k & _ & Hb).
  destruct (order_by volume_desc (partition_of userId s k)) as [|j rest] eqn:E;
    [contradiction|].
  destruct Hb as [<-|[]]. simpl.
  assert (Hj : In j (partition_of userId s k)).
  { apply (order_by_In volume_desc). rewrite E. now left. }
  apply partition_of_In in Hj. destruct Hj as [Hj Hp].
  exists j, rest, t. split; [reflexivity|]. split; [now apply distinct_incl in Hj|].
  now rewrite Hp.
Qed.

(** ** Best-set statistics *)

Section BestSetStatistics.

Variable name_leb : string -> string -> bool.
Hypothesis name_leb_total : forall a b, name_leb a b = true \/ name_leb b a = true.

(** C6.  For an authenticated user (a non-zero [userId]) and a collation
    that is a total order, the query answers 200 with rows such that: a pair
    [(workoutId, exerciseId)] has exactly one row when it has a set row with
    [reps] and [weight] present in a workout of the user, and no row
    otherwise; the [reps] and [weight] of a row are those of one such set row
    of its pair, and [reps * weight] of every set row of the pair with both
    present is at most that of the row; the rows are in ascending order of
    exercise name. *)
Theorem best_set_statistics :
  forall userId s,
    userId <> 0 ->
    exists rows,
      get_user_workout_sets name_leb userId s = Sent 200 rows
      /\ (forall workoutId exerciseId,
            (recorded_pair userId workoutId exerciseId s ->
             count (of_stat_pair workoutId exerciseId) rows = 1%nat)
            /\ (~ recorded_pair userId workoutId exerciseId s ->
                count (of_stat_pair workoutId exerciseId) rows = 0%nat))
      /\ (forall r, In r rows ->
            exists n w best workout exercise,
              Stat.reps r = Some n /\ Stat.weight r = Some w
              /\ In best (sets s)
              /\ SetRow.workoutId best = Stat.workoutId r
              /\ SetRow.exerciseId best = Stat.exerciseId r
              /\ SetRow.reps best = Some n /\ SetRow.weight best = Some w
              /\ In workout (workouts s)
              /\ Workout.workoutId workout = Stat.workoutId r
              /\ Workout.userId workout = userId
              /\ In exercise (exercises s)
              /\ Exercise.exerciseId exercise = Stat.exerciseId r
              /\ Exercise.name exercise = Stat.name r
              /\ forall other n' w',
                   In other (sets s) ->
                   SetRow.workoutId other = Stat.workoutId r ->
                   SetRow.exerciseId other = Stat.exerciseId r ->
                   SetRow.reps other = Some n' -> SetRow.weight other = Some w' ->
                   (inject_Z n' * w' <= inject_Z n * w)%Q)
      /\ Sorted (fun a b => name_leb (Stat.name a) (Stat.name b) = true) rows.
Proof.
  intros userId s Hid. unfold get_user_workout_sets.
  apply truthy_true in Hid. rewrite Hid. simpl.
  eexists. split; [reflexivity|]. split; [|split].
  - intros W E.
    rewrite (count_Permutation _ _ _ (order_by_Permutation _ _)).
    rewrite recorded_pair_rows. apply best_join_total_pair.
  - intros r Hr. apply order_by_In in Hr. apply best_join_total_In in Hr.
    destruct Hr as (j & rest & t & -> & Hj & Efirst).
    pose proof Hj as Hcols. apply recorded_rows_In in Hcols.
    destruct Hcols as (Hset & Hex & Hwo & Ee & Ew & Hn & Hm & Hu).
    destruct (SetRow.reps (Joined.set j)) as [n|] eqn:En; [|contradiction].
    destruct (SetRow.weight (Joined.set j)) as [w|] eqn:Em; [|contradiction].
    exists n, w, (Joined.set j), (Joined.workout j), (Joined.exercise j). simpl.
    rewrite En, Em. repeat split; auto.
    intros other n' w' Hother Ew' Ee' En' Em'.
    assert (Hj' : In (Joined.mk other (Joined.exercise j) (Joined.workout j))
                     (recorded_rows userId s)).
    { apply recorded_rows_In. simpl. rewrite En', Em'.
      repeat split; try assumption; try congruence; discriminate. }
    pose proof (partition_first_greatest userId s (pair_of j) j rest _ Efirst Hj') as H.
    unfold volume_desc, volume in H. simpl in H.
    rewrite En, Em, En', Em' in H. apply Qle_bool_iff. apply H.
    unfold pair_of. simpl. congruence.
  - apply (order_by_Sorted (fun a b => name_leb (Stat.name a) (Stat.name b))).
    intros a b. apply name_leb_total.
Qed.

End BestSetStatistics.

(** The query on the sample store: of the sets (5, 100) and (3, 150) of the
    bench press the first has the greater volume. *)
Example get_user_workout_sets_gym :
  get_user_workout_sets String.leb 1 gym
  = Sent 200
      [Stat.mk (Some "Barbell"%string) 1 "Bench Press" (Some 5) 2 (Some 100%Q) 1
               (Some "Push day"%string) (Some 500);
       Stat.mk (Some "Barbell"%string) 2 "Squat" (Some 8) 1 (Some (45 # 2)%Q) 1
               (Some "Push day"%string) (Some 500)].
Proof. reflexivity. Qed.

Lemma best_set_statistics_witness :
  exists rows,
    get_user_workout_sets String.leb 1 gym = Sent 200 rows
    /\ count (of_stat_pair 1 1) rows = 1%nat
    /\ Sorted (fun a b => String.leb (Stat.name a) (Stat.name b) = true) rows.
Proof.
  destruct (best_set_statistics String.leb String.leb_total 1 gym) as (rows & H1 & H2 & _ & H4).
  - lia.
  - exists rows. split; [exact H1|]. split; [|exact H4].
    apply (H2 1 1).
    exists (SetRow.mk 1 1 1 (Some 5) (Some 100%Q)),
           (Workout.mk 1 1 (Some 500) (Some "Push day"%string)), bench.
    simpl. repeat split; auto; discriminate.
Defined.

(** ** A workout just created *)

Lemma get_workout_no_rows (workoutId : Z) (s : store) :
  workoutId <> 0 -> rows_of_workout workoutId s = [] ->
  get_workout workoutId s = Failed TypeError.
Proof.
  intros Hid Hnone. unfold get_workout. apply truthy_true in Hid. rewrite Hid. simpl.
  now rewrite workout_rows_none.
Qed.

(** The workout that create-workout has just answered with cannot be
    fetched: it has no set row yet. *)
Lemma get_workout_new_workout (userId : Z) (workoutName : option string)
  (s : store) (w : Workout.t) :
  well_formed s ->
  fst (post_new_workout userId workoutName s) = Sent 201 (Some w) ->
  get_workout (Workout.workoutId w) (snd (post_new_workout userId workoutName s))
  = Failed TypeError.
Proof.
  intros WF. unfold post_new_workout.
  destruct (negb (truthy userId)); [discriminate|].
  unfold insert_workout.
  destruct (workout_exists s (workouts_workoutId_seq s)) eqn:Hpk; [discriminate|].
  destruct (user_exists s userId); simpl; [|discriminate].
  intros [= <-]. simpl. apply get_workout_no_rows.
  - pose proof (workouts_seq_positive s WF). lia.
  - unfold rows_of_workout. simpl. apply filter_none.
    pose proof (sets_fk0 s WF) as Hfk. eapply Forall_impl; [|exact Hfk].
    intros r Hr. simpl in Hr.
    destruct (Z.eqb_spec (SetRow.workoutId r) (workouts_workoutId_seq s)) as [E|];
      [|reflexivity].
    rewrite E in Hr. congruence.
Qed.

(** * Further properties *)

(** ** The sequences and the user names *)

Lemma sequences_ahead_with_sets (s : store) (rows : list SetRow.t) :
  sequences_ahead s -> sequences_ahead (with_sets s rows).
Proof. intros [Hu Hw Hn]. constructor; assumption. Qed.

Lemma sequences_ahead_with_workouts (s : store) (rows : list Workout.t) :
  sequences_ahead s ->
  (forall w, In w rows ->
             exists w0, In w0 (workouts s) /\ Workout.workoutId w0 = Workout.workoutId w) ->
  sequences_ahead (with_workouts s rows).
Proof.
  intros [Hu Hw Hn] Hsub. constructor; simpl; try assumption.
  apply Forall_forall. intros w Hin. destruct (Hsub w Hin) as (w0 & H0 & E).
  rewrite Forall_forall in Hw. rewrite <- E. now apply Hw.
Qed.

Lemma rewrite_keeps_ids (hit : Workout.t -> bool) (write : Workout.t -> Workout.t)
  (l : list Workout.t) (w : Workout.t) :
  (forall x, Workout.workoutId (write x) = Workout.workoutId x) ->
  In w (map (fun x => if hit x then write x else x) l) ->
  exists w0, In w0 l /\ Workout.workoutId w0 = Workout.workoutId w.
Proof.
  intros Hid Hin. apply in_map_iff in Hin. destruct Hin as (w0 & <- & H0).
  exists w0. split; [assumption|]. destruct (hit w0); [now rewrite Hid | reflexivity].
Qed.

Lemma below_not_exists {A} (key : A -> Z) (l : list A) (seq : Z) :
  Forall (fun x => key x < seq) l -> existsb (fun x => key x =? seq) l = false.
Proof.
  induction 1 as [|x l Hx _ IH]; simpl; [reflexivity|].
  rewrite IH. destruct (Z.eqb_spec (key x) seq); [lia | reflexivity].
Qed.

Lemma username_taken_In (s : store) (username : string) :
  username_taken s username = true <-> In username (map User.username (users s)).
Proof.
  unfold username_taken. rewrite existsb_exists, in_map_iff.
  split; intros (u & H1 & H2).
  - exists u. split; [now apply String.eqb_eq | assumption].
  - exists u. split; [assumption | now apply String.eqb_eq].
Qed.

Lemma sequences_ahead_insert_user username hashedPassword now s :
  sequences_ahead s -> sequences_ahead (snd (insert_user username hashedPassword now s)).
Proof.
  intros [Hu Hw Hn]. unfold insert_user.
  assert (Hup : forall l, Forall (fun u => User.userId u < users_userId_seq s) l ->
                          Forall (fun u => User.userId u < users_userId_seq s + 1) l).
  { intros l H. eapply Forall_impl; [|exact H]. simpl. intros. lia. }
  destruct (user_exists s (users_userId_seq s)); [constructor; simpl; auto|].
  destruct (username_taken s username) eqn:Ht; [constructor; simpl; auto|].
  constructor; simpl; try assumption.
  - apply Forall_app. split; [auto|]. repeat constructor. simpl. lia.
  - rewrite map_app. simpl. apply NoDup_app; [assumption | repeat constructor; auto |].
    intros a Ha [<-|[]]. apply username_taken_In in Ha. congruence.
Qed.

Lemma sequences_ahead_insert_workout userId workoutName s :
  sequences_ahead s -> sequences_ahead (snd (insert_workout userId workoutName s)).
Proof.
  intros [Hu Hw Hn]. unfold insert_workout.
  assert (Hup : forall l,
            Forall (fun w => Workout.workoutId w < workouts_workoutId_seq s) l ->
            Forall (fun w => Workout.workoutId w < workouts_workoutId_seq s + 1) l).
  { intros l H. eapply Forall_impl; [|exact H]. simpl. intros. lia. }
  destruct (workout_exists s (workouts_workoutId_seq s)); [constructor; simpl; auto|].
  destruct (user_exists s userId); simpl; [|constructor; simpl; auto].
  constructor; simpl; try assumption.
  apply Forall_app. split; [auto|]. repeat constructor. simpl. lia.
Qed.

Lemma sequences_ahead_run_statement q s :
  sequences_ahead s -> sequences_ahead (snd (run_statement q s)).
Proof.
  intro H. destruct q as [r w k W E | r w k W E | W name]; simpl.
  - now apply sequences_ahead_with_sets.
  - unfold add_set, insert_sets. destruct (first_failure _ _); simpl;
      [assumption | now apply sequences_ahead_with_sets].
  - apply sequences_ahead_with_workouts; [assumption|].
    intros w0. now apply rewrite_keeps_ids.
Qed.

Lemma sequences_ahead_run_statements qs s :
  sequences_ahead s -> sequences_ahead (snd (run_statements qs s)).
Proof.
  revert s. induction qs as [|q qs IH]; intros s H; simpl; [assumption|].
  pose proof (sequences_ahead_run_statement q s H) as H1.
  destruct (run_statement q s) as [r s1]. simpl in H1.
  specialize (IH s1 H1). destruct (run_statements qs s1). exact IH.
Qed.

Lemma sequences_ahead_serve q s : sequences_ahead s -> sequences_ahead (serve q s).
Proof.
  intro H. destruct q as [u p h now | u n | W ids | W exs n | W E new | W n d | W E | u];
    simpl.
  - unfold post_auth_sign_up. destruct (_ || _); [assumption|].
    pose proof (sequences_ahead_insert_user u h now s H) as H1.
    destruct (insert_user u h now s) as [[rows|f] s']; exact H1.
  - unfold post_new_workout. destruct (negb (truthy u)); [assumption|].
    pose proof (sequences_ahead_insert_workout u n s H) as H1.
    destruct (insert_workout u n s) as [[rows|f] s']; exact H1.
  - unfold post_workout_new_exercises. destruct (_ || _); [assumption|].
    unfold insert_sets. destruct (first_failure _ _); simpl;
      [assumption | now apply sequences_ahead_with_sets].
  - unfold patch_workout. destruct exs as [exs|]; [|assumption].
    pose proof (sequences_ahead_run_statements (exercisePromises W n exs) s H) as H1.
    destruct (run_statements _ s) as [[f|] s']; exact H1.
  - unfold patch_workout_exercise. destruct (_ || _); [assumption|].
    unfold replace_exercise. destruct (filter _ _); [assumption|].
    destruct new as [new|]; [|assumption].
    destruct (exercise_exists s new); simpl;
      [now apply sequences_ahead_with_sets | assumption].
  - unfold patch_workout_completed. destruct (negb (truthy W)); [assumption|].
    simpl. apply sequences_ahead_with_workouts; [assumption|].
    intros w0. now apply rewrite_keeps_ids.
  - unfold delete_workout_exercise. destruct (_ || _); [assumption|].
    simpl. now apply sequences_ahead_with_sets.
  - unfold delete_user_empty_workouts. destruct (negb (truthy u)); [assumption|].
    rewrite delete_empty_workouts_accepts. simpl. destruct H as [Hu Hw Hn].
    constructor; simpl; try assumption. now apply Forall_kept.
Qed.

Lemma reachable_sequences_ahead s : reachable s -> sequences_ahead s.
Proof.
  induction 1 as [catalogue _ _ | q s _ IH].
  - repeat constructor.
  - now apply sequences_ahead_serve.
Qed.

(** ** Signing up and signing in *)





Section SignIn.

Context {T : Type}.
Variable verify : string -> string -> bool.
Variable sign : Z -> string -> T.




End SignIn.



(** ** Creating, completing, listing and purging workouts *)






Lemma all_workouts_In (userId : Z) (s : store) (w : Workout.t) :
  In w (filter (fun w => (Workout.userId w =? userId)
                         && negb (is_null (Workout.completedAt w))) (workouts s))
  <-> In w (workouts s) /\ Workout.userId w = userId /\ Workout.completedAt w <> None.
Proof.
  rewrite filter_In, andb_true_iff, Z.eqb_eq.
  destruct (Workout.completedAt w); simpl; intuition congruence.
Qed.

(** The listing and the purge split the workouts of a user.  For a non-zero
    [userId], all-workouts lists exactly the workouts owned by the user that
    are completed, and a workout of the user is listed exactly when the
    user's purge leaves it in the table. *)
Theorem listed_or_purged :
  forall userId s,
    userId <> 0 ->
    exists listed,
      get_user_all_workouts userId s = Sent 200 listed
      /\ (forall w, In w listed <->
                    In w (workouts s) /\ Workout.userId w = userId
                    /\ Workout.completedAt w <> None)
      /\ (forall w, In w (workouts s) -> Workout.userId w = userId ->
                    (In w listed <->
                     In w (workouts (snd (delete_user_empty_workouts userId s))))).
Proof.
  intros userId s Hid. unfold get_user_all_workouts, delete_user_empty_workouts.
  apply truthy_true in Hid. rewrite Hid. simpl.
  rewrite delete_empty_workouts_accepts. simpl.
  eexists. split; [reflexivity|]. split.
  - intro w. apply all_workouts_In.
  - intros w Hw Hu. rewrite all_workouts_In, filter_In, negb_true_iff.
    rewrite <- not_true_iff_false, abandoned_by_spec.
    destruct (Workout.completedAt w); intuition congruence.
Qed.

Lemma listed_or_purged_witness :
  get_user_all_workouts 1 gym
  = Sent 200 [Workout.mk 1 1 (Some 500) (Some "Push day"%string)]
  /\ workouts (snd (delete_user_empty_workouts 1 gym))
     = [Workout.mk 1 1 (Some 500) (Some "Push day"%string); Workout.mk 2 2 None None].
Proof.
  destruct (listed_or_purged 1 gym) as (listed & H & _).
  - lia.
  - split; [rewrite H; vm_compute in H; congruence | reflexivity].
Defined.



(** Creating, then purging.  From a reachable store, a workout created for
    an existing user and left as it is goes with the user's next purge: the
    workouts and the set rows after create and purge are those after the
    purge alone, and the listing of the user is the same before and after the
    create. *)
Theorem create_then_purge :
  forall userId workoutName s,
    reachable s -> userId <> 0 -> user_exists s userId = true ->
    let created := snd (post_new_workout userId workoutName s) in
    workouts (snd (delete_user_empty_workouts userId created))
    = workouts (snd (delete_user_empty_workouts userId s))
    /\ sets (snd (delete_user_empty_workouts userId created))
       = sets (snd (delete_user_empty_workouts userId s))
    /\ get_user_all_workouts userId created = get_user_all_workouts userId s.
Proof.
  intros userId workoutName s Hreach Hid Hu created.
  pose proof (reachable_sequences_ahead s Hreach) as [_ Hbelow _].
  pose proof (below_not_exists Workout.workoutId (workouts s) _ Hbelow) as Hfresh.
  fold (workout_exists s (workouts_workoutId_seq s)) in Hfresh.
  pose proof (reachable_well_formed s Hreach) as WF.
  subst created. unfold post_new_workout, insert_workout.
  pose proof Hid as Ht. apply truthy_true in Ht. rewrite Ht, Hfresh, Hu. simpl.
  unfold get_user_all_workouts, delete_user_empty_workouts. rewrite Ht. simpl.
  rewrite !delete_empty_workouts_accepts. simpl.
  assert (Hnew : forall id, abandoned_by userId (Workout.mk id userId None workoutName)
                            = true).
  { intro id. unfold abandoned_by. simpl. apply Z.eqb_refl. }
  rewrite !filter_app. simpl. rewrite Hnew, Z.eqb_refl. simpl. rewrite !app_nil_r.
  split; [reflexivity|]. split; [|reflexivity].
  apply filter_ext_in. intros r Hr. f_equal. rewrite map_app, existsb_app. simpl.
  pose proof (sets_fk0 s WF) as Hfk. rewrite Forall_forall in Hfk.
  specialize (Hfk r Hr). simpl in Hfk.
  destruct (Z.eqb_spec (SetRow.workoutId r) (workouts_workoutId_seq s)) as [E|].
  - rewrite E in Hfk. congruence.
  - now rewrite !orb_false_r.
Qed.

Lemma create_then_purge_witness :
  workouts (snd (delete_user_empty_workouts 2
                   (snd (post_new_workout 2 (Some "Pull"%string) gym))))
  = workouts (snd (delete_user_empty_workouts 2 gym)).
Proof.
  destruct (create_then_purge 2 (Some "Pull"%string) gym gym_reachable) as (H & _).
  - lia.
  - reflexivity.
  - exact H.
Defined.

(** ** Swapping and removing an exercise *)

Lemma of_pair_spec (workoutId exerciseId : Z) (r : SetRow.t) :
  of_pair workoutId exerciseId r = true <->
  SetRow.workoutId r = workoutId /\ SetRow.exerciseId r = exerciseId.
Proof. unfold of_pair. now rewrite andb_true_iff, !Z.eqb_eq. Qed.

Lemma swap_guard (workoutId exerciseId : Z) :
  workoutId <> 0 -> exerciseId <> 0 ->
  negb (truthy workoutId) || negb (truthy exerciseId) = false.
Proof. intros H1 H2. apply truthy_true in H1, H2. now rewrite H1, H2. Qed.

Lemma swap_counts (workoutId exerciseId new setOrder : Z) (l : list SetRow.t) :
  new <> exerciseId ->
  List.length
    (filter (of_key workoutId new setOrder)
       (map (fun r => if of_pair workoutId exerciseId r
                      then SetRow.mk (SetRow.workoutId r) new (SetRow.setOrder r)
                                     (SetRow.reps r) (SetRow.weight r)
                      else r) l))
  = (List.length (filter (of_key workoutId new setOrder) l)
     + List.length (filter (of_key workoutId exerciseId setOrder) l))%nat.
Proof.
  intro Hneq. induction l as [|r l IH]; [reflexivity|].
  cbn [map filter]. destruct (of_pair workoutId exerciseId r) eqn:E.
  - pose proof E as E'. apply of_pair_spec in E'. destruct E' as [E1 E2].
    assert (A1 : of_key workoutId new setOrder
                   (SetRow.mk (SetRow.workoutId r) new (SetRow.setOrder r)
                              (SetRow.reps r) (SetRow.weight r))
                 = (SetRow.setOrder r =? setOrder)).
    { unfold of_key, of_pair. simpl. rewrite E1, !Z.eqb_refl. apply andb_true_r. }
    assert (A2 : of_key workoutId new setOrder r = false).
    { unfold of_key, of_pair. rewrite E2.
      destruct (Z.eqb_spec exerciseId new); [congruence|]. now rewrite !andb_false_r. }
    assert (A3 : of_key workoutId exerciseId setOrder r = (SetRow.setOrder r =? setOrder)).
    { unfold of_key. rewrite E. apply andb_true_r. }
    rewrite A1, A2, A3. destruct (SetRow.setOrder r =? setOrder); simpl; rewrite IH; lia.
  - assert (Hk : of_key workoutId exerciseId setOrder r = false)
      by (unfold of_key; now rewrite E, andb_false_r).
    rewrite Hk. destruct (of_key workoutId new setOrder r); simpl; rewrite IH; lia.
Qed.

(** Swap-exercise, case by case, for non-zero identifiers and a new
    identifier that fit their columns.  With no set row of the pair nothing
    is checked or written and the answer is 204.  With rows of the pair, a
    missing [newExerciseId] is a not-null rejection and one that names no
    exercise is a foreign-key rejection, both leaving the store as it was.
    Otherwise the answer is 204 and every row of the pair gets the new
    [exerciseId] while [workoutId], [setOrder], [reps] and [weight] of the
    rows stay, each as often as before, in no stated order; if the new
    identifier differs from the old, no row of the old pair is left and each
    [setOrder] of the new pair gains the rows the old pair had. *)
Theorem swap_exercise_outcome :
  forall workoutId exerciseId newExerciseId s,
    workoutId <> 0 -> exerciseId <> 0 ->
    int4 workoutId -> int4 exerciseId -> int4_or_null newExerciseId ->
    (rows_of_pair workoutId exerciseId s = [] ->
     patch_workout_exercise workoutId exerciseId newExerciseId s = (Sent 204 [], s))
    /\ (rows_of_pair workoutId exerciseId s <> [] -> newExerciseId = None ->
        patch_workout_exercise workoutId exerciseId newExerciseId s
        = (Failed (NotNullViolation "exerciseId"), s))
    /\ (forall new, rows_of_pair workoutId exerciseId s <> [] ->
                    newExerciseId = Some new -> exercise_exists s new = false ->
                    patch_workout_exercise workoutId exerciseId newExerciseId s
                    = (Failed (ForeignKeyViolation "sets_fk1"), s))
    /\ (forall new, newExerciseId = Some new -> exercise_exists s new = true ->
          let after := snd (patch_workout_exercise workoutId exerciseId newExerciseId s) in
          (exists rows,
              fst (patch_workout_exercise workoutId exerciseId newExerciseId s)
              = Sent 204 rows
              /\ List.length rows = List.length (rows_of_pair workoutId exerciseId s))
          /\ Permutation (map history (sets after)) (map history (sets s))
          /\ (forall r, In r (sets s) -> of_pair workoutId exerciseId r = false ->
                        In r (sets after))
          /\ (new <> exerciseId ->
              rows_of_pair workoutId exerciseId after = []
              /\ forall setOrder,
                   List.length (rows_of_key workoutId new setOrder after)
                   = (List.length (rows_of_key workoutId new setOrder s)
                      + List.length (rows_of_key workoutId exerciseId setOrder s))%nat)).
Proof.
  intros workoutId exerciseId newExerciseId s Hw He _ _ _.
  unfold patch_workout_exercise, replace_exercise, rows_of_pair.
  rewrite (swap_guard _ _ Hw He).
  split; [|split; [|split]].
  - intros ->. reflexivity.
  - intros Hne ->. destruct (filter _ (sets s)); [contradiction | reflexivity].
  - intros new Hne -> Hex. destruct (filter _ (sets s)); [contradiction|].
    now rewrite Hex.
  - intros new -> Hex. rewrite Hex. simpl.
    destruct (filter (of_pair workoutId exerciseId) (sets s)) as [|r0 rest] eqn:Erows.
    + simpl. split; [exists []; auto|]. split; [apply Permutation_refl|].
      split; [auto|].
      intro Hneq. split; [assumption|]. intro k. unfold rows_of_key.
      assert (H0 : filter (of_key workoutId exerciseId k) (sets s) = []).
      { apply filter_none. rewrite filter_none in Erows.
        eapply Forall_impl; [|exact Erows]. intros r Hr. unfold of_key. simpl in Hr.
        now rewrite Hr, andb_false_r. }
      rewrite H0. simpl. lia.
    + rewrite <- Erows. simpl. split; [|split; [|split]].
      * eexists. split; [reflexivity|]. apply length_map.
      * rewrite map_map.
        rewrite (map_ext _ history); [apply Permutation_refl|]. intro r.
        destruct (of_pair workoutId exerciseId r); reflexivity.
      * intros r Hr Hno. apply in_map_iff. exists r. now rewrite Hno.
      * intro Hneq. split.
        -- apply filter_none. apply Forall_map. apply Forall_forall. intros r _.
           destruct (of_pair workoutId exerciseId r) eqn:E; [|assumption].
           unfold of_pair. simpl.
           destruct (Z.eqb_spec new exerciseId); [contradiction | apply andb_false_r].
        -- intro k. unfold rows_of_key. now apply swap_counts.
Qed.

Lemma swap_exercise_outcome_witness :
  rows_of_pair 1 1 (snd (patch_workout_exercise 1 1 (Some 3) gym)) = []
  /\ List.length (rows_of_key 1 3 2 (snd (patch_workout_exercise 1 1 (Some 3) gym)))
     = 1%nat
  /\ Permutation (map history (sets (snd (patch_workout_exercise 1 1 (Some 3) gym))))
                 (map history (sets gym)).
Proof.
  destruct (swap_exercise_outcome 1 1 (Some 3) gym) as (_ & _ & _ & H).
  - lia.
  - lia.
  - unfold int4. lia.
  - unfold int4. lia.
  - unfold int4_or_null, int4. lia.
  - destruct (H 3 eq_refl eq_refl) as (_ & H2 & _ & H4).
    destruct H4 as [H5 H6]; [lia|].
    split; [exact H5|]. split; [rewrite H6; reflexivity | exact H2].
Defined.

Lemma set_row_eta (r : SetRow.t) :
  SetRow.mk (SetRow.workoutId r) (SetRow.exerciseId r) (SetRow.setOrder r)
            (SetRow.reps r) (SetRow.weight r) = r.
Proof. now destruct r. Qed.

(** Swapping there and back.  In a well-formed store, swapping an exercise
    of a workout for one of the catalogue that the workout has no set rows
    of, and then swapping back, leaves the ["sets"] table with the rows it
    had, each as often as before, in no stated order. *)
Theorem swap_exercise_there_and_back :
  forall workoutId exerciseId new s,
    well_formed s ->
    workoutId <> 0 -> exerciseId <> 0 -> new <> 0 ->
    exercise_exists s new = true ->
    rows_of_pair workoutId new s = [] ->
    Permutation
      (sets (snd (patch_workout_exercise workoutId new (Some exerciseId)
                    (snd (patch_workout_exercise workoutId exerciseId (Some new) s)))))
      (sets s).
Proof.
  intros workoutId exerciseId new s WF Hw He Hn Hex Hnone.
  apply Permutation_refl'.
  unfold patch_workout_exercise, replace_exercise, rows_of_pair in *.
  rewrite (swap_guard _ _ Hw He), (swap_guard _ _ Hw Hn).
  destruct (filter (of_pair workoutId exerciseId) (sets s)) as [|r0 rest] eqn:Erows.
  - simpl. now rewrite Hnone.
  - rewrite Hex. simpl.
    assert (Hold : exercise_exists s exerciseId = true).
    { assert (H0 : In r0 (filter (of_pair workoutId exerciseId) (sets s)))
        by (rewrite Erows; now left).
      apply filter_In in H0. destruct H0 as [H0 E0]. apply of_pair_spec in E0.
      pose proof (sets_fk1 s WF) as Hfk. rewrite Forall_forall in Hfk.
      destruct E0 as [_ <-]. now apply Hfk. }
    unfold exercise_exists in *. simpl. rewrite Hold. simpl.
    set (there := map _ (sets s)).
    assert (Hback : map (fun r => if of_pair workoutId new r
                                  then SetRow.mk (SetRow.workoutId r) exerciseId
                                         (SetRow.setOrder r) (SetRow.reps r)
                                         (SetRow.weight r)
                                  else r) there = sets s).
    { subst there. rewrite map_map. rewrite <- (map_id (sets s)) at 2.
      apply map_ext_in. intros r Hr.
      destruct (of_pair workoutId exerciseId r) eqn:E.
      - apply of_pair_spec in E. destruct E as [E1 E2].
        destruct r as [rw re rk rr rq]. simpl in *. subst rw re.
        unfold of_pair. simpl. now rewrite !Z.eqb_refl.
      - rewrite filter_none, Forall_forall in Hnone. now rewrite (Hnone r Hr). }
    assert (H0 : In r0 (filter (of_pair workoutId exerciseId) (sets s)))
      by (rewrite Erows; now left).
    apply filter_In in H0. destruct H0 as [H0 E0].
    destruct (filter (of_pair workoutId new) there) as [|r1 rest1] eqn:F; simpl;
      [|exact Hback].
    exfalso.
    assert (Hin : In (SetRow.mk (SetRow.workoutId r0) new (SetRow.setOrder r0)
                                (SetRow.reps r0) (SetRow.weight r0))
                     (filter (of_pair workoutId new) there)).
    { apply filter_In. split.
      - subst there. apply in_map_iff. exists r0. now rewrite E0.
      - apply of_pair_spec in E0. destruct E0 as [E1 _].
        unfold of_pair. simpl. now rewrite E1, !Z.eqb_refl. }
    rewrite F in Hin. contradiction.
Qed.

Lemma swap_exercise_there_and_back_witness :
  Permutation
    (sets (snd (patch_workout_exercise 1 3 (Some 1)
                  (snd (patch_workout_exercise 1 1 (Some 3) gym)))))
    (sets gym).
Proof.
  apply (swap_exercise_there_and_back 1 1 3 gym gym_well_formed); try lia; reflexivity.
Defined.

(** Remove-exercise on non-zero identifiers that fit their columns answers
    204 with the rows of the pair, in no stated order, which are exactly the
    rows it deletes: no row of the pair is left, every other row stays, and
    the other tables are as they were.  Removing again answers 204 with no
    rows and changes nothing. *)
Theorem remove_exercise_outcome :
  forall workoutId exerciseId s,
    workoutId <> 0 -> exerciseId <> 0 ->
    int4 workoutId -> int4 exerciseId ->
    let after := snd (delete_workout_exercise workoutId exerciseId s) in
    (exists rows,
        fst (delete_workout_exercise workoutId exerciseId s) = Sent 204 rows
        /\ Permutation rows (rows_of_pair workoutId exerciseId s))
    /\ rows_of_pair workoutId exerciseId after = []
    /\ (forall r, In r (sets after) <->
                  In r (sets s) /\ ~ (SetRow.workoutId r = workoutId
                                      /\ SetRow.exerciseId r = exerciseId))
    /\ (forall w e, (w, e) <> (workoutId, exerciseId) ->
                    rows_of_pair w e after = rows_of_pair w e s)
    /\ (List.length (sets after) + List.length (rows_of_pair workoutId exerciseId s)
        = List.length (sets s))%nat
    /\ users after = users s /\ workouts after = workouts s
    /\ exercises after = exercises s
    /\ delete_workout_exercise workoutId exerciseId after = (Sent 204 [], after).
Proof.
  intros workoutId exerciseId s Hw He _ _ after. subst after.
  unfold delete_workout_exercise, delete_sets_of, rows_of_pair.
  rewrite (swap_guard _ _ Hw He). simpl.
  assert (Hgone : filter (of_pair workoutId exerciseId)
                    (filter (fun r => negb (of_pair workoutId exerciseId r)) (sets s)) = []).
  { apply filter_none. apply Forall_forall. intros r Hr. apply filter_In in Hr.
    now apply negb_true_iff. }
  split; [eexists; split; [reflexivity | apply Permutation_refl]|].
  split; [exact Hgone|]. split; [|split; [|split]].
  - intro r. rewrite filter_In, negb_true_iff, <- not_true_iff_false, of_pair_spec.
    reflexivity.
  - intros w e Hne. apply filter_filter_implied. intros r _ E.
    apply of_pair_spec in E. destruct E as [E1 E2].
    apply negb_true_iff, not_true_iff_false. intro E'. apply of_pair_spec in E'.
    destruct E' as [E1' E2']. apply Hne. congruence.
  - clear Hgone. induction (sets s) as [|r l IH]; simpl; [reflexivity|].
    destruct (of_pair workoutId exerciseId r); simpl; lia.
  - repeat split. rewrite Hgone. unfold with_sets. simpl. do 2 f_equal.
    apply filter_filter_implied. auto.
Qed.

Lemma remove_exercise_outcome_witness :
  (exists rows,
      fst (delete_workout_exercise 1 1 gym) = Sent 204 rows
      /\ Permutation rows [SetRow.mk 1 1 1 (Some 5) (Some 100%Q);
                           SetRow.mk 1 1 2 (Some 3) (Some 150%Q)])
  /\ rows_of_pair 1 2 (snd (delete_workout_exercise 1 1 gym)) = rows_of_pair 1 2 gym.
Proof.
  destruct (remove_exercise_outcome 1 1 gym) as (H1 & _ & _ & H4 & _).
  - lia.
  - lia.
  - unfold int4. lia.
  - unfold int4. lia.
  - split; [exact H1 | apply H4; discriminate].
Defined.

(** Attaching, then removing.  Attaching one exercise the workout has no
    set rows of, and then removing it from the workout, answers with the row
    the attach created and gives back the store the attach started from. *)
Theorem attach_then_remove :
  forall workoutId exerciseId s,
    workoutId <> 0 -> exerciseId <> 0 ->
    workout_exists s workoutId = true -> exercise_exists s exerciseId = true ->
    rows_of_pair workoutId exerciseId s = [] ->
    fst (delete_workout_exercise workoutId exerciseId
           (snd (post_workout_new_exercises workoutId [exerciseId] s)))
    = Sent 204 [SetRow.mk workoutId exerciseId 1 None None]
    /\ snd (delete_workout_exercise workoutId exerciseId
              (snd (post_workout_new_exercises workoutId [exerciseId] s)))
       = s.
Proof.
  intros workoutId exerciseId s Hw He Hwe Hee Hnone.
  rewrite post_workout_new_exercises_accepts; try assumption;
    [|discriminate|repeat constructor; assumption].
  unfold delete_workout_exercise, delete_sets_of, rows_of_pair in *.
  rewrite (swap_guard _ _ Hw He). simpl.
  rewrite !filter_app, Hnone. simpl.
  unfold of_pair at 1 3. simpl. rewrite !Z.eqb_refl. simpl.
  split; [reflexivity|]. rewrite app_nil_r.
  assert (Hkeep : filter (fun r => negb (of_pair workoutId exerciseId r)) (sets s) = sets s).
  { rewrite filter_none in Hnone. clear - Hnone.
    induction Hnone as [|r l Hr _ IH]; simpl; [reflexivity|]. now rewrite Hr, IH. }
  rewrite Hkeep. unfold with_sets. simpl. now destruct s.
Qed.

Lemma attach_then_remove_witness :
  snd (delete_workout_exercise 3 2 (snd (post_workout_new_exercises 3 [2] gym))) = gym.
Proof.
  destruct (attach_then_remove 3 2 gym) as [_ H].
  - lia.
  - lia.
  - reflexivity.
  - reflexivity.
  - reflexivity.
  - exact H.
Defined.

(** Attaching, then fetching.  In a well-formed store, once a non-empty
    list of catalogued exercises is attached to an existing workout the
    detail query answers 200, with the name of the workout and one entry per
    set row, in no stated order: the [exerciseId]s of the entries are those
    of the rows the workout had and the attached identifiers, each as often
    as it has rows or is listed. *)
Theorem attach_then_get_workout :
  forall workoutId exerciseIds s w,
    well_formed s ->
    In w (workouts s) -> Workout.workoutId w = workoutId ->
    exerciseIds <> [] ->
    Forall (fun id => exercise_exists s id = true) exerciseIds ->
    exists exercises,
      get_workout workoutId (snd (post_workout_new_exercises workoutId exerciseIds s))
      = Sent 200 (WorkoutView.mk workoutId (Workout.workoutName w) exercises)
      /\ Permutation (map ExerciseView.exerciseId exercises)
                     (map SetRow.exerciseId (rows_of_workout workoutId s) ++ exerciseIds).
Proof.
  intros workoutId exerciseIds s w WF Hw Ew Hne Hall.
  assert (Hex : workout_exists s workoutId = true)
    by (apply workout_exists_In; eauto).
  pose proof (well_formed_workout_id s workoutId WF Hex) as Hid.
  pose proof (well_formed_insert_sets (new_exercise_rows workoutId exerciseIds) s WF)
    as WF'.
  rewrite post_workout_new_exercises_accepts by assumption.
  rewrite insert_sets_accepts in WF' by now apply new_exercise_rows_fk.
  simpl in *.
  set (after := with_sets s (sets s ++ new_exercise_rows workoutId exerciseIds)) in *.
  pose proof (workout_rows_sets workoutId after WF') as Hmap.
  assert (Hrows : rows_of_workout workoutId after
                  = rows_of_workout workoutId s ++ new_exercise_rows workoutId exerciseIds).
  { unfold rows_of_workout, after. simpl. rewrite filter_app. f_equal.
    unfold new_exercise_rows. clear. induction exerciseIds as [|id l IH]; simpl;
      [reflexivity|]. now rewrite Z.eqb_refl, IH. }
  unfold get_workout. apply truthy_true in Hid. rewrite Hid. simpl.
  destruct (workout_rows workoutId after) as [|row0 rest] eqn:E.
  - exfalso. simpl in Hmap. rewrite Hrows in Hmap.
    destruct exerciseIds; [contradiction|].
    destruct (rows_of_workout workoutId s); discriminate.
  - assert (H0 : In row0 (workout_rows workoutId after)) by (rewrite E; now left).
    unfold workout_rows in H0. apply filter_In in H0. destruct H0 as [H0 Hb].
    apply sets_join_In in H0. destruct H0 as (_ & _ & Hw0 & _ & _).
    apply andb_true_iff in Hb. destruct Hb as [_ Hb]. apply Z.eqb_eq in Hb.
    assert (Joined.workout row0 = w).
    { apply (unique_key_eq Workout.workoutId (workouts s)); try assumption.
      - exact (workouts_pk s WF).
      - congruence. }
    exists (map exerObj (row0 :: rest)). split; [now subst w|].
    assert (Hids : forall l, map ExerciseView.exerciseId (map exerObj l)
                             = map SetRow.exerciseId (map Joined.set l)).
    { intro l. rewrite !map_map. reflexivity. }
    rewrite Hids, Hmap, Hrows, map_app. apply Permutation_refl'.
    f_equal. unfold new_exercise_rows. rewrite map_map. simpl. apply map_id.
Qed.

Lemma attach_then_get_workout_witness :
  exists exercises,
    get_workout 3 (snd (post_workout_new_exercises 3 [2; 3] gym))
    = Sent 200 (WorkoutView.mk 3 None exercises)
    /\ Permutation (map ExerciseView.exerciseId exercises) [2; 3].
Proof.
  destruct (attach_then_get_workout 3 [2; 3] gym (Workout.mk 3 1 None None) gym_well_formed)
    as (exercises & H1 & H2).
  - simpl. tauto.
  - reflexivity.
  - discriminate.
  - repeat constructor.
  - exists exercises. split; [exact H1 | exact H2].
Defined.

(** Attaching, then recording the first set.  After an exercise the workout
    has no first-set row of is attached, submitting its entry with
    [setOrder = 1] and [reps] that fit their column answers 204 and leaves
    exactly one row of [(workoutId, exerciseId, 1)], carrying the submitted
    [reps] and [weight]. *)
Theorem attach_then_patch_first_set :
  forall workoutId exerciseId reps weight s,
    workoutId <> 0 ->
    workout_exists s workoutId = true -> exercise_exists s exerciseId = true ->
    int4_or_null reps ->
    rows_of_key workoutId exerciseId 1 s = [] ->
    let attached := snd (post_workout_new_exercises workoutId [exerciseId] s) in
    let body := Some [ExerciseEntry.mk exerciseId [SetEntry.mk reps weight 1]] in
    fst (patch_workout workoutId body None attached) = Sent 204 tt
    /\ rows_of_key workoutId exerciseId 1 (snd (patch_workout workoutId body None attached))
       = [SetRow.mk workoutId exerciseId 1 reps weight].
Proof.
  intros workoutId exerciseId reps weight s Hw Hwe Hee _ Hnone attached body.
  subst attached body.
  rewrite post_workout_new_exercises_accepts; try assumption;
    [|discriminate|repeat constructor; assumption].
  rewrite patch_workout_first_set. simpl. split; [reflexivity|].
  unfold rows_of_key in *. simpl. rewrite map_app, filter_app. simpl.
  assert (Hk : of_key workoutId exerciseId 1 (SetRow.mk workoutId exerciseId 1 None None)
               = true) by (apply of_key_spec; auto).
  assert (Hk' : of_key workoutId exerciseId 1 (SetRow.mk workoutId exerciseId 1 reps weight)
                = true) by (apply of_key_spec; auto).
  rewrite Hk, Hk'. rewrite map_untouched by assumption. now rewrite Hnone.
Qed.

Lemma attach_then_patch_first_set_witness :
  rows_of_key 3 2 1
    (snd (patch_workout 3 (Some [ExerciseEntry.mk 2 [SetEntry.mk (Some 10) (Some 60%Q) 1]])
            None (snd (post_workout_new_exercises 3 [2] gym))))
  = [SetRow.mk 3 2 1 (Some 10) (Some 60%Q)].
Proof.
  destruct (attach_then_patch_first_set 3 2 (Some 10) (Some 60%Q) gym) as [_ H].
  - lia.
  - reflexivity.
  - reflexivity.
  - unfold int4_or_null, int4. lia.
  - reflexivity.
  - exact H.
Defined.

(** ** What a request leaves alone *)

Lemma filter_map_fixed {A} (p : A -> bool) (f : A -> A) (l : list A) :
  (forall x, p (f x) = p x) -> (forall x, p x = true -> f x = x) ->
  filter p (map f l) = filter p l.
Proof.
  intros Hp Hf. induction l as [|x l IH]; simpl; [reflexivity|].
  rewrite Hp. destruct (p x) eqn:E; [rewrite Hf by assumption|]; now rewrite IH.
Qed.

Lemma rewrite_other_workout (workoutId other : Z) (hit : SetRow.t -> bool)
  (write : SetRow.t -> SetRow.t) (l : list SetRow.t) :
  other <> workoutId ->
  (forall r, hit r = true -> SetRow.workoutId r = workoutId) ->
  (forall r, SetRow.workoutId (write r) = SetRow.workoutId r) ->
  filter (fun r => SetRow.workoutId r =? other)
         (map (fun r => if hit r then write r else r) l)
  = filter (fun r => SetRow.workoutId r =? other) l.
Proof.
  intros Hne Hhit Hw. apply filter_map_fixed.
  - intro r. destruct (hit r); [now rewrite Hw | reflexivity].
  - intros r E. apply Z.eqb_eq in E. destruct (hit r) eqn:H; [|reflexivity].
    apply Hhit in H. congruence.
Qed.

Lemma of_key_workout (workoutId exerciseId setOrder : Z) (r : SetRow.t) :
  of_key workoutId exerciseId setOrder r = true -> SetRow.workoutId r = workoutId.
Proof. intro H. apply of_key_spec in H. tauto. Qed.

Lemma of_pair_workout (workoutId exerciseId : Z) (r : SetRow.t) :
  of_pair workoutId exerciseId r = true -> SetRow.workoutId r = workoutId.
Proof. intro H. apply of_pair_spec in H. tauto. Qed.

Lemma run_statement_other_workout q s workoutId other :
  aimed workoutId q -> other <> workoutId ->
  rows_of_workout other (snd (run_statement q s)) = rows_of_workout other s.
Proof.
  intros Ha Hne. unfold rows_of_workout.
  destruct q as [r w k W E | r w k W E | W name]; simpl in *; subst.
  - eapply rewrite_other_workout;
      [eassumption | intros r0 H0; eapply of_key_workout; exact H0 | reflexivity].
  - unfold add_set, insert_sets. destruct (first_failure _ _); simpl; [reflexivity|].
    rewrite filter_app. simpl.
    destruct (Z.eqb_spec workoutId other); [congruence | apply app_nil_r].
  - reflexivity.
Qed.

Lemma run_statements_other_workout qs s workoutId other :
  Forall (aimed workoutId) qs -> other <> workoutId ->
  rows_of_workout other (snd (run_statements qs s)) = rows_of_workout other s.
Proof.
  revert s. induction qs as [|q qs IH]; intros s Hall Hne; simpl; [reflexivity|].
  inversion Hall as [|? ? Hq Hqs]; subst.
  pose proof (run_statement_other_workout q s workoutId other Hq Hne) as H1.
  destruct (run_statement q s) as [r s1]. simpl in H1.
  specialize (IH s1 Hqs Hne). destruct (run_statements qs s1). simpl in *. congruence.
Qed.

Lemma exercisePromises_aimed workoutId workoutName exercises :
  Forall (aimed workoutId) (exercisePromises workoutId workoutName exercises).
Proof.
  unfold exercisePromises. apply Forall_forall. intros q Hq.
  apply in_flat_map in Hq. destruct Hq as (x & _ & Hq). unfold exercise_statements in Hq.
  assert (Hsets : forall q, In q (map (set_statement workoutId (ExerciseEntry.exerciseId x))
                                      (ExerciseEntry.sets x)) -> aimed workoutId q).
  { intros q0 H0. apply in_map_iff in H0. destruct H0 as (e & <- & _).
    unfold set_statement. destruct (SetEntry.setOrder e =? 1); reflexivity. }
  destruct workoutName as [name|]; [|auto].
  destruct (truthy_string (Some name)); [|auto].
  apply in_app_or in Hq. destruct Hq as [Hq|[<-|[]]]; [auto | reflexivity].
Qed.

Lemma run_statements_tables qs s :
  users (snd (run_statements qs s)) = users s
  /\ exercises (snd (run_statements qs s)) = exercises s.
Proof.
  revert s. induction qs as [|q qs IH]; intro s; simpl; [auto|].
  assert (H1 : users (snd (run_statement q s)) = users s
               /\ exercises (snd (run_statement q s)) = exercises s).
  { destruct q as [r w k W E | r w k W E | W name]; simpl; auto.
    unfold add_set, insert_sets. destruct (first_failure _ _); auto. }
  destruct (run_statement q s) as [r s1]. simpl in H1.
  specialize (IH s1). destruct (run_statements qs s1). simpl in *.
  destruct IH, H1. split; congruence.
Qed.

(** A request on the sets of one workout stays in that workout.  Attach,
    upsert, swap and remove, whatever they answer, leave the set rows of
    every other workout exactly as they were. *)
Theorem requests_stay_in_their_workout :
  forall q s workoutId other,
    target q = Some workoutId -> other <> workoutId ->
    rows_of_workout other (serve q s) = rows_of_workout other s.
Proof.
  intros q s workoutId other Ht Hne.
  destruct q as [u p h now | u n | W ids | W exs n | W E new | W n d | W E | u];
    simpl in Ht; try discriminate; injection Ht as ->; simpl.
  - unfold post_workout_new_exercises. destruct (_ || _); [reflexivity|].
    unfold insert_sets. destruct (first_failure _ _); simpl; [reflexivity|].
    unfold rows_of_workout. simpl. rewrite filter_app.
    rewrite (proj2 (filter_none _ (new_exercise_rows workoutId ids))); [apply app_nil_r|].
    unfold new_exercise_rows. apply Forall_map. apply Forall_forall. intros id _. simpl.
    destruct (Z.eqb_spec workoutId other); congruence.
  - unfold patch_workout. destruct exs as [exs|]; [|reflexivity].
    pose proof (run_statements_other_workout (exercisePromises workoutId n exs) s
                  workoutId other (exercisePromises_aimed _ _ _) Hne) as H.
    destruct (run_statements _ s) as [[f|] s']; exact H.
  - unfold patch_workout_exercise. destruct (_ || _); [reflexivity|].
    unfold replace_exercise. destruct (filter _ (sets s)); [reflexivity|].
    destruct new as [new|]; [|reflexivity].
    destruct (exercise_exists s new); simpl; [|reflexivity].
    unfold rows_of_workout. simpl.
    eapply rewrite_other_workout;
      [eassumption | intros r0 H0; eapply of_pair_workout; exact H0 | reflexivity].
  - unfold delete_workout_exercise. destruct (_ || _); [reflexivity|].
    unfold rows_of_workout. simpl. apply filter_filter_implied.
    intros r _ Er. apply Z.eqb_eq in Er. apply negb_true_iff, not_true_iff_false.
    intro H. apply of_pair_workout in H. congruence.
Qed.

Lemma requests_stay_in_their_workout_witness :
  rows_of_workout 2 (serve (DeleteExercise 1 1) gym) = rows_of_workout 2 gym
  /\ rows_of_workout 2
       (serve (PatchWorkout 1 (Some [ExerciseEntry.mk 3 [SetEntry.mk None None 4]]) None) gym)
     = rows_of_workout 2 gym.
Proof.
  split.
  - apply (requests_stay_in_their_workout (DeleteExercise 1 1) gym 1 2); [reflexivity | lia].
  - apply (requests_stay_in_their_workout
             (PatchWorkout 1 (Some [ExerciseEntry.mk 3 [SetEntry.mk None None 4]]) None)
             gym 1 2); [reflexivity | lia].
Defined.

Lemma serve_exercises q s : exercises (serve q s) = exercises s.
Proof.
  destruct q as [u p h now | u n | W ids | W exs n | W E new | W n d | W E | u]; simpl.
  - unfold post_auth_sign_up. destruct (_ || _); [reflexivity|].
    unfold insert_user. destruct (user_exists _ _); [reflexivity|].
    destruct (username_taken _ _); reflexivity.
  - unfold post_new_workout. destruct (negb (truthy u)); [reflexivity|].
    unfold insert_workout. destruct (workout_exists _ _); [reflexivity|].
    destruct (user_exists _ _); reflexivity.
  - unfold post_workout_new_exercises. destruct (_ || _); [reflexivity|].
    unfold insert_sets. destruct (first_failure _ _); reflexivity.
  - unfold patch_workout. destruct exs as [exs|]; [|reflexivity].
    pose proof (run_statements_tables (exercisePromises W n exs) s) as [_ H].
    destruct (run_statements _ s) as [[f|] s']; exact H.
  - unfold patch_workout_exercise. destruct (_ || _); [reflexivity|].
    unfold replace_exercise. destruct (filter _ (sets s)); [reflexivity|].
    destruct new as [new|]; [|reflexivity].
    destruct (exercise_exists s new); reflexivity.
  - unfold patch_workout_completed. destruct (negb (truthy W)); reflexivity.
  - unfold delete_workout_exercise. destruct (_ || _); reflexivity.
  - unfold delete_user_empty_workouts. destruct (negb (truthy u)); [reflexivity|].
    now rewrite delete_empty_workouts_accepts.
Qed.

Section Catalogue.

Variable name_leb : string -> string -> bool.
Hypothesis name_leb_total : forall a b, name_leb a b = true \/ name_leb b a = true.

(** All-exercises answers 200 with the whole catalogue, each exercise as
    often as the table holds it, in ascending order of name for a collation
    that is total; and no sequence of requests changes the catalogue or what
    all-exercises answers. *)
Theorem all_exercises_sorted_catalogue :
  forall s,
    exists listed,
      get_all_exercises name_leb s = Sent 200 listed
      /\ Permutation listed (exercises s)
      /\ Sorted (fun a b => name_leb (Exercise.name a) (Exercise.name b) = true) listed
      /\ forall qs,
           exercises (run qs s) = exercises s
           /\ get_all_exercises name_leb (run qs s) = Sent 200 listed.
Proof.
  intro s. unfold get_all_exercises. eexists. split; [reflexivity|].
  split; [apply order_by_Permutation|].
  split; [apply order_by_Sorted; intros a b; apply name_leb_total|].
  intro qs.
  assert (H : exercises (run qs s) = exercises s).
  { revert s. induction qs as [|q qs IH]; intro s; simpl; [reflexivity|].
    unfold run in IH. rewrite IH. apply serve_exercises. }
  split; [exact H | now rewrite H].
Qed.

End Catalogue.

Lemma all_exercises_sorted_catalogue_witness :
  get_all_exercises String.leb gym = Sent 200 [bench; pull_up; squat].
Proof.
  destruct (all_exercises_sorted_catalogue String.leb String.leb_total gym)
    as (listed & H & _).
  transitivity (Sent 200 listed); [exact H|].
  vm_compute in H. injection H as <-. reflexivity.
Defined.

Lemma run_statements_owner qs s :
  map owner (workouts (snd (run_statements qs s))) = map owner (workouts s).
Proof.
  revert s. induction qs as [|q qs IH]; intro s; simpl; [reflexivity|].
  assert (H1 : map owner (workouts (snd (run_statement q s))) = map owner (workouts s)).
  { destruct q as [r w k W E | r w k W E | W name]; simpl.
    - reflexivity.
    - unfold add_set, insert_sets. destruct (first_failure _ _); reflexivity.
    - now apply map_rewrite_key. }
  destruct (run_statement q s) as [r s1]. simpl in H1.
  specialize (IH s1). destruct (run_statements qs s1). simpl in *. congruence.
Qed.

Lemma serve_owners q s :
  map owner (workouts (serve q s)) = map owner (workouts s)
  \/ (exists userId workoutName,
        q = NewWorkout userId workoutName
        /\ workout_exists s (workouts_workoutId_seq s) = false
        /\ workouts (serve q s)
           = workouts s ++ [Workout.mk (workouts_workoutId_seq s) userId None workoutName])
  \/ (exists userId,
        q = DeleteEmptyWorkouts userId
        /\ workouts (serve q s)
           = filter (fun w => negb (abandoned_by userId w)) (workouts s)).
Proof.
  destruct q as [u p h now | u n | W ids | W exs n | W E new | W n d | W E | u]; simpl.
  - left. unfold post_auth_sign_up. destruct (_ || _); [reflexivity|].
    unfold insert_user. destruct (user_exists _ _); [reflexivity|].
    destruct (username_taken _ _); reflexivity.
  - unfold post_new_workout. destruct (negb (truthy u)); [now left|].
    unfold insert_workout.
    destruct (workout_exists s (workouts_workoutId_seq s)) eqn:Hpk; [now left|].
    destruct (user_exists s u); simpl; [|now left].
    right. left. exists u, n. auto.
  - left. unfold post_workout_new_exercises. destruct (_ || _); [reflexivity|].
    unfold insert_sets. destruct (first_failure _ _); reflexivity.
  - left. unfold patch_workout. destruct exs as [exs|]; [|reflexivity].
    pose proof (run_statements_owner (exercisePromises W n exs) s) as H.
    destruct (run_statements _ s) as [[f|] s']; exact H.
  - left. unfold patch_workout_exercise. destruct (_ || _); [reflexivity|].
    unfold replace_exercise. destruct (filter _ _); [reflexivity|].
    destruct new as [new|]; [|reflexivity].
    destruct (exercise_exists s new); reflexivity.
  - left. unfold patch_workout_completed. destruct (negb (truthy W)); [reflexivity|].
    simpl. now apply map_rewrite_key.
  - left. unfold delete_workout_exercise. destruct (_ || _); reflexivity.
  - unfold delete_user_empty_workouts. destruct (negb (truthy u)); [now left|].
    rewrite delete_empty_workouts_accepts. simpl. right. right. exists u. auto.
Qed.

(** No request hands a workout to another user.  A workout in the table
    after a request was there before with the same identifier and the same
    owner, or it has just been created, in progress, for the [userId] of the
    create-workout request, under an identifier no workout had. *)
Theorem workouts_keep_their_owner :
  forall q s w',
    In w' (workouts (serve q s)) ->
    (exists w, In w (workouts s)
               /\ Workout.workoutId w = Workout.workoutId w'
               /\ Workout.userId w = Workout.userId w')
    \/ (exists workoutName,
          q = NewWorkout (Workout.userId w') workoutName
          /\ workout_exists s (Workout.workoutId w') = false
          /\ Workout.completedAt w' = None).
Proof.
  intros q s w' Hw'.
  destruct (serve_owners q s) as [E | [(u & n & Hq & Hnew & E) | (u & _ & E)]].
  - left. apply (in_map owner) in Hw'. rewrite E in Hw'. apply in_map_iff in Hw'.
    destruct Hw' as (w & Eo & Hw). inversion Eo. eauto.
  - rewrite E in Hw'. apply in_app_or in Hw'. destruct Hw' as [Hin|[<-|[]]].
    + left. eauto.
    + right. exists n. simpl. auto.
  - rewrite E in Hw'. apply filter_In in Hw'. left. exists w'. tauto.
Qed.

Lemma workouts_keep_their_owner_witness :
  (exists w, In w (workouts gym)
             /\ Workout.workoutId w = 3 /\ Workout.userId w = 1)
  \/ (exists workoutName,
        CompleteWorkout 3 None 900 = NewWorkout 1 workoutName
        /\ workout_exists gym 3 = false /\ Some 900 = None).
Proof.
  apply (workouts_keep_their_owner (CompleteWorkout 3 None 900) gym
           (Workout.mk 3 1 (Some 900) None)).
  simpl. tauto.
Defined.

(** ** A call that is rejected in part *)

Lemma run_statements_exists qs s :
  (forall id, workout_exists (snd (run_statements qs s)) id = workout_exists s id)
  /\ (forall id, exercise_exists (snd (run_statements qs s)) id = exercise_exists s id).
Proof.
  revert s. induction qs as [|q qs IH]; intro s; simpl; [auto|].
  destruct (run_statement_exists q s) as [Hw He].
  destruct (run_statement q s) as [r s1]. simpl in *.
  destruct (IH s1) as [Hw' He']. destruct (run_statements qs s1). simpl in *.
  split; intro id; [now rewrite Hw', Hw | now rewrite He', He].
Qed.

(** A statement that is rejected where it runs leaves the store to the
    statements after it and makes the whole fail. *)
Lemma run_statements_rejected qs q qs' s f :
  run_statement q (snd (run_statements qs s)) = (Some f, snd (run_statements qs s)) ->
  snd (run_statements (qs ++ q :: qs') s) = snd (run_statements (qs ++ qs') s)
  /\ fst (run_statements (qs ++ q :: qs') s) <> None.
Proof.
  intro H. rewrite !run_statements_app. simpl. rewrite H.
  destruct (run_statements qs' (snd (run_statements qs s))) as [r' s2]. simpl.
  split; [reflexivity|]. destruct (fst (run_statements qs s)); discriminate.
Qed.

(** The upsert does not roll back.  A body without [exercises] is the
    client error 400 and writes nothing.  An entry with a [setOrder] other
    than 1 for an exercise that is not in the catalogue makes the call fail,
    and yet every other entry of the call is written: the store after the
    call is the store after the same call without that entry. *)
Theorem patch_workout_does_not_roll_back :
  forall workoutId workoutName s,
    patch_workout workoutId None workoutName s
    = (Failed (ClientError 400 "ERROR: Missing exercises."), s)
    /\ forall exerciseId reps weight setOrder before after earlier later,
         setOrder <> 1 -> exercise_exists s exerciseId = false ->
         (exists f,
             fst (patch_workout workoutId
                    (Some (earlier
                           ++ ExerciseEntry.mk exerciseId
                                (before ++ SetEntry.mk reps weight setOrder :: after)
                           :: later))
                    workoutName s) = Failed f)
         /\ snd (patch_workout workoutId
                   (Some (earlier
                          ++ ExerciseEntry.mk exerciseId
                               (before ++ SetEntry.mk reps weight setOrder :: after)
                          :: later))
                   workoutName s)
            = snd (patch_workout workoutId
                     (Some (earlier
                            ++ ExerciseEntry.mk exerciseId (before ++ after) :: later))
                     workoutName s).
Proof.
  intros workoutId workoutName s. split; [reflexivity|].
  intros exerciseId reps weight k before after earlier later Hk Hex.
  unfold patch_workout.
  destruct (exercise_statements_sets workoutId workoutName exerciseId)
    as (tail & _ & Hsplit).
  assert (E : forall mid,
            exercisePromises workoutId workoutName
              (earlier ++ ExerciseEntry.mk exerciseId (before ++ mid ++ after) :: later)
            = (exercisePromises workoutId workoutName earlier
               ++ map (set_statement workoutId exerciseId) before)
              ++ map (set_statement workoutId exerciseId) mid
              ++ (map (set_statement workoutId exerciseId) after ++ tail
                  ++ exercisePromises workoutId workoutName later)).
  { intro mid. unfold exercisePromises. rewrite flat_map_app. simpl.
    rewrite Hsplit, !map_app, <- !app_assoc. reflexivity. }
  pose proof (E [SetEntry.mk reps weight k]) as E1. pose proof (E []) as E0.
  simpl in E1, E0. rewrite E1, E0. clear E E1 E0.
  set (qs := exercisePromises workoutId workoutName earlier
             ++ map (set_statement workoutId exerciseId) before).
  set (qs' := map (set_statement workoutId exerciseId) after ++ tail
              ++ exercisePromises workoutId workoutName later).
  assert (Hrej : exists f,
            run_statement (set_statement workoutId exerciseId (SetEntry.mk reps weight k))
              (snd (run_statements qs s)) = (Some f, snd (run_statements qs s))).
  { unfold set_statement. simpl. destruct (Z.eqb_spec k 1); [contradiction|].
    simpl. unfold add_set, insert_sets. simpl. unfold set_row_fk. simpl.
    destruct (run_statements_exists qs s) as [_ He]. rewrite He, Hex.
    destruct (workout_exists (snd (run_statements qs s)) workoutId); simpl; eauto. }
  destruct Hrej as (f & Hrej).
  destruct (run_statements_rejected qs _ qs' s f Hrej) as [Hsnd Hfst].
  destruct (run_statements (qs ++ _ :: qs') s) as [[f1|] s1]; simpl in *;
    [|contradiction].
  split; [eauto|]. rewrite Hsnd. now destruct (run_statements (qs ++ qs') s) as [[f2|] s2].
Qed.

Lemma patch_workout_does_not_roll_back_witness :
  (exists f,
      fst (patch_workout 1
             (Some [ExerciseEntry.mk 2 [SetEntry.mk (Some 8) (Some 50%Q) 2];
                    ExerciseEntry.mk 9 [SetEntry.mk (Some 1) (Some 1%Q) 2]])
             None gym) = Failed f)
  /\ List.length
       (rows_of_key 1 2 2
          (snd (patch_workout 1
                  (Some [ExerciseEntry.mk 2 [SetEntry.mk (Some 8) (Some 50%Q) 2];
                         ExerciseEntry.mk 9 [SetEntry.mk (Some 1) (Some 1%Q) 2]])
                  None gym))) = 1%nat.
Proof.
  destruct (patch_workout_does_not_roll_back 1 None gym) as [_ H].
  destruct (H 9 (Some 1) (Some 1%Q) 2 [] []
              [ExerciseEntry.mk 2 [SetEntry.mk (Some 8) (Some 50%Q) 2]] [])
    as [Hf Hs].
  - lia.
  - reflexivity.
  - split; [exact Hf|]. simpl app in Hs. rewrite Hs. reflexivity.
Defined.

(** ** More on the statistics *)

Lemma recorded_rows_unfilled (userId : Z) (s : store) (rows : list SetRow.t) :
  Forall (fun r => SetRow.reps r = None \/ SetRow.weight r = None) rows ->
  filter (recorded_by userId) (sets_workouts_exercises (with_sets s (sets s ++ rows)))
  = filter (recorded_by userId) (sets_workouts_exercises s).
Proof.
  intro Hrows. unfold sets_workouts_exercises. simpl.
  rewrite flat_map_app, filter_app.
  match goal with |- _ ++ ?x = _ => assert (Hx : x = []) end; [|now rewrite Hx, app_nil_r].
  apply filter_none. apply Forall_forall. intros j Hj.
  apply in_flat_map in Hj. destruct Hj as (r & Hr & Hj).
  apply in_flat_map in Hj. destruct Hj as (w & _ & Hj).
  destruct (SetRow.workoutId r =? Workout.workoutId w); [|contradiction].
  apply in_flat_map in Hj. destruct Hj as (e & _ & Hj).
  destruct (SetRow.exerciseId r =? Exercise.exerciseId e); [|contradiction].
  destruct Hj as [<-|[]]. rewrite Forall_forall in Hrows.
  unfold recorded_by. simpl. destruct (Hrows r Hr) as [-> | ->]; simpl;
    [reflexivity | now rewrite andb_false_r].
Qed.

(** Attaching exercises changes nobody's statistics: whatever the attach
    answers, the best-set query of every user gives after it what it gave
    before, since the rows it creates have no [reps] and no [weight]. *)
Theorem attach_keeps_statistics :
  forall name_leb userId workoutId exerciseIds s,
    get_user_workout_sets name_leb userId
      (snd (post_workout_new_exercises workoutId exerciseIds s))
    = get_user_workout_sets name_leb userId s.
Proof.
  intros name_leb userId workoutId exerciseIds s. unfold post_workout_new_exercises.
  destruct (_ || _); [reflexivity|].
  unfold insert_sets. destruct (first_failure _ _); simpl; [reflexivity|].
  unfold get_user_workout_sets, best_join_total, bestSetCTE, totalSetsCTE.
  assert (Hnull : Forall (fun r => SetRow.reps r = None \/ SetRow.weight r = None)
                         (new_exercise_rows workoutId exerciseIds)).
  { unfold new_exercise_rows. apply Forall_map. apply Forall_forall. intros. now left. }
  now rewrite !(recorded_rows_unfilled userId s _ Hnull).
Qed.

(** In a well-formed store a set row joins with one workout and one
    exercise. *)
Lemma joined_once (s : store) (x : SetRow.t) :
  well_formed s -> In x (sets s) ->
  exists e w,
    In e (exercises s) /\ In w (workouts s)
    /\ Exercise.exerciseId e = SetRow.exerciseId x
    /\ Workout.workoutId w = SetRow.workoutId x
    /\ flat_map (fun w =>
         if SetRow.workoutId x =? Workout.workoutId w then
           flat_map (fun e =>
                       if SetRow.exerciseId x =? Exercise.exerciseId e
                       then [Joined.mk x e w] else [])
                    (exercises s)
         else [])
         (workouts s)
       = [Joined.mk x e w].
Proof.
  intros WF Hx.
  pose proof (sets_fk0 s WF) as Hfk0. pose proof (sets_fk1 s WF) as Hfk1.
  rewrite Forall_forall in Hfk0, Hfk1.
  pose proof (Hfk0 x Hx) as Hw. pose proof (Hfk1 x Hx) as He. simpl in Hw, He.
  apply workout_exists_In in Hw. destruct Hw as (w & Hw & Ew).
  apply exercise_exists_In in He. destruct He as (e & He & Ee).
  exists e, w. repeat split; try assumption.
  rewrite (flat_map_unique_key Workout.workoutId _ _ _ w (workouts_pk s WF) Hw Ew).
  now rewrite (flat_map_unique_key Exercise.exerciseId _ _ _ e (exercises_pk s WF) He Ee).
Qed.

(** The size of the group of a pair in ["totalSetsCTE"]: the recorded set
    rows of the pair. *)
Lemma recorded_group_count (userId workoutId exerciseId : Z) (s : store) (w : Workout.t) :
  well_formed s ->
  In w (workouts s) -> Workout.workoutId w = workoutId -> Workout.userId w = userId ->
  List.length
    (filter (fun a => total_key_eqb (exerciseId, workoutId, exerciseId) (total_key a))
            (recorded_rows userId s))
  = count (fun x => of_pair workoutId exerciseId x && recorded x) (sets s).
Proof.
  intros WF Hw Ew Eu. unfold recorded_rows, sets_workouts_exercises, count.
  assert (H : forall l, (forall x, In x l -> In x (sets s)) ->
            List.length
              (filter (fun a => total_key_eqb (exerciseId, workoutId, exerciseId)
                                              (total_key a))
                 (filter (recorded_by userId)
                    (flat_map (fun r =>
                       flat_map (fun w0 =>
                         if SetRow.workoutId r =? Workout.workoutId w0 then
                           flat_map (fun e =>
                             if SetRow.exerciseId r =? Exercise.exerciseId e
                             then [Joined.mk r e w0] else []) (exercises s)
                         else []) (workouts s)) l)))
            = List.length (filter (fun x => of_pair workoutId exerciseId x && recorded x) l)).
  { induction l as [|x l IH]; intro Hl; [reflexivity|].
    cbn [flat_map]. rewrite !filter_app, length_app, IH by (intros; apply Hl; now right).
    destruct (joined_once s x WF (Hl x (or_introl eq_refl)))
      as (e & w0 & He & Hw0 & Ee & Ew0 & ->).
    set (j := Joined.mk x e w0).
    assert (Hiff : recorded_by userId j
                   && total_key_eqb (exerciseId, workoutId, exerciseId) (total_key j)
                   = of_pair workoutId exerciseId x && recorded x).
    { apply eq_true_iff_eq.
      unfold recorded_by, recorded, total_key_eqb, total_key, of_pair, j. simpl.
      rewrite Ee, Ew0, !andb_true_iff, !Z.eqb_eq. split.
      - intros [[Hrec _] [[_ E1] E2]]. split; [split; congruence | assumption].
      - intros [[E1 E2] Hrec]. split; [split; [assumption|]|repeat split; congruence].
        rewrite <- Eu. f_equal.
        apply (unique_key_eq Workout.workoutId (workouts s)); try assumption.
        + exact (workouts_pk s WF).
        + congruence. }
    cbn [filter]. rewrite <- Hiff.
    destruct (recorded_by userId j); cbn [filter andb];
      [destruct (total_key_eqb _ (total_key j))|]; reflexivity. }
  apply H. auto.
Qed.

Lemma totalSetsCTE_In (userId : Z) (s : store) (t : TotalSets.t) :
  In t (totalSetsCTE userId s) ->
  exists j0,
    In j0 (recorded_rows userId s)
    /\ t = TotalSets.mk
             (Z.of_nat (List.length
                          (filter (fun a => total_key_eqb (total_key j0) (total_key a))
                                  (recorded_rows userId s))))
             (SetRow.exerciseId (Joined.set j0))
             (Workout.workoutId (Joined.workout j0))
             (Workout.completedAt (Joined.workout j0)).
Proof.
  unfold totalSetsCTE. fold (recorded_rows userId s). intro H.
  apply order_by_In in H. unfold group_by in H. rewrite flat_map_of_map in H.
  apply in_flat_map in H. destruct H as (k & _ & H). simpl in H.
  destruct (filter (fun a => total_key_eqb k (total_key a)) (recorded_rows userId s))
    as [|j0 g] eqn:E; [contradiction|].
  destruct H as [<-|[]].
  assert (H0 : In j0 (filter (fun a => total_key_eqb k (total_key a))
                             (recorded_rows userId s))) by (rewrite E; now left).
  apply filter_In in H0. destruct H0 as [H0 Ek]. apply total_key_eqb_eq in Ek.
  exists j0. split; [assumption|]. subst k. now rewrite E.
Qed.

Lemma best_join_total_sources (userId : Z) (s : store) (r : Stat.t) :
  In r (best_join_total userId s) ->
  exists j t,
    r = select_stat j t
    /\ In j (recorded_rows userId s) /\ In t (totalSetsCTE userId s)
    /\ joins_pair (pair_of j) t = true.
Proof.
  rewrite best_join_total_first, bestSetCTE_first. intro H.
  apply in_flat_map in H. destruct H as (b & Hb & H).
  apply in_flat_map in H. destruct H as (t & Ht & H).
  destruct (joins_pair _ t) eqn:Hjoin; [|contradiction]. destruct H as [<-|[]].
  apply in_flat_map in Hb. destruct Hb as (k & _ & Hb).
  destruct (order_by volume_desc (partition_of userId s k)) as [|j rest] eqn:E;
    [contradiction|].
  destruct Hb as [<-|[]]. simpl in *.
  assert (Hj : In j (partition_of userId s k)).
  { apply (order_by_In volume_desc). rewrite E. now left. }
  apply partition_of_In in Hj. destruct Hj as [Hj _].
  exists j, t. repeat split; try assumption. now apply distinct_incl in Hj.
Qed.

(** The other columns of a statistic row.  In a well-formed store, for a
    non-zero [userId], [totalSets] of a row is the number of set rows of its
    pair with [reps] and [weight] present, duplicates included, and
    [completedAt] and [workoutName] are those of its workout, which the user
    owns. *)
Theorem statistics_total_sets :
  forall name_leb userId s rows r,
    well_formed s -> userId <> 0 ->
    get_user_workout_sets name_leb userId s = Sent 200 rows -> In r rows ->
    Stat.totalSets r
    = Z.of_nat (count (fun x => of_pair (Stat.workoutId r) (Stat.exerciseId r) x
                                && recorded x) (sets s))
    /\ exists w,
         In w (workouts s) /\ Workout.workoutId w = Stat.workoutId r
         /\ Workout.userId w = userId
         /\ Stat.completedAt r = Workout.completedAt w
         /\ Stat.workoutName r = Workout.workoutName w.
Proof.
  intros name_leb userId s rows r WF Hid Hget Hr.
  unfold get_user_workout_sets in Hget. apply truthy_true in Hid. rewrite Hid in Hget.
  simpl in Hget. injection Hget as <-. apply order_by_In in Hr.
  apply best_join_total_sources in Hr. destruct Hr as (j & t & -> & Hj & Ht & Hjoin).
  apply totalSetsCTE_In in Ht. destruct Ht as (j0 & Hj0 & ->).
  unfold joins_pair, pair_of in Hjoin. simpl in Hjoin.
  apply andb_true_iff in Hjoin. destruct Hjoin as [E1 E2]. apply Z.eqb_eq in E1, E2.
  pose proof (recorded_rows_total_key userId s j0 Hj0) as Ekey.
  apply recorded_rows_In in Hj. destruct Hj as (_ & _ & Hw & _ & Ew & _ & _ & Hu).
  apply recorded_rows_In in Hj0.
  destruct Hj0 as (_ & _ & Hw0 & _ & Ew0 & _ & _ & Hu0).
  assert (Joined.workout j0 = Joined.workout j).
  { apply (unique_key_eq Workout.workoutId (workouts s)); try assumption.
    - exact (workouts_pk s WF).
    - congruence. }
  simpl. split.
  - assert (Ek : total_key j0
                 = (SetRow.exerciseId (Joined.set j), SetRow.workoutId (Joined.set j),
                    SetRow.exerciseId (Joined.set j))).
    { rewrite Ekey. unfold pair_of. simpl. rewrite Ew0, <- E1, <- E2. reflexivity. }
    rewrite Ek. f_equal.
    apply (recorded_group_count userId _ _ s (Joined.workout j) WF Hw);
      [congruence | assumption].
  - exists (Joined.workout j). repeat split; try assumption; congruence.
Qed.

Lemma statistics_total_sets_witness :
  Stat.totalSets
    (Stat.mk (Some "Barbell"%string) 1 "Bench Press" (Some 5) 2 (Some 100%Q) 1
             (Some "Push day"%string) (Some 500))
  = Z.of_nat (count (fun x => of_pair 1 1 x && recorded x) (sets gym)).
Proof.
  destruct (statistics_total_sets String.leb 1 gym
              [Stat.mk (Some "Barbell"%string) 1 "Bench Press" (Some 5) 2 (Some 100%Q) 1
                       (Some "Push day"%string) (Some 500);
               Stat.mk (Some "Barbell"%string) 2 "Squat" (Some 8) 1 (Some (45 # 2)%Q) 1
                       (Some "Push day"%string) (Some 500)]
              (Stat.mk (Some "Barbell"%string) 1 "Bench Press" (Some 5) 2 (Some 100%Q) 1
                       (Some "Push day"%string) (Some 500))
              gym_well_formed) as [H _].
  - lia.
  - reflexivity.
  - simpl. tauto.
  - exact H.
Defined.

(** ** The exercises page *)

Lemma savedExercises_selected (allSelected : list Selected.t) (exercises : list Exercise.t) :
  NoDup (map Exercise.exerciseId exercises) ->
  Forall (fun exer => exists e, In e exercises
                                /\ Exercise.exerciseId e = Selected.exerciseId exer)
         allSelected ->
  savedExercises allSelected exercises = map Selected.exerciseId allSelected.
Proof.
  intros Hnd Hall. unfold savedExercises.
  induction Hall as [|exer l (e & He & Ee) _ IH]; simpl; [reflexivity|].
  rewrite IH. f_equal.
  rewrite (flat_map_unique_key Exercise.exerciseId (fun e => [Exercise.exerciseId e])
             _ _ e Hnd He Ee).
  simpl. now rewrite Ee.
Qed.

Lemma savedExercises_known (allSelected : list Selected.t) (exercises : list Exercise.t)
  (id : Z) :
  In id (savedExercises allSelected exercises) ->
  In id (map Exercise.exerciseId exercises)
  /\ In id (map Selected.exerciseId allSelected).
Proof.
  unfold savedExercises. intro H. apply in_flat_map in H. destruct H as (exer & Hx & H).
  apply in_flat_map in H. destruct H as (e & He & H).
  destruct (Z.eqb_spec (Selected.exerciseId exer) (Exercise.exerciseId e)) as [E|];
    [|contradiction].
  destruct H as [<-|[]]. split; [now apply in_map|].
  rewrite <- E. now apply in_map.
Qed.

Section AddAll.

Variable name_leb : string -> string -> bool.

(** "Add all".  In a well-formed store, with the list of exercises the
    page fetched from all-exercises, a non-empty selection made of fetched
    exercises and an existing workout, the request of [handleSaveExercises]
    is answered 201 and attaches every selected exercise once, in the order
    selected.  Whatever is selected, no identifier is sent that is not in
    the catalogue. *)
Theorem add_all_attaches_the_selection :
  forall workoutId allSelected fetched s,
    well_formed s ->
    get_all_exercises name_leb s = Sent 200 fetched ->
    (workout_exists s workoutId = true ->
     allSelected <> [] ->
     Forall (fun exer => exists e, In e fetched
                                   /\ Exercise.exerciseId e = Selected.exerciseId exer)
            allSelected ->
     handleSaveExercises workoutId allSelected fetched s
     = (Sent 201 (map (fun exer => SetRow.mk workoutId (Selected.exerciseId exer) 1 None None)
                      allSelected),
        with_sets s
          (sets s ++ map (fun exer => SetRow.mk workoutId (Selected.exerciseId exer) 1
                                                None None) allSelected)))
    /\ Forall (fun id => exercise_exists s id = true) (savedExercises allSelected fetched).
Proof.
  intros workoutId allSelected fetched s WF Hget.
  unfold get_all_exercises in Hget. injection Hget as <-.
  set (fetched := order_by _ (exercises s)).
  assert (Hperm : Permutation fetched (exercises s)) by apply order_by_Permutation.
  split.
  - intros Hex Hne Hall. unfold handleSaveExercises.
    assert (Hnd : NoDup (map Exercise.exerciseId fetched)).
    { apply (Permutation_NoDup (l := map Exercise.exerciseId (exercises s))).
      - apply Permutation_map. now apply Permutation_sym.
      - exact (exercises_pk s WF). }
    rewrite (savedExercises_selected allSelected fetched Hnd Hall).
    rewrite post_workout_new_exercises_accepts.
    + unfold new_exercise_rows. now rewrite !map_map.
    + eapply well_formed_workout_id; eauto.
    + destruct allSelected; [contradiction | discriminate].
    + assumption.
    + apply Forall_map. eapply Forall_impl; [|exact Hall].
      intros exer (e & He & Ee). simpl. apply exercise_exists_In. exists e.
      split; [|assumption]. eapply Permutation_in; eauto.
  - apply Forall_forall. intros id Hid. apply savedExercises_known in Hid.
    destruct Hid as [Hid _]. apply in_map_iff in Hid. destruct Hid as (e & Ee & He).
    apply exercise_exists_In. exists e. split; [|assumption].
    eapply Permutation_in; eauto.
Qed.

End AddAll.

Lemma add_all_attaches_the_selection_witness :
  fst (handleSaveExercises 3 [Selected.mk "Squat" 2; Selected.mk "Bench Press" 1]
         [bench; pull_up; squat] gym)
  = Sent 201 [SetRow.mk 3 2 1 None None; SetRow.mk 3 1 1 None None].
Proof.
  destruct (add_all_attaches_the_selection String.leb 3
              [Selected.mk "Squat" 2; Selected.mk "Bench Press" 1]
              [bench; pull_up; squat] gym gym_well_formed) as [H _].
  - reflexivity.
  - rewrite H.
    + reflexivity.
    + reflexivity.
    + discriminate.
    + repeat constructor.
      * exists squat. simpl. tauto.
      * exists bench. simpl. tauto.
Defined.

(** Selecting a card and clicking it again.  When no selected exercise has
    the identifier of the card, the first click selects the card and puts it
    last in the selection, and the second click deselects it and gives back
    the selection as it was. *)
Theorem select_then_deselect :
  forall name exerciseId allSelected,
    Forall (fun exer => Selected.exerciseId exer <> exerciseId) allSelected ->
    handleClick name exerciseId false allSelected
    = (true, allSelected ++ [Selected.mk name exerciseId])
    /\ handleClick name exerciseId
         (fst (handleClick name exerciseId false allSelected))
         (snd (handleClick name exerciseId false allSelected))
       = (false, allSelected).
Proof.
  intros name exerciseId allSelected Hall. unfold handleClick. simpl.
  split; [reflexivity|]. f_equal. rewrite filter_app. simpl.
  rewrite Z.eqb_refl. simpl. rewrite app_nil_r.
  induction Hall as [|exer l Hx _ IH]; simpl; [reflexivity|].
  destruct (Z.eqb_spec (Selected.exerciseId exer) exerciseId); [contradiction|].
  simpl. now rewrite IH.
Qed.

Lemma select_then_deselect_witness :
  handleClick "Squat" 2 true (snd (handleClick "Squat" 2 false [Selected.mk "Bench Press" 1]))
  = (false, [Selected.mk "Bench Press" 1]).
Proof.
  destruct (select_then_deselect "Squat" 2 [Selected.mk "Bench Press" 1]) as [_ H].
  - repeat constructor. simpl. lia.
  - exact H.
Defined.

(** ** Integrity along every run *)

(** Whatever requests are served from a fresh database, the store keeps its
    integrity: identifiers of users, workouts and exercises are unique and
    workout identifiers positive, every workout has its user and every set
    row its workout and its exercise, every identifier handed out lies below
    its sequence, and no two users share a name. *)
Theorem service_keeps_integrity :
  forall s, reachable s -> well_formed s /\ sequences_ahead s.
Proof.
  intros s H. split; [now apply reachable_well_formed | now apply reachable_sequences_ahead].
Qed.

Lemma service_keeps_integrity_witness :
  well_formed (serve (ReplaceExercise 1 1 (Some 3)) gym)
  /\ sequences_ahead (serve (ReplaceExercise 1 1 (Some 3)) gym).
Proof.
  apply service_keeps_integrity. apply reachable_serve. exact gym_reachable.
Defined.

(** ** The list of user names *)


